(** * GA4 to bronze-layer pipeline: a shallow embedding and its properties

    The development follows the three Python modules of the package

    - [pipeline/extractors/bigquery_extractor.py]  (class BigQueryExtractor),
    - [pipeline/loaders/s3_loader.py]              (class S3Loader),
    - [pipeline/pipeline.py]                       (class Pipeline),

    and [Settings.validate] of [config/settings.py].

    Python code that talks to BigQuery and S3 is written in a state and
    exception monad over an explicit [World]: the bucket, the warehouse, the
    clock, a script of transport faults and the log of client calls made so
    far.  Every definition keeps the name of the Python function it embeds. *)

From stdpp Require Import gmap strings list fin_maps.
From Stdlib Require Import ZArith Ascii String Lia Sorted.

Local Open Scope Z_scope.

(* ===================================================================== *)
(** ** Python strings                                                     *)
(* ===================================================================== *)

Module PyStr.

(** [s.split(c)] for a one-character separator: never returns an empty
    list, and keeps empty fields. *)
Fixpoint split (c : ascii) (s : string) : list string :=
  match s with
  | EmptyString => [EmptyString]
  | String a s' =>
      if Ascii.eqb a c then EmptyString :: split c s'
      else match split c s' with
           | [] => [String a EmptyString]
           | f :: fs => String a f :: fs
           end
  end.

(** [s.rstrip(c)]: drops every trailing occurrence of the character. *)
Fixpoint rstrip (c : ascii) (s : string) : string :=
  match s with
  | EmptyString => EmptyString
  | String a s' =>
      match rstrip c s' with
      | EmptyString => if Ascii.eqb a c then EmptyString else String a EmptyString
      | r => String a r
      end
  end.

(** [c * n] *)
Fixpoint repeat_char (c : ascii) (n : nat) : string :=
  match n with
  | O => EmptyString
  | S n' => String c (repeat_char c n')
  end.

(** [s.zfill(width)]: pads with zeros on the left, after a leading sign. *)
Definition zfill (width : nat) (s : string) : string :=
  let pad := repeat_char "0" (width - String.length s)%nat in
  match s with
  | String a s' =>
      if (Ascii.eqb a "+" || Ascii.eqb a "-")%bool
      then String a (pad +:+ s')
      else pad +:+ s
  | EmptyString => pad
  end.

(** [s.replace(old, new)] for a non-empty [old]: leftmost occurrences,
    not overlapping.  The recursion is on [s]; [skip] counts the
    characters of a matched occurrence still to be dropped. *)
Fixpoint replace_aux (old new : string) (skip : nat) (s : string) : string :=
  match s with
  | EmptyString => EmptyString
  | String a s' =>
      match skip with
      | S k => replace_aux old new k s'
      | O =>
          if String.prefix old s
          then new +:+ replace_aux old new (String.length old - 1) s'
          else String a (replace_aux old new O s')
      end
  end.

Definition replace (old new s : string) : string := replace_aux old new O s.

(** [s.removeprefix(p)] when [s] starts with [p], nothing otherwise. *)
Fixpoint strip_prefix (p s : string) : option string :=
  match p with
  | EmptyString => Some s
  | String a p' =>
      match s with
      | String b s' => if Ascii.eqb a b then strip_prefix p' s' else None
      | EmptyString => None
      end
  end.

(** [s.startswith(p)] *)
Definition startswith (p s : string) : bool :=
  match strip_prefix p s with
  | Some _ => true
  | None => false
  end.

(** The part of [s] up to its first [c], with that [c]; nothing when [c]
    does not occur in [s]. *)
Fixpoint up_to (c : ascii) (s : string) : option string :=
  match s with
  | EmptyString => None
  | String a s' =>
      if Ascii.eqb a c then Some (String a EmptyString)
      else option_map (String a) (up_to c s')
  end.

(** Decimal digits. *)
Definition is_digit (a : ascii) : bool :=
  let n := nat_of_ascii a in ((48 <=? n) && (n <=? 57))%nat.

Definition digit_val (a : ascii) : Z := Z.of_nat (nat_of_ascii a) - 48.

Definition digit_char (d : Z) : ascii := ascii_of_nat (Z.to_nat (d + 48)).

(** [sorted(l)] and [sorted(l, reverse=True)] on strings, by code points:
    a stable insertion sort for the order [leb]. *)
Fixpoint insert_sorted (leb : string -> string -> bool) (x : string)
    (l : list string) : list string :=
  match l with
  | [] => [x]
  | y :: l' => if leb x y then x :: l else y :: insert_sorted leb x l'
  end.

Definition sort_by (leb : string -> string -> bool) (l : list string)
  : list string :=
  foldr (insert_sorted leb) [] l.

Definition sorted (l : list string) : list string := sort_by String.leb l.

Definition sorted_reverse (l : list string) : list string :=
  sort_by (fun a b => String.leb b a) l.

(** [l[:limit]] with Python's reading of a negative bound. *)
Definition slice_to {A} (limit : Z) (l : list A) : list A :=
  if 0 <=? limit then take (Z.to_nat limit) l
  else take (List.length l - Z.to_nat (- limit))%nat l.

End PyStr.

(* ===================================================================== *)
(** ** Python exceptions                                                  *)
(* ===================================================================== *)

(** The exception classes the three modules raise, catch or let through.
    [ClientError] is botocore's, [NotFound] is google.cloud's; every other
    subclass of [Exception] is an [OtherException].  What is not an
    [Exception] ([KeyboardInterrupt], [SystemExit]) is never caught by the
    pipeline and is not modelled. *)
Inductive ExnClass : Type :=
| ValueError
| IndexError
| OverflowError
| FileNotFoundError
| ClientError
| NotFound
| OtherException.

#[global] Instance ExnClass_eq_dec : EqDecision ExnClass.
Proof. solve_decision. Defined.

(** An exception value: its class, its message [str(e)] and, for a
    [ClientError], the string [e.response['Error']['Code']]. *)
Record Exn : Type := mkExn {
  exn_class : ExnClass;
  exn_code : string;
  exn_msg : string
}.

#[global] Instance Exn_eq_dec : EqDecision Exn.
Proof. solve_decision. Defined.

(** [str(e)] *)
Definition str_exn (e : Exn) : string := exn_msg e.

(** The outcome of a Python call: a value, or a raised exception. *)
Inductive Result (A : Type) : Type :=
| Ok (a : A)
| Raise (e : Exn).
Arguments Ok {A} a.
Arguments Raise {A} e.

(* ===================================================================== *)
(** ** [datetime]: the proleptic Gregorian calendar                       *)
(* ===================================================================== *)

Module PyDate.

(** A [datetime] at midnight: the pipeline only builds datetimes from
    ['%Y-%m-%d'], so the time of day is always 00:00:00 and is left out. *)
Record datetime : Type := mkDate { year : Z; month : Z; day : Z }.

#[global] Instance datetime_eq_dec : EqDecision datetime.
Proof. solve_decision. Defined.

Definition MINYEAR : Z := 1.
Definition MAXYEAR : Z := 9999.

Definition is_leap (y : Z) : bool :=
  (y mod 4 =? 0) && (negb (y mod 100 =? 0) || (y mod 400 =? 0)).

Definition days_in_month (y m : Z) : Z :=
  if m =? 2 then (if is_leap y then 29 else 28)
  else if (m =? 4) || (m =? 6) || (m =? 9) || (m =? 11) then 30
  else 31.

(** Number of days before January 1st of year [y]. *)
Definition days_before_year (y : Z) : Z :=
  let p := y - 1 in p * 365 + p / 4 - p / 100 + p / 400.

(** Number of days of year [y] before the first day of month [m]. *)
Fixpoint days_before_month_aux (y : Z) (k : nat) : Z :=
  match k with
  | O => 0
  | S k' => days_before_month_aux y k' + days_in_month y (Z.of_nat k)
  end.

Definition days_before_month (y m : Z) : Z :=
  days_before_month_aux y (Z.to_nat (m - 1)).

(** [d.toordinal()]: 0001-01-01 is day 1. *)
Definition toordinal (d : datetime) : Z :=
  days_before_year (year d) + days_before_month (year d) (month d) + day d.

(** The values the [datetime] constructor accepts. *)
Definition valid (d : datetime) : bool :=
  (MINYEAR <=? year d) && (year d <=? MAXYEAR) &&
  (1 <=? month d) && (month d <=? 12) &&
  (1 <=? day d) && (day d <=? days_in_month (year d) (month d)).

(** Comparison is the lexicographic comparison of (year, month, day). *)
Definition compare (a b : datetime) : comparison :=
  match year a ?= year b with
  | Eq => match month a ?= month b with
          | Eq => day a ?= day b
          | c => c
          end
  | c => c
  end.

(** [a > b] and [a <= b] *)
Definition gt (a b : datetime) : bool :=
  match compare a b with Gt => true | _ => false end.
Definition le (a b : datetime) : bool := negb (gt a b).

(** [(a - b).days] *)
Definition sub_days (a b : datetime) : Z := toordinal a - toordinal b.

Definition max : datetime := mkDate 9999 12 31.
Definition min : datetime := mkDate 1 1 1.

(** The calendar successor and predecessor of a valid date. *)
Definition next_day (d : datetime) : datetime :=
  if day d <? days_in_month (year d) (month d)
  then mkDate (year d) (month d) (day d + 1)
  else if month d <? 12 then mkDate (year d) (month d + 1) 1
  else mkDate (year d + 1) 1 1.

Definition prev_day (d : datetime) : datetime :=
  if 1 <? day d then mkDate (year d) (month d) (day d - 1)
  else if 1 <? month d
       then mkDate (year d) (month d - 1) (days_in_month (year d) (month d - 1))
       else mkDate (year d - 1) 12 31.

Definition overflow : Exn := mkExn OverflowError "" "date value out of range".

(** [d + timedelta(days=1)]: the next day; past 9999-12-31 the addition
    raises [OverflowError]. *)
Definition add_one_day (d : datetime) : Result datetime :=
  if decide (d = max) then Raise overflow else Ok (next_day d).

(** [d - timedelta(days=1)] *)
Definition sub_one_day (d : datetime) : Result datetime :=
  if decide (d = min) then Raise overflow else Ok (prev_day d).

(** Decimal numeral of [z] on exactly [width] digits (the low ones). *)
Fixpoint digits (width : nat) (z : Z) : string :=
  match width with
  | O => EmptyString
  | S w => digits w (z / 10) +:+ String (PyStr.digit_char (z mod 10)) EmptyString
  end.

(** [d.strftime('%Y-%m-%d')].  The year is written on four digits, as the
    library documents [%Y] (0001, ..., 9999).  For the years 1 to 999
    CPython 3.11 on the GNU C library leaves the leading zeros out
    (['999-12-31']); from the year 1000 on the print is the one written
    here on every platform.  What is proved about a printed date read back
    as a table name is stated from the year 1000 on. *)
Definition strftime (d : datetime) : string :=
  digits 4 (year d) +:+ "-" +:+ digits 2 (month d) +:+ "-" +:+ digits 2 (day d).

(** *** [datetime.strptime(s, '%Y-%m-%d')]

    [_strptime] compiles the format to the regular expression
    [(?P<Y>\d\d\d\d)-(?P<m>1[0-2]|0[1-9]|[1-9])-(?P<d>3[01]|[12]\d|0[1-9]|[1-9]| [1-9])],
    matches it at the start of the text, refuses text left over, and hands
    the three numbers to the [datetime] constructor.  Each group is written
    as the list of its alternatives in the order the regular expression
    tries them; the text is read as ASCII. *)

Definition in_range (lo hi a : ascii) : bool :=
  ((nat_of_ascii lo <=? nat_of_ascii a) && (nat_of_ascii a <=? nat_of_ascii hi))%nat.

Definition group_Y (s : string) : list (Z * string) :=
  match s with
  | String a (String b (String c (String d rest))) =>
      if PyStr.is_digit a && PyStr.is_digit b && PyStr.is_digit c && PyStr.is_digit d
      then [(((PyStr.digit_val a * 10 + PyStr.digit_val b) * 10
              + PyStr.digit_val c) * 10 + PyStr.digit_val d, rest)]
      else []
  | _ => []
  end.

(** Two characters [a b] with [a] in [[a1-a2]] and [b] in [[b1-b2]]. *)
Definition two_chars (a1 a2 b1 b2 : ascii) (s : string) : list (Z * string) :=
  match s with
  | String a (String b rest) =>
      if in_range a1 a2 a && in_range b1 b2 b
      then [(PyStr.digit_val a * 10 + PyStr.digit_val b, rest)]
      else []
  | _ => []
  end.

(** One character in [[1-9]]. *)
Definition one_char (s : string) : list (Z * string) :=
  match s with
  | String a rest => if in_range "1" "9" a then [(PyStr.digit_val a, rest)] else []
  | _ => []
  end.

(** A space, then one character in [[1-9]]. *)
Definition space_char (s : string) : list (Z * string) :=
  match s with
  | String " " rest => one_char rest
  | _ => []
  end.

Definition group_m (s : string) : list (Z * string) :=
  two_chars "1" "1" "0" "2" s ++ two_chars "0" "0" "1" "9" s ++ one_char s.

Definition group_d (s : string) : list (Z * string) :=
  two_chars "3" "3" "0" "1" s ++ two_chars "1" "2" "0" "9" s
  ++ two_chars "0" "0" "1" "9" s ++ one_char s ++ space_char s.

Definition dash (s : string) : list string :=
  match s with
  | String "-" rest => [rest]
  | _ => []
  end.

(** Every way the regular expression matches a prefix of [s], in the
    order a backtracking matcher finds them; [sep] matches what the format
    puts between two groups. *)
Definition regex_matches (sep : string -> list string) (s : string)
  : list (datetime * string) :=
  '(y, s1) ← group_Y s;
  s2 ← sep s1;
  '(m, s3) ← group_m s2;
  s4 ← sep s3;
  '(d, s5) ← group_d s4;
  [(mkDate y m d, s5)].

Definition no_match (format s : string) : Exn :=
  mkExn ValueError ""
    ("time data '" +:+ s +:+ "' does not match format '" +:+ format +:+ "'").

Definition unconverted (rest : string) : Exn :=
  mkExn ValueError "" ("unconverted data remains: " +:+ rest).

Definition out_of_range (d : datetime) : Exn :=
  mkExn ValueError ""
    (if year d =? 0 then "year 0 is out of range"
     else "day is out of range for month").

Definition strptime_with (sep : string -> list string) (format s : string)
  : Result datetime :=
  match regex_matches sep s with
  | [] => Raise (no_match format s)
  | (d, rest) :: _ =>
      match rest with
      | EmptyString => if valid d then Ok d else Raise (out_of_range d)
      | _ => Raise (unconverted rest)
      end
  end.

(** [datetime.strptime(s, '%Y-%m-%d')] *)
Definition strptime (s : string) : Result datetime :=
  strptime_with dash "%Y-%m-%d" s.

(** [datetime.strptime(s, '%Y%m%d')] *)
Definition strptime_compact (s : string) : Result datetime :=
  strptime_with (fun rest => [rest]) "%Y%m%d" s.

End PyDate.

(* ===================================================================== *)
(** ** The world outside the process                                      *)
(* ===================================================================== *)

(** A pandas [DataFrame], as far as the pipeline looks at it: [len(df)],
    [list(df.columns)] and what [df.to_parquet(index=False,
    engine='pyarrow')] gives (the bytes, or the exception it raises). *)
Record DataFrame : Type := mkFrame {
  df_len : nat;
  df_columns : list string;
  df_to_parquet : Result string
}.

(** [df.empty]: some axis has length zero. *)
Definition df_empty (df : DataFrame) : bool :=
  (df_len df =? 0)%nat || (List.length (df_columns df) =? 0)%nat.

(** [pd.DataFrame()] *)
Definition empty_frame : DataFrame := mkFrame 0 [] (Ok ""%string).

(** The [metadata] dict of [_upload_metadata].  [file_size_mb] (a rounded
    float) is kept as the byte count it is computed from; the upload
    timestamp is the clock's date; [dtypes] is left out. *)
Record Metadata : Type := mkMetadata {
  md_date : string;
  md_data_type : string;
  md_record_count : nat;
  md_columns : list string;
  md_file_size_bytes : nat;
  md_upload_date : PyDate.datetime;
  md_s3_key : string
}.

Inductive Body : Type :=
| ParquetBytes (b : string)
| MetadataJson (m : Metadata).

Record S3Object : Type := mkObject {
  obj_body : Body;
  obj_content_type : string
}.

(** The calls the pipeline makes on the boto3 client and on the BigQuery
    client. *)
Inductive Call : Type :=
| S3_head_object (key : string)
| S3_put_object (key : string)
| S3_list_objects_v2 (prefix : string) (delimiter : ascii)
| S3_head_bucket
| S3_create_bucket
| BQ_get_table (name : string)
| BQ_query (query : string)
| BQ_to_dataframe (query : string)
| BQ_list_tables (dataset : string)
| BQ_get_dataset (dataset : string).

#[global] Instance Call_eq_dec : EqDecision Call.
Proof. solve_decision. Defined.

(** - [w_bucket]: the objects of the configured bucket, [None] when the
      bucket does not exist;
    - [w_tables]: the fully qualified names of the warehouse tables;
    - [w_query_result]: the rows a query text selects;
    - [w_template]: the file [config/queries/extract_events.sql], as the
      function [str.format(table_name=.., event_date=..)] computes from its
      text ([None]: no such file);
    - [w_now]: the day of [datetime.now()];
    - [w_faults]: what goes wrong in transport: the n-th client call from
      now raises the n-th entry when it is [Some e], and goes through when
      it is [None] or the script is exhausted;
    - [w_log]: the client calls made so far, most recent first. *)
Record World : Type := mkWorld {
  w_bucket : option (gmap string S3Object);
  w_tables : gset string;
  w_query_result : string -> DataFrame;
  w_template : option (string -> string -> Result string);
  w_now : PyDate.datetime;
  w_faults : list (option Exn);
  w_log : list Call
}.

Definition set_bucket (b : option (gmap string S3Object)) (w : World) : World :=
  mkWorld b (w_tables w) (w_query_result w) (w_template w) (w_now w)
          (w_faults w) (w_log w).

Definition set_faults (fs : list (option Exn)) (w : World) : World :=
  mkWorld (w_bucket w) (w_tables w) (w_query_result w) (w_template w) (w_now w)
          fs (w_log w).

Definition log_call (c : Call) (w : World) : World :=
  mkWorld (w_bucket w) (w_tables w) (w_query_result w) (w_template w) (w_now w)
          (w_faults w) (c :: w_log w).

(* ===================================================================== *)
(** ** The monad of Python computations                                   *)
(* ===================================================================== *)

Definition M (A : Type) : Type := World -> Result A * World.

Definition ret {A} (a : A) : M A := fun w => (Ok a, w).

Definition raise {A} (e : Exn) : M A := fun w => (Raise e, w).

Definition bind {A B} (m : M A) (k : A -> M B) : M B :=
  fun w =>
    match m w with
    | (Ok a, w') => k a w'
    | (Raise e, w') => (Raise e, w')
    end.

(** A computed value or a raised exception, with no effect on the world. *)
Definition lift {A} (r : Result A) : M A := fun w => (r, w).

(** [try: m  except Exception as e: h e] *)
Definition try_except {A} (m : M A) (h : Exn -> M A) : M A :=
  fun w =>
    match m w with
    | (Ok a, w') => (Ok a, w')
    | (Raise e, w') => h e w'
    end.

#[global] Instance M_ret : MRet M := @ret.
#[global] Instance M_bind : MBind M := fun A B k m => bind m k.

(** A call on a client: it is logged, then the fault script decides whether
    it raises in transport or reaches the service. *)
Definition client_call {A} (c : Call) (service : M A) : M A :=
  fun w =>
    let w1 := log_call c w in
    match w_faults w1 with
    | Some e :: fs => (Raise e, set_faults fs w1)
    | None :: fs => service (set_faults fs w1)
    | [] => service w1
    end.

(** *** Function bodies with a mutable local

    [run_daily] fills the dict [result] step by step inside a [try], leaves
    early with [return result], and its [except] clause writes into the
    dict as the statements before the exception left it.  A [Block S R A]
    is a piece of a function body with a local of type [S], inside a
    function returning [R]: it goes on with a value ([Next]), returns from
    the function ([Return]) or raises ([Throw]); the local survives all
    three. *)
Inductive Ctl (R A : Type) : Type :=
| Next (a : A)
| Return (r : R)
| Throw (e : Exn).
Arguments Next {R A} a.
Arguments Return {R A} r.
Arguments Throw {R A} e.

Definition Block (S R A : Type) : Type := S -> World -> Ctl R A * S * World.

Definition block_ret {S R A} (a : A) : Block S R A := fun s w => (Next a, s, w).

Definition block_bind {S R A B} (m : Block S R A) (k : A -> Block S R B)
  : Block S R B :=
  fun s w =>
    match m s w with
    | (Next a, s', w') => k a s' w'
    | (Return r, s', w') => (Return r, s', w')
    | (Throw e, s', w') => (Throw e, s', w')
    end.

#[global] Instance Block_ret {S R} : MRet (Block S R) := @block_ret S R.
#[global] Instance Block_bind {S R} : MBind (Block S R) :=
  fun A B k m => block_bind m k.

(** A call of another function from inside the body. *)
Definition call {S R A} (m : M A) : Block S R A :=
  fun s w =>
    match m w with
    | (Ok a, w') => (Next a, s, w')
    | (Raise e, w') => (Throw e, s, w')
    end.

(** [local = f(local)]: an assignment into the local. *)
Definition assign {S R} (f : S -> S) : Block S R unit :=
  fun s w => (Next tt, f s, w).

(** [return f(local)] and [return local] *)
Definition return_with {S R A} (f : S -> R) : Block S R A :=
  fun s w => (Return (f s), s, w).

Definition return_local {S A} : Block S S A := return_with id.

(** [pass] *)
Definition pass {S R} : Block S R unit := block_ret tt.

(** [try: body  except Exception as e: handler e] *)
Definition try_block {S R A} (body : Block S R A) (handler : Exn -> Block S R A)
  : Block S R A :=
  fun s w =>
    match body s w with
    | (Throw e, s', w') => handler e s' w'
    | out => out
    end.

(** The function whose body is [body], the local starting as [s0].  The
    body ends in a [return]: control never falls off its end. *)
Definition function {S R} (s0 : S) (body : Block S R Empty_set) : M R :=
  fun w =>
    match body s0 w with
    | (Next a, _, _) => match a with end
    | (Return r, _, w') => (Ok r, w')
    | (Throw e, _, w') => (Raise e, w')
    end.

(** [a, b, c = l]: tuple unpacking of a list. *)
Definition unpack3 (l : list string) : Result (string * string * string) :=
  match l with
  | [a; b; c] => Ok (a, b, c)
  | [] => Raise (mkExn ValueError "" "not enough values to unpack (expected 3, got 0)")
  | [_] => Raise (mkExn ValueError "" "not enough values to unpack (expected 3, got 1)")
  | [_; _] => Raise (mkExn ValueError "" "not enough values to unpack (expected 3, got 2)")
  | _ => Raise (mkExn ValueError "" "too many values to unpack (expected 3)")
  end.

(** [l[i]] *)
Definition index {A} (l : list A) (i : nat) : Result A :=
  match l !! i with
  | Some a => Ok a
  | None => Raise (mkExn IndexError "" "list index out of range")
  end.

(* ===================================================================== *)
(** ** The S3 service, as boto3 shows it                                  *)
(* ===================================================================== *)

Module S3.

Definition client_error (code msg : string) : Exn := mkExn ClientError code msg.

Definition not_found (operation : string) : Exn :=
  client_error "404"
    ("An error occurred (404) when calling the " +:+ operation
     +:+ " operation: Not Found").

Definition no_such_bucket (operation : string) : Exn :=
  client_error "NoSuchBucket"
    ("An error occurred (NoSuchBucket) when calling the " +:+ operation
     +:+ " operation: The specified bucket does not exist").

(** [s3_client.head_object(Bucket=.., Key=key)] *)
Definition head_object (key : string) : M unit :=
  client_call (S3_head_object key) (fun w =>
    match w_bucket w with
    | Some objects =>
        match objects !! key with
        | Some _ => (Ok tt, w)
        | None => (Raise (not_found "HeadObject"), w)
        end
    | None => (Raise (not_found "HeadObject"), w)
    end).

(** [s3_client.put_object(Bucket=.., Key=key, Body=.., ContentType=..)] *)
Definition put_object (key : string) (obj : S3Object) : M unit :=
  client_call (S3_put_object key) (fun w =>
    match w_bucket w with
    | Some objects => (Ok tt, set_bucket (Some (<[key := obj]> objects)) w)
    | None => (Raise (no_such_bucket "PutObject"), w)
    end).

(** [s3_client.head_bucket(Bucket=..)] *)
Definition head_bucket : M unit :=
  client_call S3_head_bucket (fun w =>
    match w_bucket w with
    | Some _ => (Ok tt, w)
    | None => (Raise (not_found "HeadBucket"), w)
    end).

(** [s3_client.create_bucket(Bucket=..)] *)
Definition create_bucket : M unit :=
  client_call S3_create_bucket (fun w =>
    match w_bucket w with
    | Some _ => (Ok tt, w)
    | None => (Ok tt, set_bucket (Some ∅) w)
    end).

(** *** Listing with a prefix and a delimiter

    The delimiter is one character, as in the only listing the loader
    asks for.  A key that starts with the prefix and has the delimiter
    further on is rolled up into the common prefix that ends at the first
    such delimiter; a key that starts with the prefix and has no delimiter
    further on is listed itself.  Entries come in ascending key order, each
    common prefix once, and one response holds at most [max_keys] of
    them. *)
Inductive Entry : Type :=
| EKey (key : string)
| EPrefix (p : string).

#[global] Instance Entry_eq_dec : EqDecision Entry.
Proof. solve_decision. Defined.

Definition entry_of (prefix : string) (delimiter : ascii) (key : string)
  : option Entry :=
  match PyStr.strip_prefix prefix key with
  | Some rest =>
      match PyStr.up_to delimiter rest with
      | Some segment => Some (EPrefix (prefix +:+ segment))
      | None => Some (EKey key)
      end
  | None => None
  end.

Fixpoint dedup_adjacent (l : list Entry) : list Entry :=
  match l with
  | a :: (b :: _) as tl =>
      if decide (a = b) then dedup_adjacent tl else a :: dedup_adjacent tl
  | _ => l
  end.

Definition max_keys : nat := 1000.

Definition entries (prefix : string) (delimiter : ascii)
    (objects : gmap string S3Object)
  : list Entry :=
  take max_keys
    (dedup_adjacent
       (omap (entry_of prefix delimiter)
             (PyStr.sorted (map fst (map_to_list objects))))).

(** The response dict: the key ['CommonPrefixes'] is present only when
    there is a common prefix. *)
Record ListResponse : Type := mkListResponse {
  Contents : list string;
  CommonPrefixes : option (list string)
}.

Definition response_of (es : list Entry) : ListResponse :=
  let keys := omap (fun e => match e with EKey k => Some k | _ => None end) es in
  let prefixes :=
    omap (fun e => match e with EPrefix q => Some q | _ => None end) es in
  mkListResponse keys (match prefixes with [] => None | _ => Some prefixes end).

(** [s3_client.list_objects_v2(Bucket=.., Prefix=prefix, Delimiter=delimiter)] *)
Definition list_objects_v2 (prefix : string) (delimiter : ascii)
  : M ListResponse :=
  client_call (S3_list_objects_v2 prefix delimiter) (fun w =>
    match w_bucket w with
    | Some objects => (Ok (response_of (entries prefix delimiter objects)), w)
    | None => (Raise (no_such_bucket "ListObjectsV2"), w)
    end).

End S3.

(* ===================================================================== *)
(** ** [s3_loader.py]: class S3Loader                                     *)
(* ===================================================================== *)

Module S3Loader.

Record t : Type := mk {
  bucket_name : string;
  prefix : string;
  region : string;
  use_localstack : bool
}.

(** [S3Loader.__init__]: the prefix loses its trailing slashes. *)
Definition init (bucket_name prefix region : string) (use_localstack : bool) : t :=
  mk bucket_name (PyStr.rstrip "/" prefix) region use_localstack.

(** [f"{self.prefix}/{data_type}/year={year}/month={month}/day={day}/data.parquet"] *)
Definition data_key (self : t) (data_type year month day : string) : string :=
  prefix self +:+ "/" +:+ data_type +:+ "/year=" +:+ year +:+ "/month=" +:+ month
  +:+ "/day=" +:+ day +:+ "/data.parquet".

(** [S3Loader._upload_metadata]: a failed write of the metadata object is
    logged and nothing else. *)
Definition _upload_metadata (self : t) (df : DataFrame) (date data_type s3_key : string)
    (file_size_bytes : nat) : M unit :=
  now ← (fun w => (Ok (w_now w), w)) : M PyDate.datetime;
  let metadata :=
    mkMetadata date data_type (df_len df) (df_columns df) file_size_bytes now s3_key in
  let metadata_key := PyStr.replace "/data.parquet" "/metadata.json" s3_key in
  try_except
    (S3.put_object metadata_key (mkObject (MetadataJson metadata) "application/json"))
    (fun e => mret tt).

(** [S3Loader.upload_events] *)
Definition upload_events (self : t) (df : DataFrame) (date data_type : string)
  : M (option string) :=
  if df_empty df then mret None
  else
    '(year, month, day) ← lift (unpack3 (PyStr.split "-" date));
    let s3_key := data_key self data_type year month day in
    try_except
      (parquet_buffer ← lift (df_to_parquet df);
       S3.put_object s3_key
         (mkObject (ParquetBytes parquet_buffer) "application/octet-stream");;
       _upload_metadata self df date data_type s3_key (String.length parquet_buffer);;
       mret (Some s3_key))
      (fun e => raise e).

(** [S3Loader.check_exists]: only a [ClientError] is caught, and only its
    code ['404'] means that the object is absent. *)
Definition check_exists (self : t) (date data_type : string) : M bool :=
  '(year, month, day) ← lift (unpack3 (PyStr.split "-" date));
  let s3_key := data_key self data_type year month day in
  try_except
    (S3.head_object s3_key;; mret true)
    (fun e =>
       match exn_class e with
       | ClientError =>
           if String.eqb (exn_code e) "404" then mret false else raise e
       | _ => raise e
       end).

(** The body of the loop of [list_available_dates] for one common prefix:
    the date string it appends, or the [IndexError] that makes the loop
    [continue]. *)
Definition partition_date (common_prefix : string) : Result string :=
  let path_parts := PyStr.split "/" (PyStr.rstrip "/" common_prefix) in
  match index (filter (fun q => PyStr.startswith "year=" q = true) path_parts) 0,
        index (filter (fun q => PyStr.startswith "month=" q = true) path_parts) 0,
        index (filter (fun q => PyStr.startswith "day=" q = true) path_parts) 0 with
  | Ok year_part, Ok month_part, Ok day_part =>
      match index (PyStr.split "=" year_part) 1,
            index (PyStr.split "=" month_part) 1,
            index (PyStr.split "=" day_part) 1 with
      | Ok year, Ok month, Ok day =>
          Ok (year +:+ "-" +:+ PyStr.zfill 2 month +:+ "-" +:+ PyStr.zfill 2 day)
      | Raise e, _, _ | _, Raise e, _ | _, _, Raise e => Raise e
      end
  | Raise e, _, _ | _, Raise e, _ | _, _, Raise e => Raise e
  end.

Definition collect_dates (common_prefixes : list string) : list string :=
  omap (fun q => match partition_date q with Ok d => Some d | Raise _ => None end)
       common_prefixes.

(** [S3Loader.list_available_dates] *)
Definition list_available_dates (self : t) (data_type : string) (limit : Z)
  : M (list string) :=
  let prefix := prefix self +:+ "/" +:+ data_type +:+ "/" in
  try_except
    (response ← S3.list_objects_v2 prefix "/";
     let dates :=
       match S3.CommonPrefixes response with
       | Some common_prefixes => collect_dates common_prefixes
       | None => []
       end in
     mret (PyStr.slice_to limit (PyStr.sorted_reverse dates)))
    (fun e => mret []).

(** [S3Loader.test_connection] *)
Definition test_connection (self : t) : M bool :=
  try_except
    ((if use_localstack self then
        try_except S3.head_bucket
          (fun e =>
             match exn_class e with
             | ClientError =>
                 if String.eqb (exn_code e) "404" then S3.create_bucket
                 else raise e
             | _ => raise e
             end)
      else S3.head_bucket);;
     mret true)
    (fun e => mret false).

End S3Loader.

(* ===================================================================== *)
(** ** The BigQuery service, as google.cloud.bigquery shows it            *)
(* ===================================================================== *)

Module BQ.

Definition not_found (what : string) : Exn :=
  mkExn NotFound "" ("404 Not found: " +:+ what).

(** [client.get_table(table_name)] *)
Definition get_table (table_name : string) : M unit :=
  client_call (BQ_get_table table_name) (fun w =>
    if decide (table_name ∈ w_tables w) then (Ok tt, w)
    else (Raise (not_found ("Table " +:+ table_name)), w)).

(** [client.query(query, location=..)]: the job is known by its text. *)
Definition query (q : string) : M string :=
  client_call (BQ_query q) (fun w => (Ok q, w)).

(** [query_job.to_dataframe()] *)
Definition to_dataframe (job : string) : M DataFrame :=
  client_call (BQ_to_dataframe job) (fun w => (Ok (w_query_result w job), w)).

(** [client.list_tables(dataset)]: the [table_id] of every table of the
    dataset. *)
Definition list_tables (dataset : string) : M (list string) :=
  client_call (BQ_list_tables dataset) (fun w =>
    (Ok (omap (fun name =>
                 PyStr.strip_prefix (dataset +:+ ".") name)
              (elements (w_tables w))), w)).

(** [client.get_dataset(dataset)] *)
Definition get_dataset (dataset : string) : M unit :=
  client_call (BQ_get_dataset dataset) (fun w => (Ok tt, w)).

End BQ.

(* ===================================================================== *)
(** ** [bigquery_extractor.py]: class BigQueryExtractor                   *)
(* ===================================================================== *)

Module BigQueryExtractor.

Record t : Type := mk {
  project_id : string;
  dataset_id : string;
  location : string
}.

(** [BigQueryExtractor._table_exists]: only [NotFound] is caught. *)
Definition _table_exists (self : t) (table_name : string) : M bool :=
  try_except
    (BQ.get_table table_name;; mret true)
    (fun e =>
       match exn_class e with
       | NotFound => mret false
       | _ => raise e
       end).

(** [BigQueryExtractor._load_query] *)
Definition _load_query (self : t) (query_name : string)
  : M (string -> string -> Result string) :=
  fun w =>
    match w_template w with
    | Some template => (Ok template, w)
    | None =>
        (Raise (mkExn FileNotFoundError ""
                  ("Query file not found: config/queries/" +:+ query_name +:+ ".sql")),
         w)
    end.

(** [BigQueryExtractor._build_events_query] *)
Definition _build_events_query (self : t) (table_name date : string) : M string :=
  let event_date := PyStr.replace "-" "" date in
  query_template ← _load_query self "extract_events";
  lift (query_template table_name event_date).

(** [BigQueryExtractor.extract_events] *)
Definition extract_events (self : t) (date : string) : M DataFrame :=
  let table_date := PyStr.replace "-" "" date in
  let table_name :=
    project_id self +:+ "." +:+ dataset_id self +:+ ".events_" +:+ table_date in
  table_exists ← _table_exists self table_name;
  if negb table_exists then mret empty_frame
  else
    query ← _build_events_query self table_name date;
    try_except
      (query_job ← BQ.query query;
       df ← BQ.to_dataframe query_job;
       mret df)
      (fun e => raise e).

(** The body of the loop of [get_available_dates] for one table whose
    name starts with ["events_"]: the date it appends, nothing when the
    date is older than the window, or the exception that makes the loop
    [continue]. *)
Definition table_date (today : PyDate.datetime) (days_back : Z) (table_id : string)
  : Result (option string) :=
  match index (PyStr.split "_" table_id) 1 with
  | Ok date_str =>
      match PyDate.strptime_compact date_str with
      | Ok date_obj =>
          if PyDate.sub_days today date_obj <=? days_back
          then Ok (Some (PyDate.strftime date_obj))
          else Ok None
      | Raise e => Raise e
      end
  | Raise e => Raise e
  end.

Definition collect_dates (today : PyDate.datetime) (days_back : Z)
    (table_ids : list string) : list string :=
  omap (fun table_id =>
          if PyStr.startswith "events_" table_id
          then match table_date today days_back table_id with
               | Ok (Some d) => Some d
               | _ => None
               end
          else None)
       table_ids.

(** [BigQueryExtractor.get_available_dates]: the listing itself is not
    inside any [try]. *)
Definition get_available_dates (self : t) (days_back : Z) : M (list string) :=
  tables ← BQ.list_tables (project_id self +:+ "." +:+ dataset_id self);
  today ← (fun w => (Ok (w_now w), w)) : M PyDate.datetime;
  mret (PyStr.sorted_reverse (collect_dates today days_back tables)).

(** [BigQueryExtractor.test_connection] *)
Definition test_connection (self : t) : M bool :=
  try_except
    (BQ.get_dataset (project_id self +:+ "." +:+ dataset_id self);; mret true)
    (fun e => mret false).

End BigQueryExtractor.

(* ===================================================================== *)
(** ** [pipeline.py]: class Pipeline                                      *)
(* ===================================================================== *)

Module Pipeline.

Record t : Type := mk {
  extractor : BigQueryExtractor.t;
  loader : S3Loader.t
}.

(** The dict [result] of [run_daily]. *)
Record DailyResult : Type := mkDaily {
  date : string;
  success : bool;
  records_extracted : nat;
  s3_key : option string;
  error : option string;
  skipped : bool
}.

#[global] Instance DailyResult_eq_dec : EqDecision DailyResult.
Proof. solve_decision. Defined.

Definition set_success (b : bool) (r : DailyResult) : DailyResult :=
  mkDaily (date r) b (records_extracted r) (s3_key r) (error r) (skipped r).
Definition set_records_extracted (n : nat) (r : DailyResult) : DailyResult :=
  mkDaily (date r) (success r) n (s3_key r) (error r) (skipped r).
Definition set_s3_key (k : option string) (r : DailyResult) : DailyResult :=
  mkDaily (date r) (success r) (records_extracted r) k (error r) (skipped r).
Definition set_error (e : option string) (r : DailyResult) : DailyResult :=
  mkDaily (date r) (success r) (records_extracted r) (s3_key r) e (skipped r).
Definition set_skipped (b : bool) (r : DailyResult) : DailyResult :=
  mkDaily (date r) (success r) (records_extracted r) (s3_key r) (error r) b.

(** [(datetime.now() - timedelta(days=1)).strftime('%Y-%m-%d')] *)
Definition yesterday : M string :=
  now ← (fun w => (Ok (w_now w), w)) : M PyDate.datetime;
  d ← lift (PyDate.sub_one_day now);
  mret (PyDate.strftime d).

(** [Pipeline.run_daily] *)
Definition run_daily (self : t) (date : option string) (skip_existing : bool)
  : M DailyResult :=
  date ← match date with
         | Some d => mret d
         | None => yesterday
         end;
  function (mkDaily date false 0 None None false)
    (try_block
       (exists_ ← (if skip_existing
                   then call (S3Loader.check_exists (loader self) date "events")
                   else mret false);
        if exists_ : bool then
          assign (set_skipped true);;
          assign (set_success true);;
          return_local
        else
          df ← call (BigQueryExtractor.extract_events (extractor self) date);
          if df_empty df then
            assign (set_error (Some "No data found"%string));;
            return_local
          else
            assign (set_records_extracted (df_len df));;
            s3_key ← call (S3Loader.upload_events (loader self) df date "events");
            assign (set_s3_key s3_key);;
            assign (set_success true))
       (fun e => assign (set_error (Some (str_exn e))));;
     return_local).

(** An entry of the list [results['failed_days']]. *)
Record FailedDay : Type := mkFailed {
  failed_date : string;
  failed_error : option string
}.

(** The dict [results] of [backfill]. *)
Record BackfillReport : Type := mkReport {
  start_date : string;
  end_date : string;
  total_days : Z;
  successful_days : list string;
  failed_days : list FailedDay;
  skipped_days : list string;
  total_records : nat
}.

Definition append_successful (d : string) (n : nat) (r : BackfillReport)
  : BackfillReport :=
  mkReport (start_date r) (end_date r) (total_days r) (successful_days r ++ [d])
           (failed_days r) (skipped_days r) (total_records r + n).
Definition append_failed (d : string) (e : option string) (r : BackfillReport)
  : BackfillReport :=
  mkReport (start_date r) (end_date r) (total_days r) (successful_days r)
           (failed_days r ++ [mkFailed d e]) (skipped_days r) (total_records r).
Definition append_skipped (d : string) (r : BackfillReport) : BackfillReport :=
  mkReport (start_date r) (end_date r) (total_days r) (successful_days r)
           (failed_days r) (skipped_days r ++ [d]) (total_records r).

(** The [try] statement inside the loop of [backfill], for one day. *)
Definition backfill_day {R} (self : t) (skip_existing : bool) (date_str : string)
  : Block BackfillReport R unit :=
  try_block
    (day_result ← call (run_daily self (Some date_str) skip_existing);
     if success day_result then
       if skipped day_result then assign (append_skipped date_str)
       else assign (append_successful date_str (records_extracted day_result))
     else assign (append_failed date_str (error day_result)))
    (fun e => assign (append_failed date_str (Some (str_exn e)))).

(** The [while current_date <= end] loop.  [fuel] bounds the number of
    iterations; when it runs out with the condition still true the
    function returns [None], which [backfill] never does (see
    [backfill_outcome] below). *)
Fixpoint backfill_loop (fuel : nat) (self : t) (skip_existing : bool)
    (end_ current_date : PyDate.datetime)
  : Block BackfillReport (option BackfillReport) unit :=
  if PyDate.le current_date end_ then
    match fuel with
    | O => return_with (fun _ => None)
    | S fuel' =>
        backfill_day self skip_existing (PyDate.strftime current_date);;
        next ← call (lift (PyDate.add_one_day current_date));
        backfill_loop fuel' self skip_existing end_ next
    end
  else pass.

Definition invalid_range : Exn :=
  mkExn ValueError "" "start_date must be before end_date".

(** [Pipeline.backfill] *)
Definition backfill (self : t) (start_date end_date : string) (skip_existing : bool)
  : M (option BackfillReport) :=
  start ← lift (PyDate.strptime start_date);
  end_ ← lift (PyDate.strptime end_date);
  if PyDate.gt start end_ then raise invalid_range
  else
    let total := PyDate.sub_days end_ start + 1 in
    function (mkReport start_date end_date total [] [] [] 0)
      (backfill_loop (Z.to_nat total) self skip_existing end_ start;;
       return_with Some).

(** The dict [results] of [test_connections]. *)
Record Connections : Type := mkConnections {
  bigquery : bool;
  s3 : bool
}.

(** [Pipeline.test_connections] *)
Definition test_connections (self : t) : M Connections :=
  bq ← try_except (BigQueryExtractor.test_connection (extractor self))
                  (fun e => mret false);
  s3 ← try_except (S3Loader.test_connection (loader self))
                  (fun e => mret false);
  mret (mkConnections bq s3).

(** The dict [status] of [get_pipeline_status]. *)
Record Status : Type := mkStatus {
  connections : Connections;
  bigquery_available_dates : list string;
  s3_available_dates : list string;
  missing_dates : list string
}.

Definition set_bigquery_available_dates (l : list string) (s : Status) : Status :=
  mkStatus (connections s) l (s3_available_dates s) (missing_dates s).
Definition set_s3_available_dates (l : list string) (s : Status) : Status :=
  mkStatus (connections s) (bigquery_available_dates s) l (missing_dates s).
Definition set_missing_dates (l : list string) (s : Status) : Status :=
  mkStatus (connections s) (bigquery_available_dates s) (s3_available_dates s) l.

(** [x in l] on a list of strings *)
Definition py_in (x : string) (l : list string) : bool :=
  existsb (String.eqb x) l.

(** [Pipeline.get_pipeline_status] *)
Definition get_pipeline_status (self : t) : M Status :=
  conns ← test_connections self;
  function (mkStatus conns [] [] [])
    (try_block
       (bq_dates ← call (BigQueryExtractor.get_available_dates (extractor self) 30);
        s3_dates ← call (S3Loader.list_available_dates (loader self) "events" 30);
        assign (set_bigquery_available_dates bq_dates);;
        assign (set_s3_available_dates s3_dates);;
        assign (set_missing_dates
                  (List.filter (fun d => negb (py_in d s3_dates)) bq_dates)))
       (fun e => pass);;
     return_local).

End Pipeline.

(* ===================================================================== *)
(** ** [config/settings.py]: class Settings                               *)
(* ===================================================================== *)

Module Settings.

(** The class attributes read from the environment.  [os.getenv(name)] is
    [None] for a variable that is not set; the two attributes read with a
    default are always strings.  [BATCH_SIZE] and the two paths play no
    part in [validate] and are left out. *)
Record t : Type := mk {
  GCP_PROJECT_ID : option string;
  GA4_DATASET_ID : option string;
  GOOGLE_APPLICATION_CREDENTIALS : option string;
  AWS_REGION : string;
  S3_BUCKET : option string;
  S3_PREFIX : string
}.

(** The list [required] of [validate]. *)
Definition required : list string :=
  ["GCP_PROJECT_ID"; "GA4_DATASET_ID"; "S3_BUCKET"]%string.

(** [getattr(cls, key)] for the keys of [required]. *)
Definition getattr (cls : t) (key : string) : option string :=
  if String.eqb key "GCP_PROJECT_ID" then GCP_PROJECT_ID cls
  else if String.eqb key "GA4_DATASET_ID" then GA4_DATASET_ID cls
  else S3_BUCKET cls.

(** [str(l)] for a list of identifiers: [['a', 'b']]. *)
Fixpoint repr_items (l : list string) : string :=
  match l with
  | [] => EmptyString
  | [a] => "'" +:+ a +:+ "'"
  | a :: tl => "'" +:+ a +:+ "', " +:+ repr_items tl
  end.

Definition repr_list (l : list string) : string := "[" +:+ repr_items l +:+ "]".

(** [Settings.validate] *)
Definition validate (cls : t) : Result bool :=
  let missing :=
    List.filter (fun key => match getattr cls key with None => true | Some _ => false end)
                required in
  match missing with
  | _ :: _ =>
      Raise (mkExn ValueError ""
               ("Missing required environment variables: " +:+ repr_list missing))
  | [] => Ok true
  end.

End Settings.

(* ===================================================================== *)
(** * The vocabulary of the statements *)
(* ===================================================================== *)

Section Vocabulary.

Import Pipeline PyDate.

(** The number of days of year [y]. *)
Definition year_length (y : Z) : Z := if is_leap y then 366 else 365.

(** What remains to be matched once the year is read. *)
Definition after_year (y : Z) (s1 : string) : list (datetime * string) :=
  s2 ← dash s1;
  '(m, s3) ← group_m s2;
  s4 ← dash s3;
  '(d, s5) ← group_d s4;
  [(mkDate y m d, s5)].

(** [grows_by P w w']: from [w] to [w'] the log has grown by calls that all
    satisfy [P]. *)
Definition grows_by (P : Call -> Prop) (w w' : World) : Prop :=
  exists calls, w_log w' = calls ++ w_log w /\ Forall P calls.

(** [calls_only P m]: whatever its outcome, [m] makes only calls that
    satisfy [P]. *)
Definition calls_only {A} (P : Call -> Prop) (m : M A) : Prop :=
  forall w r w', m w = (r, w') -> grows_by P w w'.

(** Calls on the BigQuery client. *)
Definition is_bq_call (c : Call) : Prop :=
  match c with
  | BQ_get_table _ | BQ_query _ | BQ_to_dataframe _ | BQ_list_tables _
  | BQ_get_dataset _ => True
  | _ => False
  end.

(** Calls that read the bucket. *)
Definition is_s3_read (c : Call) : Prop :=
  match c with
  | S3_head_object _ | S3_list_objects_v2 _ _ | S3_head_bucket => True
  | _ => False
  end.

(** The three outcome variants of a [DailyResult]. *)
Definition variant_loaded (r : DailyResult) : Prop :=
  success r = true /\ skipped r = false /\ is_Some (s3_key r).
Definition variant_skipped (r : DailyResult) : Prop :=
  success r = true /\ skipped r = true.
Definition variant_failed (r : DailyResult) : Prop :=
  success r = false /\ is_Some (error r).

Definition exactly_one (A B C : Prop) : Prop :=
  (A /\ ~ B /\ ~ C) \/ (~ A /\ B /\ ~ C) \/ (~ A /\ ~ B /\ C).

(** The first step of [run_daily]: [skip_existing and
    self.loader.check_exists(date)]. *)
Definition existence_check (self : Pipeline.t) (d : string) (skip_existing : bool)
  : M bool :=
  if skip_existing then S3Loader.check_exists (loader self) d "events"
  else mret false.

(** The metadata object written next to the data object [key]. *)
Definition metadata_object (df : DataFrame) (d data_type key : string)
    (size : nat) (now : PyDate.datetime) : S3Object :=
  mkObject (MetadataJson (mkMetadata d data_type (df_len df) (df_columns df)
                            size now key))
           "application/json".

Definition metadata_key (key : string) : string :=
  PyStr.replace "/data.parquet" "/metadata.json" key.

Definition data_object (buf : string) : S3Object :=
  mkObject (ParquetBytes buf) "application/octet-stream".

(** [has_object key w]: the bucket exists and holds an object under [key]. *)
Definition has_object (key : string) (w : World) : Prop :=
  exists objects, w_bucket w = Some objects /\ is_Some (objects !! key).

(** [interleave3 a b c l]: the list [l] is split into the three
    subsequences [a], [b] and [c], each element of [l] going to exactly one
    of them and each subsequence keeping the order of [l]. *)
Inductive interleave3 {A : Type} : list A -> list A -> list A -> list A -> Prop :=
| interleave3_nil : interleave3 [] [] [] []
| interleave3_first x a b c l :
    interleave3 a b c l -> interleave3 (x :: a) b c (x :: l)
| interleave3_second x a b c l :
    interleave3 a b c l -> interleave3 a (x :: b) c (x :: l)
| interleave3_third x a b c l :
    interleave3 a b c l -> interleave3 a b (x :: c) (x :: l).

(** [grown r r' days]: the report [r'] is [r] with the days [days]
    appended, every one of them to exactly one of the three lists and in
    the order of [days]; nothing else of the report changes but
    [total_records]. *)
Definition grown (r r' : BackfillReport) (days : list string) : Prop :=
  exists a b c,
    interleave3 a (map failed_date b) c days /\
    successful_days r' = successful_days r ++ a /\
    failed_days r' = failed_days r ++ b /\
    skipped_days r' = skipped_days r ++ c /\
    start_date r' = start_date r /\ end_date r' = end_date r /\
    total_days r' = total_days r.

(** The days the loop goes through: [n] consecutive days from [d] on. *)
Fixpoint days_from (d : datetime) (n : nat) : list datetime :=
  match n with
  | O => []
  | S n' => d :: days_from (next_day d) n'
  end.

(** The number of days from [a] to [b], both included. *)
Definition span (a b : datetime) : nat := Z.to_nat (sub_days b a + 1).

(** [[date for date in bq_dates if date not in s3_dates]] *)
Definition the_missing (bq_dates s3_dates : list string) : list string :=
  List.filter (fun d => negb (py_in d s3_dates)) bq_dates.

(** [keeps_bucket m]: whatever its outcome, [m] leaves the bucket as it
    found it. *)
Definition keeps_bucket {A} (m : M A) : Prop :=
  forall w r w', m w = (r, w') -> w_bucket w' = w_bucket w.

(** The variant of a daily result that stands for a load. *)
Definition is_loaded (r : DailyResult) : bool := success r && negb (skipped r).

(** The table of the day [d]:
    [f"{self.project_id}.{self.dataset_id}.events_{table_date}"]. *)
Definition events_table (x : BigQueryExtractor.t) (d : string) : string :=
  BigQueryExtractor.project_id x +:+ "." +:+ BigQueryExtractor.dataset_id x
  +:+ ".events_" +:+ PyStr.replace "-" "" d.

(** The [table_id] of the table of the day [d]. *)
Definition events_table_id (d : string) : string :=
  "events_" +:+ PyStr.replace "-" "" d.

(** A list of strings in descending order, as [sorted(.., reverse=True)]
    leaves it. *)
Definition descending (l : list string) : Prop :=
  Sorted (fun a b => String.leb b a = true) l.

(** What the loop of [backfill] does with the result of one day. *)
Definition record_day (r : DailyResult) (report : BackfillReport) : BackfillReport :=
  if success r then
    if skipped r then append_skipped (date r) report
    else append_successful (date r) (records_extracted r) report
  else append_failed (date r) (error r) report.

(** The daily runs of a list of days, one after the other, each in the
    world the one before has left.  A run that raised would be counted as
    a failure of its day, as the [except] clause of the loop has it. *)
Fixpoint run_days (self : Pipeline.t) (skip_existing : bool) (days : list string)
    (w : World) : list DailyResult * World :=
  match days with
  | [] => ([], w)
  | d :: days' =>
      let '(r, w1) :=
        match run_daily self (Some d) skip_existing w with
        | (Ok r, w1) => (r, w1)
        | (Raise e, w1) => (mkDaily d false 0 None (Some (str_exn e)) false, w1)
        end in
      let '(rs, w2) := run_days self skip_existing days' w1 in
      (r :: rs, w2)
  end.

(** The report after the results of a list of days. *)
Definition summarise (init : BackfillReport) (results : list DailyResult)
  : BackfillReport :=
  foldl (fun report r => record_day r report) init results.

(** The other two variants of a daily result. *)
Definition is_skipped (r : DailyResult) : bool := success r && skipped r.
Definition is_failed (r : DailyResult) : bool := negb (success r).

(** Calls that write an object. *)
Definition is_put_object (c : Call) : Prop :=
  match c with
  | S3_put_object _ => True
  | _ => False
  end.

(** The days of a range, as the loop of [backfill] names them. *)
Definition day_strings (start end_ : datetime) : list string :=
  map strftime (days_from start (span start end_)).

(** [sum(l)] *)
Definition sum_nat (l : list nat) : nat := foldr Nat.add 0%nat l.

End Vocabulary.

(* ===================================================================== *)
(** * A concrete deployment *)
(* ===================================================================== *)

Module Scenario.

Import Pipeline.

Definition the_loader : S3Loader.t :=
  S3Loader.init "bronze-bucket" "bronze/ga4/" "us-east-1" false.

Definition the_extractor : BigQueryExtractor.t :=
  BigQueryExtractor.mk "proj" "analytics_1" "US".

Definition pipeline : Pipeline.t := Pipeline.mk the_extractor the_loader.

(** Every query selects three rows of two columns. *)
Definition three_rows : DataFrame :=
  mkFrame 3 ["event_name"; "event_timestamp"]%string (Ok "PAR1"%string).

Definition parquet_object : S3Object :=
  mkObject (ParquetBytes "PAR1") "application/octet-stream".

(** The warehouse has the tables of January 1st to 3rd 2024, the bucket has
    the partition of January 1st, and nothing fails in transport. *)
Definition world : World :=
  mkWorld
    (Some {[ "bronze/ga4/events/year=2024/month=01/day=01/data.parquet"%string
             := parquet_object ]})
    {[ "proj.analytics_1.events_20240101"%string;
       "proj.analytics_1.events_20240102"%string;
       "proj.analytics_1.events_20240103"%string ]}
    (fun _ => three_rows)
    (Some (fun table_name event_date =>
             Ok ("SELECT * FROM `" +:+ table_name +:+ "`")))
    (PyDate.mkDate 2024 1 10)
    []
    [].

(** A transport fault. *)
Definition connection_reset : Exn := mkExn OtherException "" "connection reset".

(** The same world with a fault script. *)
Definition with_faults (script : list (option Exn)) : World :=
  set_faults script world.

(** A deployment whose prefix has a [month=] part and a [day=] part: with
    such a prefix, and hardly any other, the listing of the sink finds a
    date. *)
Definition odd_loader : S3Loader.t :=
  S3Loader.init "bronze-bucket" "month=01/day=15" "us-east-1" false.

Definition odd_pipeline : Pipeline.t := Pipeline.mk the_extractor odd_loader.

Definition odd_world (script : list (option Exn)) : World :=
  set_faults script
    (set_bucket
       (Some {[ "month=01/day=15/events/year=2024/month=03/day=09/data.parquet"%string
                := parquet_object ]})
       world).

(** A source that raises an exception whose message is the text
    [run_daily] itself uses for a day without data. *)
Definition world_raising_no_data : World :=
  with_faults [Some (mkExn OtherException "" "No data found")].




(** The odd deployment, with the listing of the warehouse tables cut by a
    fault: the two calls of the connection tests go through, the third
    call raises. *)
Definition odd_world_source_down : World :=
  odd_world [None; None; Some connection_reset].

Definition after_connection_tests : World :=
  snd (test_connections odd_pipeline odd_world_source_down).

(** The loader of the sandbox, and a world in which its bucket has not
    been created yet. *)
Definition sandbox_loader : S3Loader.t :=
  S3Loader.init "bronze-bucket" "bronze/ga4/" "us-east-1" true.

Definition world_without_bucket : World := set_bucket None world.

(** The same world with the query file missing. *)
Definition world_without_query_file : World :=
  mkWorld (w_bucket world) (w_tables world) (w_query_result world) None
          (w_now world) (w_faults world) (w_log world).

(** The query the template gives for January 2nd. *)
Definition query_of_january_2nd : string :=
  "SELECT * FROM `proj.analytics_1.events_20240102`".

(** The key of the partition of January 2nd. *)
Definition key_of_january_2nd : string :=
  "bronze/ga4/events/year=2024/month=01/day=02/data.parquet".

(** A class [Settings] with the bucket not set. *)
Definition settings_without_bucket : Settings.t :=
  Settings.mk (Some "proj"%string) (Some "analytics_1"%string) None
              "us-east-1" None "bronze/ga4".

End Scenario.

(* ===================================================================== *)
(** * Properties                                                          *)
(* ===================================================================== *)

(** ** The model at work *)

Example split_date : PyStr.split "-" "2024-01-15" = ["2024"; "01"; "15"]%string.
Proof. reflexivity. Qed.
Example split_keeps_empty : PyStr.split "-" "-a-" = [""; "a"; ""]%string.
Proof. reflexivity. Qed.
Example rstrip_slash : PyStr.rstrip "/" "bronze/ga4//" = "bronze/ga4"%string.
Proof. reflexivity. Qed.
Example zfill_two : PyStr.zfill 2 "7" = "07"%string.
Proof. reflexivity. Qed.
Example replace_dash : PyStr.replace "-" "" "2024-01-15" = "20240115"%string.
Proof. reflexivity. Qed.
Example replace_name :
  PyStr.replace "/data.parquet" "/metadata.json" "p/day=15/data.parquet"
  = "p/day=15/metadata.json"%string.
Proof. reflexivity. Qed.
Example sorted_desc :
  PyStr.sorted_reverse ["2024-01-02"; "2024-01-10"; "2023-12-31"]%string
  = ["2024-01-10"; "2024-01-02"; "2023-12-31"]%string.
Proof. reflexivity. Qed.

Example ordinal_epoch : PyDate.toordinal (PyDate.mkDate 1970 1 1) = 719163.
Proof. reflexivity. Qed.
Example ordinal_max : PyDate.toordinal PyDate.max = 3652059.
Proof. reflexivity. Qed.
Example strftime_ex : PyDate.strftime (PyDate.mkDate 2024 2 29) = "2024-02-29"%string.
Proof. reflexivity. Qed.
Example next_leap : PyDate.next_day (PyDate.mkDate 2024 2 28) = PyDate.mkDate 2024 2 29.
Proof. reflexivity. Qed.
Example next_year : PyDate.next_day (PyDate.mkDate 2023 12 31) = PyDate.mkDate 2024 1 1.
Proof. reflexivity. Qed.
Example strptime_ex : PyDate.strptime "2024-02-29" = Ok (PyDate.mkDate 2024 2 29).
Proof. reflexivity. Qed.
Example strptime_short :
  PyDate.strptime "2024-1-5" = Ok (PyDate.mkDate 2024 1 5).
Proof. reflexivity. Qed.
Example strptime_space :
  PyDate.strptime "2024-01- 5" = Ok (PyDate.mkDate 2024 1 5).
Proof. reflexivity. Qed.
Example strptime_bad_day :
  PyDate.strptime "2023-02-29"
  = Raise (mkExn ValueError "" "day is out of range for month").
Proof. reflexivity. Qed.
Example strptime_compact_ex :
  PyDate.strptime_compact "20240115" = Ok (PyDate.mkDate 2024 1 15).
Proof. reflexivity. Qed.
Example strptime_compact_backtrack :
  PyDate.strptime_compact "202413" = Ok (PyDate.mkDate 2024 1 3).
Proof. reflexivity. Qed.
Example strptime_bad_month :
  PyDate.strptime "2023-13-01"
  = Raise (mkExn ValueError ""
             "time data '2023-13-01' does not match format '%Y-%m-%d'").
Proof. reflexivity. Qed.
Example strptime_left_over :
  PyDate.strptime "2023-12-311"
  = Raise (mkExn ValueError "" "unconverted data remains: 1").
Proof. reflexivity. Qed.
Example strptime_year_zero :
  PyDate.strptime "0000-01-01"
  = Raise (mkExn ValueError "" "year 0 is out of range").
Proof. reflexivity. Qed.

(** Unfolds the combinators of the two monads and nothing else: the calls
    of the pipeline's own functions stay as they are. *)
Ltac unfold_py :=
  cbv beta iota delta
    [mbind mret M_bind M_ret Block_bind Block_ret bind ret block_bind block_ret
     call assign try_block try_except function return_local return_with pass
     raise lift id] in *.

(** An outcome, read off its two components. *)
Lemma outcome_eq {A} (x : Result A * World) (r : Result A) :
  fst x = r -> x = (r, snd x).
Proof. intros <-. by destruct x. Qed.

(** ** The calendar *)

Module CalendarFacts.

Import PyDate.

Lemma valid_bounds (d : datetime) :
  valid d = true <->
  1 <= year d <= 9999 /\ 1 <= month d <= 12 /\
  1 <= day d <= days_in_month (year d) (month d).
Proof. unfold valid, MINYEAR, MAXYEAR. rewrite !andb_true_iff, !Z.leb_le. lia. Qed.

Ltac month_cases m :=
  let H := fresh in
  assert (H : m = 1 \/ m = 2 \/ m = 3 \/ m = 4 \/ m = 5 \/ m = 6 \/ m = 7 \/
              m = 8 \/ m = 9 \/ m = 10 \/ m = 11 \/ m = 12) by lia;
  repeat (destruct H as [H | H]; [subst m | ]); [.. | subst m].

Lemma days_in_month_bounds (y m : Z) : 28 <= days_in_month y m <= 31.
Proof.
  unfold days_in_month.
  destruct (m =? 2); [destruct (is_leap y); lia|].
  destruct (_ || _); lia.
Qed.

(** The table [_DAYS_BEFORE_MONTH], with the leap day. *)
Lemma days_before_month_step (y m : Z) :
  1 <= m <= 11 ->
  days_before_month y (m + 1) = days_before_month y m + days_in_month y m.
Proof.
  intros Hm. month_cases m; try lia; reflexivity.
Qed.

Lemma days_before_month_one (y : Z) : days_before_month y 1 = 0.
Proof. reflexivity. Qed.

Lemma days_before_month_mono (y m1 m2 : Z) :
  1 <= m1 -> m1 < m2 -> m2 <= 12 ->
  days_before_month y m1 + days_in_month y m1 <= days_before_month y m2.
Proof.
  intros H1 H12 H2.
  assert (Hnat : exists k : nat, m2 = m1 + 1 + Z.of_nat k).
  { exists (Z.to_nat (m2 - m1 - 1)). lia. }
  destruct Hnat as [k ->]. clear H12.
  induction k as [|k IH].
  - rewrite Z.add_0_r, days_before_month_step by lia. lia.
  - replace (m1 + 1 + Z.of_nat (S k)) with ((m1 + 1 + Z.of_nat k) + 1) by lia.
    rewrite days_before_month_step by lia.
    pose proof (days_in_month_bounds y (m1 + 1 + Z.of_nat k)).
    specialize (IH ltac:(lia)). lia.
Qed.

Lemma days_before_month_december (y : Z) :
  days_before_month y 12 + 31 = year_length y.
Proof.
  unfold year_length, days_before_month.
  change (Z.to_nat (12 - 1)) with 11%nat.
  cbn [days_before_month_aux]. unfold days_in_month.
  generalize (is_leap y). intros []; reflexivity.
Qed.

Lemma days_before_year_step (y : Z) :
  days_before_year (y + 1) = days_before_year y + year_length y.
Proof.
  unfold days_before_year, year_length, is_leap.
  replace (y + 1 - 1) with y by lia.
  destruct (Z.eqb_spec (y mod 4) 0), (Z.eqb_spec (y mod 100) 0),
    (Z.eqb_spec (y mod 400) 0); simpl;
    Z.div_mod_to_equations; lia.
Qed.

Lemma year_length_bounds (y : Z) : 365 <= year_length y <= 366.
Proof. unfold year_length. destruct (is_leap y); lia. Qed.

Lemma days_before_year_mono (y1 y2 : Z) :
  y1 < y2 -> days_before_year y1 + year_length y1 <= days_before_year y2.
Proof.
  intros H.
  assert (Hnat : exists k : nat, y2 = y1 + 1 + Z.of_nat k).
  { exists (Z.to_nat (y2 - y1 - 1)). lia. }
  destruct Hnat as [k ->]. clear H.
  induction k as [|k IH].
  - rewrite Z.add_0_r, days_before_year_step. lia.
  - replace (y1 + 1 + Z.of_nat (S k)) with ((y1 + 1 + Z.of_nat k) + 1) by lia.
    rewrite days_before_year_step.
    pose proof (year_length_bounds (y1 + 1 + Z.of_nat k)). lia.
Qed.

(** The day of the year of a valid date lies within the year. *)
Lemma day_of_year_bounds (d : datetime) :
  valid d = true ->
  1 <= days_before_month (year d) (month d) + day d <= year_length (year d).
Proof.
  intros Hv. apply valid_bounds in Hv. destruct Hv as (Hy & Hm & Hd).
  split.
  - destruct (Z.eq_dec (month d) 1) as [->|Hne].
    + rewrite days_before_month_one. lia.
    + pose proof (days_before_month_mono (year d) 1 (month d)) as H.
      rewrite days_before_month_one in H.
      pose proof (days_in_month_bounds (year d) 1). lia.
  - destruct (Z.eq_dec (month d) 12) as [E|Hne].
    + rewrite E in *. pose proof (days_before_month_december (year d)).
      change (days_in_month (year d) 12) with 31 in Hd. lia.
    + pose proof (days_before_month_mono (year d) (month d) 12).
      pose proof (days_before_month_december (year d)). lia.
Qed.

(** Comparing two valid dates is comparing their ordinals. *)
Lemma compare_toordinal (a b : datetime) :
  valid a = true -> valid b = true ->
  compare a b = (toordinal a ?= toordinal b).
Proof.
  intros Ha Hb.
  pose proof (day_of_year_bounds a Ha) as Da.
  pose proof (day_of_year_bounds b Hb) as Db.
  apply valid_bounds in Ha, Hb.
  unfold compare, toordinal.
  destruct (Z.compare_spec (year a) (year b)) as [Ey|Ly|Ly].
  - rewrite Ey in *.
    destruct (Z.compare_spec (month a) (month b)) as [Em|Lm|Lm].
    + rewrite Em. destruct (Z.compare_spec (day a) (day b));
        symmetry; [apply Z.compare_eq_iff | apply Z.compare_lt_iff
                  | apply Z.compare_gt_iff]; lia.
    + pose proof (days_before_month_mono (year b) (month a) (month b)).
      symmetry. apply Z.compare_lt_iff. lia.
    + pose proof (days_before_month_mono (year b) (month b) (month a)).
      symmetry. apply Z.compare_gt_iff. lia.
  - pose proof (days_before_year_mono (year a) (year b) Ly).
    symmetry. apply Z.compare_lt_iff. lia.
  - pose proof (days_before_year_mono (year b) (year a) Ly).
    symmetry. apply Z.compare_gt_iff. lia.
Qed.

Lemma le_toordinal (a b : datetime) :
  valid a = true -> valid b = true ->
  le a b = true <-> toordinal a <= toordinal b.
Proof.
  intros Ha Hb. unfold le, gt. rewrite (compare_toordinal a b Ha Hb).
  destruct (Z.compare_spec (toordinal a) (toordinal b)); simpl; split;
    intros; try lia; try discriminate; reflexivity.
Qed.

Lemma gt_toordinal (a b : datetime) :
  valid a = true -> valid b = true ->
  gt a b = true <-> toordinal b < toordinal a.
Proof.
  intros Ha Hb. unfold gt. rewrite (compare_toordinal a b Ha Hb).
  destruct (Z.compare_spec (toordinal a) (toordinal b)); simpl; split;
    intros; try lia; try discriminate; reflexivity.
Qed.

(** Two valid dates with the same ordinal are the same date. *)
Lemma toordinal_inj (a b : datetime) :
  valid a = true -> valid b = true -> toordinal a = toordinal b -> a = b.
Proof.
  intros Ha Hb E.
  pose proof (compare_toordinal a b Ha Hb) as C.
  rewrite E, Z.compare_refl in C. unfold compare in C.
  destruct a as [ya ma da], b as [yb mb db]; simpl in C.
  destruct (Z.compare_spec ya yb); try discriminate.
  destruct (Z.compare_spec ma mb); try discriminate.
  apply Z.compare_eq in C. congruence.
Qed.

Lemma toordinal_max (d : datetime) :
  valid d = true -> toordinal d <= toordinal max.
Proof.
  intros Hv. apply le_toordinal; [exact Hv | reflexivity |].
  apply valid_bounds in Hv. destruct Hv as (Hy & Hm & Hd).
  pose proof (days_in_month_bounds (year d) (month d)).
  unfold le, gt, compare. simpl.
  destruct (Z.compare_spec (year d) 9999); try reflexivity; try lia.
  destruct (Z.compare_spec (month d) 12); try reflexivity; try lia.
  destruct (Z.compare_spec (day d) 31); try reflexivity; try lia.
Qed.

(** The successor of a valid date other than the last one is valid, and is
    the date one ordinal later: it is [d + timedelta(days=1)]. *)
Lemma next_day_valid (d : datetime) :
  valid d = true -> d <> max -> valid (next_day d) = true.
Proof.
  intros Hv Hne. apply valid_bounds in Hv. destruct Hv as (Hy & Hm & Hd).
  apply valid_bounds. unfold next_day.
  destruct (Z.ltb_spec (day d) (days_in_month (year d) (month d))); simpl.
  - lia.
  - destruct (Z.ltb_spec (month d) 12); simpl.
    + pose proof (days_in_month_bounds (year d) (month d + 1)). lia.
    + assert (month d = 12) as E12 by lia.
      rewrite E12 in *. change (days_in_month (year d) 12) with 31 in *.
      assert (day d = 31) by lia.
      assert (year d <> 9999).
      { intros E. apply Hne. destruct d; simpl in *; subst. reflexivity. }
      change (days_in_month (year d + 1) 1) with 31. lia.
Qed.

Lemma next_day_toordinal (d : datetime) :
  valid d = true -> toordinal (next_day d) = toordinal d + 1.
Proof.
  intros Hv. apply valid_bounds in Hv. destruct Hv as (Hy & Hm & Hd).
  unfold next_day, toordinal.
  destruct (Z.ltb_spec (day d) (days_in_month (year d) (month d))); simpl.
  - lia.
  - destruct (Z.ltb_spec (month d) 12); simpl.
    + rewrite days_before_month_step by lia. lia.
    + assert (month d = 12) as E12 by lia. rewrite E12 in *.
      rewrite days_before_year_step, days_before_month_one.
      pose proof (days_before_month_december (year d)).
      change (days_in_month (year d) 12) with 31 in *. lia.
Qed.

(** *** Printing and reading a date *)

Lemma digit_char_spec (k : Z) :
  0 <= k <= 9 ->
  PyStr.is_digit (PyStr.digit_char k) = true /\
  PyStr.digit_val (PyStr.digit_char k) = k.
Proof.
  intros H.
  assert (C : k = 0 \/ k = 1 \/ k = 2 \/ k = 3 \/ k = 4 \/ k = 5 \/ k = 6 \/
              k = 7 \/ k = 8 \/ k = 9) by lia.
  repeat (destruct C as [C | C]; [subst k; split; reflexivity | ]).
  subst k; split; reflexivity.
Qed.

Lemma group_Y_digits (y : Z) (rest : string) :
  0 <= y <= 9999 -> group_Y (digits 4 y +:+ rest) = [(y, rest)].
Proof.
  intros Hy. cbv beta iota delta [digits String.append].
  assert (H1 : 0 <= y / 10 / 10 / 10 mod 10 <= 9)
    by (Z.div_mod_to_equations; lia).
  assert (H2 : 0 <= y / 10 / 10 mod 10 <= 9)
    by (Z.div_mod_to_equations; lia).
  assert (H3 : 0 <= y / 10 mod 10 <= 9)
    by (Z.div_mod_to_equations; lia).
  assert (H4 : 0 <= y mod 10 <= 9)
    by (Z.div_mod_to_equations; lia).
  destruct (digit_char_spec _ H1) as [D1 V1], (digit_char_spec _ H2) as [D2 V2],
    (digit_char_spec _ H3) as [D3 V3], (digit_char_spec _ H4) as [D4 V4].
  unfold group_Y. rewrite D1, D2, D3, D4, V1, V2, V3, V4. simpl.
  do 2 f_equal. Z.div_mod_to_equations. lia.
Qed.

Ltac day_cases d :=
  let H := fresh in
  assert (H : d = 1 \/ d = 2 \/ d = 3 \/ d = 4 \/ d = 5 \/ d = 6 \/ d = 7 \/
              d = 8 \/ d = 9 \/ d = 10 \/ d = 11 \/ d = 12 \/ d = 13 \/
              d = 14 \/ d = 15 \/ d = 16 \/ d = 17 \/ d = 18 \/ d = 19 \/
              d = 20 \/ d = 21 \/ d = 22 \/ d = 23 \/ d = 24 \/ d = 25 \/
              d = 26 \/ d = 27 \/ d = 28 \/ d = 29 \/ d = 30 \/ d = 31) by lia;
  repeat (destruct H as [H | H]; [subst d | ]); [.. | subst d].

Lemma after_year_digits (y m d : Z) :
  1 <= m <= 12 -> 1 <= d <= 31 ->
  exists tl,
    after_year y ("-" +:+ digits 2 m +:+ "-" +:+ digits 2 d)
    = (mkDate y m d, EmptyString) :: tl.
Proof.
  intros Hm Hd. month_cases m; try lia;
    (day_cases d; try lia; vm_compute; eexists; reflexivity).
Qed.

Lemma regex_matches_strftime (d : datetime) :
  valid d = true ->
  exists tl, regex_matches dash (strftime d) = (d, EmptyString) :: tl.
Proof.
  intros Hv. apply valid_bounds in Hv. destruct Hv as (Hy & Hm & Hd).
  pose proof (days_in_month_bounds (year d) (month d)).
  destruct (after_year_digits (year d) (month d) (day d)) as [tl E];
    [lia | lia |].
  unfold regex_matches, strftime.
  rewrite group_Y_digits by lia. cbn [mbind list_bind mapM].
  change (s2 ← dash ?s; _) with (after_year (year d) s).
  fold (after_year (year d) ("-" +:+ digits 2 (month d) +:+ "-" +:+ digits 2 (day d))).
  rewrite E. destruct d. eexists. reflexivity.
Qed.

(** Reading back a printed date gives the date. *)
Lemma strptime_strftime (d : datetime) :
  valid d = true -> strptime (strftime d) = Ok d.
Proof.
  intros Hv. destruct (regex_matches_strftime d Hv) as [tl E].
  unfold strptime, strptime_with. rewrite E, Hv. reflexivity.
Qed.

Lemma strftime_inj (a b : datetime) :
  valid a = true -> valid b = true -> strftime a = strftime b -> a = b.
Proof.
  intros Ha Hb E. pose proof (strptime_strftime a Ha) as Pa.
  rewrite E, (strptime_strftime b Hb) in Pa. congruence.
Qed.

(** Whatever [strptime] returns is a valid date. *)
Lemma strptime_valid (s : string) (d : datetime) :
  strptime s = Ok d -> valid d = true.
Proof.
  unfold strptime, strptime_with.
  destruct (regex_matches dash s) as [|[d' rest] tl]; [discriminate|].
  destruct rest; [|discriminate].
  destruct (valid d') eqn:Hv; [|discriminate].
  intros [= <-]. exact Hv.
Qed.

End CalendarFacts.

(** ** Which calls a computation makes *)

Lemma grows_by_refl (P : Call -> Prop) (w : World) : grows_by P w w.
Proof. exists []. split; [reflexivity | constructor]. Qed.

Lemma grows_by_trans (P : Call -> Prop) (w1 w2 w3 : World) :
  grows_by P w1 w2 -> grows_by P w2 w3 -> grows_by P w1 w3.
Proof.
  intros (c1 & E1 & F1) (c2 & E2 & F2). exists (c2 ++ c1). split.
  - by rewrite E2, E1, app_assoc.
  - by apply Forall_app.
Qed.

Lemma grows_by_weaken (P Q : Call -> Prop) (w w' : World) :
  (forall c, P c -> Q c) -> grows_by P w w' -> grows_by Q w w'.
Proof.
  intros H (cs & E & F). exists cs. split; [exact E|].
  eapply Forall_impl; eauto.
Qed.

Lemma calls_only_ret {A} (P : Call -> Prop) (a : A) : calls_only P (mret a).
Proof. intros w r w' [= _ <-]. apply grows_by_refl. Qed.

Lemma calls_only_raise {A} (P : Call -> Prop) (e : Exn) :
  calls_only P (raise (A := A) e).
Proof. intros w r w' [= _ <-]. apply grows_by_refl. Qed.

Lemma calls_only_lift {A} (P : Call -> Prop) (x : Result A) :
  calls_only P (lift x).
Proof. intros w r w' [= _ <-]. apply grows_by_refl. Qed.

Lemma calls_only_bind {A B} (P : Call -> Prop) (m : M A) (k : A -> M B) :
  calls_only P m -> (forall a, calls_only P (k a)) -> calls_only P (m ≫= k).
Proof.
  intros Hm Hk w r w' E. unfold_py.
  destruct (m w) as [[a|e] w1] eqn:E1.
  - eapply grows_by_trans; [eapply Hm, E1 | eapply Hk, E].
  - injection E as _ <-. eapply Hm, E1.
Qed.

Lemma calls_only_try_except {A} (P : Call -> Prop) (m : M A) (h : Exn -> M A) :
  calls_only P m -> (forall e, calls_only P (h e)) -> calls_only P (try_except m h).
Proof.
  intros Hm Hh w r w' E. unfold_py.
  destruct (m w) as [[a|e] w1] eqn:E1.
  - injection E as _ <-. eapply Hm, E1.
  - eapply grows_by_trans; [eapply Hm, E1 | eapply Hh, E].
Qed.

Lemma calls_only_client {A} (P : Call -> Prop) (c : Call) (service : M A) :
  P c ->
  (forall w r w', service w = (r, w') -> w_log w' = w_log w) ->
  calls_only P (client_call c service).
Proof.
  intros Hc Hs w r w' E. unfold client_call in E. simpl in E.
  exists [c]. split; [|by repeat constructor].
  destruct (w_faults w) as [|[e|] fs].
  - by rewrite (Hs _ _ _ E).
  - by injection E as _ <-.
  - by rewrite (Hs _ _ _ E).
Qed.

Lemma calls_only_weaken {A} (P Q : Call -> Prop) (m : M A) :
  (forall c, P c -> Q c) -> calls_only P m -> calls_only Q m.
Proof. intros H Hm w r w' E. eapply grows_by_weaken; [exact H | eapply Hm, E]. Qed.

Ltac service_keeps_log :=
  let w := fresh "w" in
  let r := fresh "r" in
  let w' := fresh "w'" in
  let E := fresh "E" in
  intros w r w' E;
  repeat match type of E with
         | context [match ?x with _ => _ end] => destruct x
         | context [if ?x then _ else _] => destruct x
         end;
  injection E as _ <-; reflexivity.

Lemma head_object_calls (key : string) :
  calls_only is_s3_read (S3.head_object key).
Proof. apply calls_only_client; [exact I | service_keeps_log]. Qed.

Lemma get_table_calls (name : string) : calls_only is_bq_call (BQ.get_table name).
Proof. apply calls_only_client; [exact I | service_keeps_log]. Qed.

Lemma query_calls (q : string) : calls_only is_bq_call (BQ.query q).
Proof. apply calls_only_client; [exact I | service_keeps_log]. Qed.

Lemma to_dataframe_calls (job : string) :
  calls_only is_bq_call (BQ.to_dataframe job).
Proof. apply calls_only_client; [exact I | service_keeps_log]. Qed.

Lemma list_tables_calls (dataset : string) :
  calls_only is_bq_call (BQ.list_tables dataset).
Proof. apply calls_only_client; [exact I | service_keeps_log]. Qed.

(** The existence check only reads the bucket. *)
Lemma check_exists_calls (l : S3Loader.t) (d data_type : string) :
  calls_only is_s3_read (S3Loader.check_exists l d data_type).
Proof.
  unfold S3Loader.check_exists.
  apply calls_only_bind; [apply calls_only_lift|]. intros [[y m] dd].
  apply calls_only_try_except.
  - apply calls_only_bind; [apply head_object_calls|].
    intros _. apply calls_only_ret.
  - intros e. destruct (exn_class e); try apply calls_only_raise.
    destruct (String.eqb _ _); [apply calls_only_ret | apply calls_only_raise].
Qed.

(** The extraction only talks to the warehouse. *)
Lemma extract_events_calls (x : BigQueryExtractor.t) (d : string) :
  calls_only is_bq_call (BigQueryExtractor.extract_events x d).
Proof.
  unfold BigQueryExtractor.extract_events.
  apply calls_only_bind.
  - unfold BigQueryExtractor._table_exists. apply calls_only_try_except.
    + apply calls_only_bind; [apply get_table_calls|].
      intros _. apply calls_only_ret.
    + intros e. destruct (exn_class e);
        first [apply calls_only_raise | apply calls_only_ret].
  - intros [|]; simpl; [|apply calls_only_ret].
    apply calls_only_bind.
    + unfold BigQueryExtractor._build_events_query.
      apply calls_only_bind; [|intros t; apply calls_only_lift].
      intros w r w' E. unfold BigQueryExtractor._load_query in E.
      destruct (w_template w); injection E as _ <-; apply grows_by_refl.
    + intros q. apply calls_only_try_except; [|intros e; apply calls_only_raise].
      apply calls_only_bind; [apply query_calls|]. intros job.
      apply calls_only_bind; [apply to_dataframe_calls|]. intros df.
      apply calls_only_ret.
Qed.

(** ** What touches the bucket *)

Section BucketFrame.

Import Pipeline.

Lemma keeps_bucket_ret {A} (a : A) : keeps_bucket (mret a).
Proof. by intros w r w' [= _ <-]. Qed.

Lemma keeps_bucket_raise {A} (e : Exn) : keeps_bucket (raise (A := A) e).
Proof. by intros w r w' [= _ <-]. Qed.

Lemma keeps_bucket_lift {A} (x : Result A) : keeps_bucket (lift x).
Proof. by intros w r w' [= _ <-]. Qed.

Lemma keeps_bucket_bind {A B} (m : M A) (k : A -> M B) :
  keeps_bucket m -> (forall a, keeps_bucket (k a)) -> keeps_bucket (m ≫= k).
Proof.
  intros Hm Hk w r w' E. unfold_py.
  destruct (m w) as [[a|e] w1] eqn:E1.
  - rewrite (Hk a _ _ _ E). eapply Hm, E1.
  - injection E as _ <-. eapply Hm, E1.
Qed.

Lemma keeps_bucket_try_except {A} (m : M A) (h : Exn -> M A) :
  keeps_bucket m -> (forall e, keeps_bucket (h e)) -> keeps_bucket (try_except m h).
Proof.
  intros Hm Hh w r w' E. unfold_py.
  destruct (m w) as [[a|e] w1] eqn:E1.
  - injection E as _ <-. eapply Hm, E1.
  - rewrite (Hh e _ _ _ E). eapply Hm, E1.
Qed.

Lemma keeps_bucket_client {A} (c : Call) (service : M A) :
  keeps_bucket service -> keeps_bucket (client_call c service).
Proof.
  intros Hs w r w' E. unfold client_call in E. simpl in E.
  destruct (w_faults w) as [|[e|] fs].
  - by rewrite (Hs _ _ _ E).
  - by injection E as _ <-.
  - by rewrite (Hs _ _ _ E).
Qed.

Ltac service_keeps_bucket :=
  let w := fresh "w" in
  let r := fresh "r" in
  let w' := fresh "w'" in
  let E := fresh "E" in
  intros w r w' E;
  repeat match type of E with
         | context [match ?x with _ => _ end] => destruct x eqn:?
         | context [if ?x then _ else _] => destruct x eqn:?
         end;
  injection E as _ <-; simpl; congruence.

Lemma head_object_keeps_bucket (key : string) : keeps_bucket (S3.head_object key).
Proof. apply keeps_bucket_client. service_keeps_bucket. Qed.

Lemma head_bucket_keeps_bucket : keeps_bucket S3.head_bucket.
Proof. apply keeps_bucket_client. service_keeps_bucket. Qed.

Lemma list_objects_keeps_bucket (prefix : string) (c : ascii) :
  keeps_bucket (S3.list_objects_v2 prefix c).
Proof. apply keeps_bucket_client. service_keeps_bucket. Qed.




Lemma list_tables_keeps_bucket (dataset : string) :
  keeps_bucket (BQ.list_tables dataset).
Proof. apply keeps_bucket_client. service_keeps_bucket. Qed.

Lemma get_dataset_keeps_bucket (dataset : string) :
  keeps_bucket (BQ.get_dataset dataset).
Proof. apply keeps_bucket_client. service_keeps_bucket. Qed.

Lemma check_exists_keeps_bucket (l : S3Loader.t) (d data_type : string) :
  keeps_bucket (S3Loader.check_exists l d data_type).
Proof.
  unfold S3Loader.check_exists.
  apply keeps_bucket_bind; [apply keeps_bucket_lift|]. intros [[y m] dd].
  apply keeps_bucket_try_except.
  - apply keeps_bucket_bind; [apply head_object_keeps_bucket|].
    intros _. apply keeps_bucket_ret.
  - intros e. destruct (exn_class e); try apply keeps_bucket_raise.
    destruct (String.eqb _ _); [apply keeps_bucket_ret | apply keeps_bucket_raise].
Qed.

Lemma list_available_dates_keeps_bucket (l : S3Loader.t) (data_type : string)
    (limit : Z) :
  keeps_bucket (S3Loader.list_available_dates l data_type limit).
Proof.
  unfold S3Loader.list_available_dates.
  apply keeps_bucket_try_except; [|intros e; apply keeps_bucket_ret].
  apply keeps_bucket_bind; [apply list_objects_keeps_bucket|].
  intros resp. apply keeps_bucket_ret.
Qed.


Lemma get_available_dates_keeps_bucket (x : BigQueryExtractor.t) (days_back : Z) :
  keeps_bucket (BigQueryExtractor.get_available_dates x days_back).
Proof.
  unfold BigQueryExtractor.get_available_dates.
  apply keeps_bucket_bind; [apply list_tables_keeps_bucket|]. intros tables.
  apply keeps_bucket_bind; [|intros today; apply keeps_bucket_ret].
  by intros w r w' [= _ <-].
Qed.

End BucketFrame.

(** ** The daily run *)

Section RunDaily.

Import Pipeline.

Variable self : Pipeline.t.

(** A non-empty frame is uploaded under a key, or the upload raises:
    [upload_events] returns [None] only for an empty frame. *)
Lemma upload_events_nonempty (df : DataFrame) (d data_type : string) (w : World) :
  df_empty df = false ->
  match S3Loader.upload_events (loader self) df d data_type w with
  | (Ok k, _) => is_Some k
  | (Raise _, _) => True
  end.
Proof.
  intros Hne. unfold S3Loader.upload_events. rewrite Hne. unfold_py.
  destruct (unpack3 _) as [[[y m] dd]|e]; [|exact I].
  destruct (df_to_parquet df) as [buf|e]; [|exact I].
  destruct (S3.put_object _ _ w) as [[[]|e] w1]; [|exact I].
  destruct (S3Loader._upload_metadata _ _ _ _ _ _ w1) as [[[]|e] w2]; [|exact I].
  eauto.
Qed.

(** Every run for a given date returns, in one of three shapes. *)
Lemma run_daily_cases (d : string) (skip_existing : bool) (w : World) :
  exists r w',
    run_daily self (Some d) skip_existing w = (Ok r, w') /\
    date r = d /\
    ((success r = true /\ skipped r = true /\ s3_key r = None /\
      error r = None /\ records_extracted r = 0%nat) \/
     (success r = true /\ skipped r = false /\ is_Some (s3_key r) /\
      error r = None) \/
     (success r = false /\ skipped r = false /\ s3_key r = None /\
      is_Some (error r))).
Proof.
  unfold run_daily. unfold_py.
  destruct skip_existing.
  - destruct (S3Loader.check_exists _ _ _ w) as [[[|]|e] w1]; simpl.
    + eauto 10.
    + destruct (BigQueryExtractor.extract_events _ _ w1) as [[df|e] w2]; simpl.
      * destruct (df_empty df) eqn:Hdf; simpl; [eauto 10|].
        pose proof (upload_events_nonempty df d "events" w2 Hdf) as Hup.
        destruct (S3Loader.upload_events _ _ _ _ w2) as [[k|e] w3]; simpl;
          eauto 10.
      * eauto 10.
    + eauto 10.
  - simpl.
    destruct (BigQueryExtractor.extract_events _ _ w) as [[df|e] w2]; simpl.
    + destruct (df_empty df) eqn:Hdf; simpl; [eauto 10|].
      pose proof (upload_events_nonempty df d "events" w2 Hdf) as Hup.
      destruct (S3Loader.upload_events _ _ _ _ w2) as [[k|e] w3]; simpl;
        eauto 10.
    + eauto 10.
Qed.

(** C3. For every date string, every state of the bucket and of the
    warehouse and every transport fault, [run_daily] returns (it does not
    raise) and its result is of exactly one of the three variants: loaded
    ([success], not [skipped], [s3_key] set), skipped ([success] and
    [skipped]), or failed (no [success], [error] set). *)
Theorem run_daily_exactly_one_variant
    (d : string) (skip_existing : bool) (w : World) :
  exists r w',
    run_daily self (Some d) skip_existing w = (Ok r, w') /\
    exactly_one (variant_loaded r) (variant_skipped r) (variant_failed r).
Proof.
  destruct (run_daily_cases d skip_existing w) as (r & w' & E & _ & H).
  exists r, w'. split; [exact E|].
  unfold exactly_one, variant_loaded, variant_skipped, variant_failed.
  destruct H as [(S & K & _)|[(S & K & Hk & _)|(S & K & _ & He)]];
    rewrite S, K.
  - right; left. repeat split; try tauto; intros (? & ? & ?); discriminate.
  - left. repeat split; try tauto; intros (? & ?); discriminate.
  - right; right. repeat split; try tauto; intros (? & ?); discriminate.
Qed.

End RunDaily.

(** ** The outcomes of the daily run, one by one *)

Section RunDailyOutcomes.

Import Pipeline.

Variable self : Pipeline.t.

Lemma existence_check_calls (d : string) (skip_existing : bool) :
  calls_only is_s3_read (existence_check self d skip_existing).
Proof.
  destruct skip_existing; [apply check_exists_calls | apply calls_only_ret].
Qed.

Ltac run_daily_step :=
  unfold run_daily, existence_check in *; unfold_py;
  try match goal with b : bool |- _ => destruct b end;
  repeat match goal with
         | H : _ = (_, _) |- _ => rewrite H; clear H
         | H : df_empty _ = _ |- _ => rewrite H; clear H
         end;
  try reflexivity.



(** NO_DATA: the extraction returns an empty frame. *)
Lemma run_daily_no_data (d : string) (skip : bool) (w w1 w2 : World) (df : DataFrame) :
  existence_check self d skip w = (Ok false, w1) ->
  BigQueryExtractor.extract_events (extractor self) d w1 = (Ok df, w2) ->
  df_empty df = true ->
  run_daily self (Some d) skip w
  = (Ok (mkDaily d false 0 None (Some "No data found"%string) false), w2).
Proof. intros H1 H2 H3. run_daily_step; injection H1 as <-; run_daily_step. Qed.

(** FAILED in the extraction. *)
Lemma run_daily_extract_raises (d : string) (skip : bool) (w w1 w2 : World) (e : Exn) :
  existence_check self d skip w = (Ok false, w1) ->
  BigQueryExtractor.extract_events (extractor self) d w1 = (Raise e, w2) ->
  run_daily self (Some d) skip w
  = (Ok (mkDaily d false 0 None (Some (str_exn e)) false), w2).
Proof. intros H1 H2. run_daily_step; injection H1 as <-; run_daily_step. Qed.

(** SUCCESS: the upload returns the key. *)
Lemma run_daily_loaded (d : string) (skip : bool) (w w1 w2 w3 : World)
    (df : DataFrame) (k : option string) :
  existence_check self d skip w = (Ok false, w1) ->
  BigQueryExtractor.extract_events (extractor self) d w1 = (Ok df, w2) ->
  df_empty df = false ->
  S3Loader.upload_events (loader self) df d "events" w2 = (Ok k, w3) ->
  run_daily self (Some d) skip w
  = (Ok (mkDaily d true (df_len df) k None false), w3).
Proof. intros H1 H2 H3 H4. run_daily_step; injection H1 as <-; run_daily_step. Qed.

(** FAILED in the upload: the record count is already in the result. *)
Lemma run_daily_upload_raises (d : string) (skip : bool) (w w1 w2 w3 : World)
    (df : DataFrame) (e : Exn) :
  existence_check self d skip w = (Ok false, w1) ->
  BigQueryExtractor.extract_events (extractor self) d w1 = (Ok df, w2) ->
  df_empty df = false ->
  S3Loader.upload_events (loader self) df d "events" w2 = (Raise e, w3) ->
  run_daily self (Some d) skip w
  = (Ok (mkDaily d false (df_len df) None (Some (str_exn e)) false), w3).
Proof. intros H1 H2 H3 H4. run_daily_step; injection H1 as <-; run_daily_step. Qed.

(** *** The upload, call by call *)


(** The data object is written and the metadata write raises: the upload
    returns the key of the data object all the same. *)
Lemma upload_events_metadata_raises (l : S3Loader.t) (df : DataFrame)
    (d data_type y m dd buf : string) (w w1 w2 : World) (e : Exn) :
  df_empty df = false ->
  unpack3 (PyStr.split "-" d) = Ok (y, m, dd) ->
  df_to_parquet df = Ok buf ->
  let key := S3Loader.data_key l data_type y m dd in
  S3.put_object key (data_object buf) w = (Ok tt, w1) ->
  S3.put_object (metadata_key key)
    (metadata_object df d data_type key (String.length buf) (w_now w1)) w1
  = (Raise e, w2) ->
  S3Loader.upload_events l df d data_type w = (Ok (Some key), w2).
Proof.
  intros Hne Hd Hb key H1 H2.
  unfold S3Loader.upload_events, S3Loader._upload_metadata.
  rewrite Hne. unfold_py. rewrite Hd, Hb.
  fold key. fold (data_object buf). rewrite H1.
  unfold metadata_key, metadata_object in H2. rewrite H2. reflexivity.
Qed.

(** The write of the data object raises: the upload raises the same. *)
Lemma upload_events_data_raises (l : S3Loader.t) (df : DataFrame)
    (d data_type y m dd buf : string) (w w1 : World) (e : Exn) :
  df_empty df = false ->
  unpack3 (PyStr.split "-" d) = Ok (y, m, dd) ->
  df_to_parquet df = Ok buf ->
  S3.put_object (S3Loader.data_key l data_type y m dd) (data_object buf) w
  = (Raise e, w1) ->
  S3Loader.upload_events l df d data_type w = (Raise e, w1).
Proof.
  intros Hne Hd Hb H1. unfold S3Loader.upload_events.
  rewrite Hne. unfold_py. rewrite Hd, Hb.
  fold (data_object buf). rewrite H1. reflexivity.
Qed.

(** C4, as the code has it.  When the existence check lets the run through
    and the extraction returns an empty frame, [run_daily] returns the
    NO_DATA result (no success, error ["No data found"]) straight after
    the extraction, no [put_object] having been called; when the
    extraction raises [e], it returns the FAILED result whose error is
    [str(e)].  Neither raises.  The two results are the same record but
    for the error text: they differ exactly when the message of [e] is not
    itself ["No data found"]. *)
Theorem run_daily_no_data_versus_raised
    (d : string) (skip : bool) (wa wa1 wa2 wb wb1 wb2 : World)
    (df : DataFrame) (e : Exn) :
  existence_check self d skip wa = (Ok false, wa1) ->
  BigQueryExtractor.extract_events (extractor self) d wa1 = (Ok df, wa2) ->
  df_empty df = true ->
  existence_check self d skip wb = (Ok false, wb1) ->
  BigQueryExtractor.extract_events (extractor self) d wb1 = (Raise e, wb2) ->
  let no_data := mkDaily d false 0 None (Some "No data found"%string) false in
  let failed := mkDaily d false 0 None (Some (str_exn e)) false in
  run_daily self (Some d) skip wa = (Ok no_data, wa2) /\
  grows_by (fun c => forall k, c <> S3_put_object k) wa wa2 /\
  run_daily self (Some d) skip wb = (Ok failed, wb2) /\
  (no_data <> failed <-> str_exn e <> "No data found"%string).
Proof.
  intros Ha1 Ha2 Hdf Hb1 Hb2 no_data failed.
  split; [|split; [|split]].
  - by eapply run_daily_no_data.
  - eapply grows_by_trans.
    + eapply grows_by_weaken; [|eapply existence_check_calls, Ha1].
      intros [] Hc k; (discriminate || destruct Hc).
    + eapply grows_by_weaken; [|eapply extract_events_calls, Ha2].
      intros [] Hc k; (discriminate || destruct Hc).
  - by eapply run_daily_extract_raises.
  - unfold no_data, failed. split.
    + intros Hne Heq. apply Hne. by rewrite Heq.
    + intros Hne [= Heq]. by apply Hne.
Qed.

(** C7. The extraction has returned a non-empty frame.  If the write of
    the data object succeeds and the write of the metadata object raises,
    [run_daily] returns success, with [s3_key] the key of the data object
    and [records_extracted] the length of the frame: the exception of the
    metadata write goes nowhere.  If the write of the data object itself
    raises [e], [run_daily] returns the FAILED result with [str(e)]. *)
Theorem run_daily_metadata_failure_swallowed
    (d : string) (skip : bool) (df : DataFrame) (y m dd buf : string)
    (wa wa1 wa2 wa3 wa4 wb wb1 wb2 wb3 : World) (e_meta e_data : Exn) :
  df_empty df = false ->
  unpack3 (PyStr.split "-" d) = Ok (y, m, dd) ->
  df_to_parquet df = Ok buf ->
  let key := S3Loader.data_key (loader self) "events" y m dd in
  existence_check self d skip wa = (Ok false, wa1) ->
  BigQueryExtractor.extract_events (extractor self) d wa1 = (Ok df, wa2) ->
  S3.put_object key (data_object buf) wa2 = (Ok tt, wa3) ->
  S3.put_object (metadata_key key)
    (metadata_object df d "events" key (String.length buf) (w_now wa3)) wa3
  = (Raise e_meta, wa4) ->
  existence_check self d skip wb = (Ok false, wb1) ->
  BigQueryExtractor.extract_events (extractor self) d wb1 = (Ok df, wb2) ->
  S3.put_object key (data_object buf) wb2 = (Raise e_data, wb3) ->
  run_daily self (Some d) skip wa
  = (Ok (mkDaily d true (df_len df) (Some key) None false), wa4) /\
  run_daily self (Some d) skip wb
  = (Ok (mkDaily d false (df_len df) None (Some (str_exn e_data)) false), wb3).
Proof.
  intros Hne Hd Hbuf key Ha1 Ha2 Ha3 Ha4 Hb1 Hb2 Hb3. split.
  - eapply run_daily_loaded; eauto.
    eapply upload_events_metadata_raises; eauto.
  - eapply run_daily_upload_raises; eauto.
    eapply upload_events_data_raises; eauto.
Qed.

(** *** Read after write *)


Lemma put_object_keeps (key k : string) (o : S3Object) (w w' : World)
    (r : Result unit) :
  S3.put_object k o w = (r, w') -> has_object key w -> has_object key w'.
Proof.
  unfold S3.put_object, client_call. simpl.
  intros E (objects & Hb & Hk).
  destruct (w_faults w) as [|[e|] fs]; simpl in E; rewrite ?Hb in E;
    injection E as _ <-; simpl;
    first [ exists objects; by split
          | exists (<[k := o]> objects); split; [reflexivity|];
            rewrite lookup_insert; case_decide; eauto ].
Qed.

Lemma put_object_ok (key : string) (o : S3Object) (w w' : World) :
  S3.put_object key o w = (Ok tt, w') -> has_object key w'.
Proof.
  unfold S3.put_object, client_call. simpl.
  destruct (w_faults w) as [|[e|] fs]; try discriminate;
    (destruct (w_bucket w) as [objects|] eqn:Hb; [|discriminate];
     intros [= <-]; exists (<[key := o]> objects); simpl;
     split; [reflexivity|]; rewrite lookup_insert_eq; eauto).
Qed.

Lemma _upload_metadata_keeps (l : S3Loader.t) (df : DataFrame)
    (d data_type k key : string) (size : nat) (w w' : World) (r : Result unit) :
  S3Loader._upload_metadata l df d data_type k size w = (r, w') ->
  has_object key w -> has_object key w'.
Proof.
  unfold S3Loader._upload_metadata. unfold_py. intros E H.
  destruct (S3.put_object _ _ w) as [[[]|e] w1] eqn:E1;
    injection E as _ <-; eapply put_object_keeps; eauto.
Qed.

(** After an upload that returned [key], the object [key] is in the
    bucket, and [key] is the partition key of the date. *)
Lemma upload_events_ok (l : S3Loader.t) (df : DataFrame) (d data_type key : string)
    (w w' : World) :
  S3Loader.upload_events l df d data_type w = (Ok (Some key), w') ->
  exists y m dd,
    unpack3 (PyStr.split "-" d) = Ok (y, m, dd) /\
    key = S3Loader.data_key l data_type y m dd /\
    has_object key w'.
Proof.
  unfold S3Loader.upload_events.
  destruct (df_empty df); [discriminate|]. unfold_py.
  destruct (unpack3 _) as [[[y m] dd]|e]; [|discriminate].
  destruct (df_to_parquet df) as [buf|e]; [|discriminate].
  destruct (S3.put_object _ _ w) as [[[]|e] w1] eqn:E1; [|discriminate].
  destruct (S3Loader._upload_metadata _ _ _ _ _ _ w1) as [[[]|e] w2] eqn:E2;
    [|discriminate].
  intros [= <- <-]. exists y, m, dd. repeat split.
  eapply _upload_metadata_keeps; [exact E2|]. eapply put_object_ok, E1.
Qed.


(** With the object in the bucket and no fault on the way, the existence
    check makes its one call and answers [True]. *)
Lemma check_exists_has_object (l : S3Loader.t) (d data_type y m dd : string)
    (w : World) :
  unpack3 (PyStr.split "-" d) = Ok (y, m, dd) ->
  has_object (S3Loader.data_key l data_type y m dd) w ->
  hd None (w_faults w) = None ->
  exists w',
    S3Loader.check_exists l d data_type w = (Ok true, w') /\
    w_log w' = S3_head_object (S3Loader.data_key l data_type y m dd) :: w_log w.
Proof.
  intros Hd (objects & Hb & [o Hk]) Hf.
  unfold S3Loader.check_exists. unfold_py. rewrite Hd.
  unfold S3.head_object, client_call. simpl.
  destruct (w_faults w) as [|[e|] fs]; simpl in Hf; try discriminate;
    simpl; rewrite Hb, Hk; eexists; split; reflexivity.
Qed.


End RunDailyOutcomes.

(** ** What a run writes, and which calls an upload makes *)

Section WriteFacts.

Import Pipeline.

Variable self : Pipeline.t.




Lemma put_object_calls (key : string) (o : S3Object) :
  calls_only is_put_object (S3.put_object key o).
Proof.
  apply calls_only_client; [exact I|].
  intros w r w' E. destruct (w_bucket w); by injection E as _ <-.
Qed.

Lemma upload_events_calls (l : S3Loader.t) (df : DataFrame) (d data_type : string) :
  calls_only is_put_object (S3Loader.upload_events l df d data_type).
Proof.
  unfold S3Loader.upload_events. destruct (df_empty df); [apply calls_only_ret|].
  apply calls_only_bind; [apply calls_only_lift|]. intros [[y m] dd].
  apply calls_only_try_except; [|intros e; apply calls_only_raise].
  apply calls_only_bind; [apply calls_only_lift|]. intros buf.
  apply calls_only_bind; [apply put_object_calls|]. intros _.
  apply calls_only_bind; [|intros _; apply calls_only_ret].
  unfold S3Loader._upload_metadata.
  apply calls_only_bind; [by intros w r w' [= _ <-]; apply grows_by_refl|].
  intros now. apply calls_only_try_except; [apply put_object_calls|].
  intros e. apply calls_only_ret.
Qed.

End WriteFacts.

(** ** Two runs in a row *)

Section RunTwice.

Import Pipeline.

Variable self : Pipeline.t.







End RunTwice.

(** ** Backfill *)

Lemma interleave3_length {A} (a b c l : list A) :
  interleave3 a b c l ->
  (List.length a + List.length b + List.length c = List.length l)%nat.
Proof. induction 1; simpl; lia. Qed.

Lemma interleave3_perm {A} (a b c l : list A) :
  interleave3 a b c l -> a ++ b ++ c ≡ₚ l.
Proof.
  induction 1; simpl.
  - reflexivity.
  - by f_equiv.
  - rewrite <- Permutation_middle. by f_equiv.
  - rewrite (app_assoc a b (x :: c)), <- Permutation_middle, <- app_assoc.
    by f_equiv.
Qed.

Lemma interleave3_sublist {A} (a b c l : list A) :
  interleave3 a b c l -> sublist a l /\ sublist b l /\ sublist c l.
Proof.
  induction 1 as [|x a b c l _ (Ha & Hb & Hc)|x a b c l _ (Ha & Hb & Hc)
                  |x a b c l _ (Ha & Hb & Hc)];
    repeat split; try (by constructor).
Qed.

(** With no repetition in [l], an element of [l] is in exactly one of the
    three subsequences. *)
Lemma interleave3_exactly_one {A} (a b c l : list A) (x : A) :
  interleave3 a b c l -> NoDup l -> x ∈ l ->
  ((x ∈ a) /\ (x ∉ b) /\ (x ∉ c)) \/ ((x ∉ a) /\ (x ∈ b) /\ (x ∉ c)) \/
  ((x ∉ a) /\ (x ∉ b) /\ (x ∈ c)).
Proof.
  intros H Hnd Hin.
  pose proof (interleave3_perm _ _ _ _ H) as P.
  rewrite <- P in Hnd, Hin.
  apply NoDup_app in Hnd as (Na & Hab & Nbc).
  apply NoDup_app in Nbc as (Nb & Hbc & Nc).
  rewrite !elem_of_app in Hin.
  assert (Hab' : x ∈ a -> (x ∉ b) /\ (x ∉ c)).
  { intros Hx. specialize (Hab x Hx). rewrite elem_of_app in Hab. tauto. }
  specialize (Hbc x).
  tauto.
Qed.

Section Backfill.

Import Pipeline PyDate CalendarFacts.

Variable self : Pipeline.t.
Variable skip_existing : bool.

Lemma grown_nil (r : BackfillReport) : grown r r [].
Proof.
  exists [], [], []. rewrite !app_nil_r. repeat split. constructor.
Qed.

Lemma grown_cons (r r1 r2 : BackfillReport) (d : string) (days : list string) :
  grown r r1 [d] -> grown r1 r2 days -> grown r r2 (d :: days).
Proof.
  intros (a1 & b1 & c1 & I1 & S1 & F1 & K1 & ? & ? & ?)
         (a2 & b2 & c2 & I2 & S2 & F2 & K2 & ? & ? & ?).
  exists (a1 ++ a2), (b1 ++ b2), (c1 ++ c2).
  rewrite S2, F2, K2, S1, F1, K1, <- !app_assoc, map_app.
  repeat split; try congruence.
  inversion I1 as [|? ? ? ? ? I|? ? ? ? ? I|? ? ? ? ? I]; subst;
    inversion I; subst;
    destruct b1 as [|f [|]]; simplify_eq/=; by constructor.
Qed.

(** One day of the loop never raises and never returns: it appends the
    day to one of the three lists. *)
Lemma backfill_day_spec {R} (ds : string) (r : BackfillReport) (w : World) :
  exists r' w',
    backfill_day (R := R) self skip_existing ds r w = (Next tt, r', w') /\
    grown r r' [ds].
Proof.
  destruct (run_daily_cases self ds skip_existing w) as (res & w' & E & _ & _).
  unfold backfill_day. unfold_py. rewrite E.
  destruct (success res); [destruct (skipped res)|]; do 2 eexists;
    (split; [reflexivity|]).
  - exists [], [], [ds]. simpl. rewrite !app_nil_r.
    repeat split; repeat constructor.
  - exists [ds], [], []. simpl. rewrite !app_nil_r.
    repeat split; repeat constructor.
  - exists [], [mkFailed ds (error res)], []. simpl. rewrite !app_nil_r.
    repeat split; repeat constructor.
Qed.

Lemma span_le (a b : datetime) :
  valid a = true -> valid b = true -> le a b = true ->
  exists n, span a b = S n /\
            (a = b -> n = O) /\
            (a <> b -> n = span (next_day a) b /\ a <> max).
Proof.
  intros Ha Hb Hle. apply (le_toordinal a b Ha Hb) in Hle.
  unfold span, sub_days.
  exists (Z.to_nat (toordinal b - toordinal a)). split; [lia|]. split.
  - intros ->. lia.
  - intros Hne.
    assert (toordinal a <> toordinal b)
      by (intros E; apply Hne, toordinal_inj; assumption).
    pose proof (toordinal_max b Hb).
    assert (Hmax : a <> max).
    { intros ->. lia. }
    rewrite (next_day_toordinal a Ha). split; [lia | exact Hmax].
Qed.

Lemma span_gt (a b : datetime) :
  valid a = true -> valid b = true -> le a b = false -> span a b = O.
Proof.
  intros Ha Hb Hle. unfold span, sub_days.
  destruct (Z.le_gt_cases (toordinal a) (toordinal b)) as [H|H].
  - apply (le_toordinal a b Ha Hb) in H. congruence.
  - lia.
Qed.

(** The loop, run with at least as much fuel as there are days left: it
    goes through every day up to [end_] whatever the day's run does, and
    ends normally, unless [end_] is the last date of the calendar, where the
    increment of the last iteration raises. *)
Lemma backfill_loop_spec (end_ : datetime) :
  valid end_ = true ->
  forall (fuel : nat) (current : datetime) (r : BackfillReport) (w : World),
    valid current = true ->
    (span current end_ <= fuel)%nat ->
    exists r' w',
      backfill_loop fuel self skip_existing end_ current r w
      = (if le current end_ && bool_decide (end_ = max)
         then Throw overflow else Next tt, r', w') /\
      grown r r' (map strftime (days_from current (span current end_))).
Proof.
  intros Hend fuel. induction fuel as [|fuel IH]; intros current r w Hcur Hfuel.
  - destruct (le current end_) eqn:Hle.
    + destruct (span_le current end_ Hcur Hend Hle) as (n & E & _). lia.
    + simpl. rewrite Hle, (span_gt current end_ Hcur Hend Hle). simpl.
      do 2 eexists. split; [reflexivity | apply grown_nil].
  - simpl. destruct (le current end_) eqn:Hle.
    + destruct (span_le current end_ Hcur Hend Hle) as (n & E & Heq & Hne).
      rewrite E. simpl.
      destruct (backfill_day_spec (R := option BackfillReport)
                  (strftime current) r w) as (r1 & w1 & E1 & G1).
      unfold_py. rewrite E1. unfold add_one_day.
      destruct (decide (current = max)) as [Hmax|Hmax].
      * destruct (decide (current = end_)) as [->|Hce];
          [|destruct (Hne Hce); contradiction].
        rewrite (Heq eq_refl). simpl.
        rewrite bool_decide_eq_true_2 by assumption.
        do 2 eexists. split; [reflexivity|].
        eapply grown_cons; [exact G1 | apply grown_nil].
      * assert (Hnext : valid (next_day current) = true)
          by (apply next_day_valid; assumption).
        destruct (decide (current = end_)) as [->|Hce].
        -- rewrite (Heq eq_refl).
           assert (Hgt : le (next_day end_) end_ = false).
           { destruct (le (next_day end_) end_) eqn:L; [|reflexivity].
             apply (le_toordinal _ _ Hnext Hend) in L.
             rewrite (next_day_toordinal end_ Hend) in L. lia. }
           destruct (IH (next_day end_) r1 w1 Hnext) as (r2 & w2 & E2 & G2).
           { rewrite (span_gt _ _ Hnext Hend Hgt). lia. }
           rewrite Hgt in E2. simpl in E2. rewrite E2.
           rewrite bool_decide_eq_false_2 by assumption.
           rewrite (span_gt _ _ Hnext Hend Hgt) in G2. simpl in *.
           do 2 eexists. split; [reflexivity|].
           eapply grown_cons; [exact G1 | exact G2].
        -- destruct (Hne Hce) as [En _].
           destruct (IH (next_day current) r1 w1 Hnext) as (r2 & w2 & E2 & G2);
             [lia|].
           assert (Hle' : le (next_day current) end_ = true).
           { apply (le_toordinal _ _ Hnext Hend).
             rewrite (next_day_toordinal current Hcur).
             apply (le_toordinal _ _ Hcur Hend) in Hle.
             assert (toordinal current <> toordinal end_)
               by (intros E'; apply Hce, toordinal_inj; assumption).
             lia. }
           rewrite Hle' in E2. rewrite E2. rewrite <- En in G2.
           do 2 eexists. split; [reflexivity|].
           simpl. eapply grown_cons; [exact G1 | exact G2].
    + rewrite (span_gt current end_ Hcur Hend Hle). simpl.
      do 2 eexists. split; [reflexivity | apply grown_nil].
Qed.

Lemma days_from_length (d : datetime) (n : nat) : List.length (days_from d n) = n.
Proof. revert d. induction n as [|n IH]; intros d; simpl; [|rewrite IH]; reflexivity. Qed.

(** The [i]-th day of the loop is the valid date [i] days after the first,
    as long as the calendar does not end before. *)
Lemma days_from_lookup (n : nat) :
  forall (d : datetime) (i : nat) (x : datetime),
    valid d = true ->
    toordinal d + Z.of_nat n - 1 <= toordinal max ->
    days_from d n !! i = Some x ->
    valid x = true /\ toordinal x = toordinal d + Z.of_nat i.
Proof.
  induction n as [|n IH]; intros d i x Hd Hmax Hx; [discriminate|].
  destruct i as [|i]; simpl in Hx.
  - injection Hx as <-. split; [assumption | lia].
  - assert (Hne : d <> max) by (intros ->; destruct n; [discriminate | lia]).
    destruct (IH (next_day d) i x) as [Hv Ho].
    + by apply next_day_valid.
    + rewrite (next_day_toordinal d Hd). lia.
    + exact Hx.
    + split; [exact Hv|]. rewrite Ho, (next_day_toordinal d Hd). lia.
Qed.

Lemma span_within (a b : datetime) :
  valid a = true -> valid b = true ->
  toordinal a + Z.of_nat (span a b) - 1 <= toordinal max.
Proof.
  intros Ha Hb. pose proof (toordinal_max a Ha). pose proof (toordinal_max b Hb).
  unfold span, sub_days. lia.
Qed.

(** No date string comes twice in the sequence of days of a range. *)
Lemma days_NoDup (a b : datetime) :
  valid a = true -> valid b = true ->
  NoDup (map strftime (days_from a (span a b))).
Proof.
  intros Ha Hb.
  pose proof (days_from_lookup (span a b) a) as L.
  apply NoDup_fmap_2_strong.
  - intros x y Hx Hy E.
    apply list_elem_of_lookup in Hx as [i Hi], Hy as [j Hj].
    destruct (L i x Ha (span_within a b Ha Hb) Hi) as [Vx _].
    destruct (L j y Ha (span_within a b Ha Hb) Hj) as [Vy _].
    by apply strftime_inj.
  - apply NoDup_alt. intros i j x Hi Hj.
    destruct (L i x Ha (span_within a b Ha Hb) Hi) as [_ Oi].
    destruct (L j x Ha (span_within a b Ha Hb) Hj) as [_ Oj].
    lia.
Qed.

(** Every calendar day from [a] to [b] is in the sequence. *)
Lemma days_complete (a b d : datetime) :
  valid a = true -> valid b = true -> valid d = true ->
  le a d = true -> le d b = true ->
  d ∈ days_from a (span a b).
Proof.
  intros Ha Hb Hd Had Hdb.
  apply (le_toordinal a d Ha Hd) in Had. apply (le_toordinal d b Hd Hb) in Hdb.
  set (i := Z.to_nat (toordinal d - toordinal a)).
  assert (Hi : (i < List.length (days_from a (span a b)))%nat).
  { rewrite days_from_length. unfold span, sub_days. lia. }
  apply lookup_lt_is_Some_2 in Hi as [x Hx].
  destruct (days_from_lookup _ a i x Ha (span_within a b Ha Hb) Hx) as [Vx Ox].
  assert (x = d) as <- by (apply toordinal_inj; [assumption..|lia]).
  apply list_elem_of_lookup. eauto.
Qed.

(** What [backfill] does once both dates are read and the range is not
    empty: it returns the report the loop has filled, or raises the
    overflow of the last increment. *)
Lemma backfill_outcome (s e : string) (start end_ : datetime) (w : World) :
  strptime s = Ok start -> strptime e = Ok end_ -> le start end_ = true ->
  exists r w',
    backfill self s e skip_existing w
    = (if bool_decide (end_ = max) then Raise overflow else Ok (Some r), w') /\
    grown (mkReport s e (sub_days end_ start + 1) [] [] [] 0) r
          (map strftime (days_from start (span start end_))).
Proof.
  intros Hs He Hle.
  pose proof (strptime_valid _ _ Hs) as Vs.
  pose proof (strptime_valid _ _ He) as Ve.
  destruct (backfill_loop_spec end_ Ve (span start end_) start
              (mkReport s e (sub_days end_ start + 1) [] [] [] 0) w Vs
              ltac:(lia)) as (r & w' & E & G).
  exists r, w'. split; [|exact G].
  unfold backfill. unfold_py. rewrite Hs, He.
  assert (Hgt : gt start end_ = false).
  { unfold le in Hle. by destruct (gt start end_). }
  rewrite Hgt. fold (span start end_). rewrite E, Hle. simpl.
  by destruct (bool_decide (end_ = max)).
Qed.

(** Every exception [strptime] raises is a [ValueError], and none of them
    is the one of the range check. *)
Lemma strptime_raises (s : string) (err : Exn) :
  strptime s = Raise err -> exn_class err = ValueError /\ err <> invalid_range.
Proof.
  unfold strptime, strptime_with.
  destruct (regex_matches dash s) as [|[d rest] tl].
  - intros [= <-]. split; [reflexivity | discriminate].
  - destruct rest.
    + destruct (valid d); [discriminate|]. intros [= <-].
      split; [reflexivity|]. unfold out_of_range.
      destruct (year d =? 0); discriminate.
    + intros [= <-]. split; [reflexivity | discriminate].
Qed.

(** A range whose start is after its end is refused before anything is
    done: the world is as it was. *)
Lemma backfill_invalid_range (s e : string) (start end_ : datetime) (w : World) :
  strptime s = Ok start -> strptime e = Ok end_ -> gt start end_ = true ->
  backfill self s e skip_existing w = (Raise invalid_range, w).
Proof.
  intros Hs He Hgt. unfold backfill. unfold_py. by rewrite Hs, He, Hgt.
Qed.

(** For two dates that parse, the range error is raised exactly when the
    start is after the end. *)
Lemma backfill_invalid_range_iff (s e : string) (start end_ : datetime) (w : World) :
  strptime s = Ok start -> strptime e = Ok end_ ->
  (exists w', backfill self s e skip_existing w = (Raise invalid_range, w'))
  <-> gt start end_ = true.
Proof.
  intros Hs He. split.
  - intros [w' E]. destruct (gt start end_) eqn:Hgt; [reflexivity|].
    assert (Hle : le start end_ = true) by (unfold le; by rewrite Hgt).
    destruct (backfill_outcome s e start end_ w Hs He Hle) as (r & w1 & E1 & _).
    rewrite E in E1. destruct (bool_decide (end_ = max)); discriminate.
  - intros Hgt. exists w.
    exact (backfill_invalid_range s e start end_ w Hs He Hgt).
Qed.

(** The report of a range that does not end on the last date counts the
    days of the range. *)
Lemma backfill_total_days (s e : string) (start end_ : datetime) (w : World) :
  strptime s = Ok start -> strptime e = Ok end_ -> le start end_ = true ->
  end_ <> max ->
  exists r w',
    backfill self s e skip_existing w = (Ok (Some r), w') /\
    total_days r = toordinal end_ - toordinal start + 1.
Proof.
  intros Hs He Hle Hmax.
  destruct (backfill_outcome s e start end_ w Hs He Hle)
    as (r & w' & E & (a & b & c & _ & _ & _ & _ & _ & _ & T)).
  rewrite bool_decide_eq_false_2 in E by assumption.
  exists r, w'. split; [exact E | exact T].
Qed.

(** C1. Whatever the source and the sink do, the report [backfill] returns
    for a range [start <= end] holds every calendar day of the range in
    exactly one of [successful_days], [failed_days] and [skipped_days]: the
    three lists are an interleaving of the days of the range taken in
    chronological order, so their lengths add up to [total_days].  No
    failure of a day's run aborts the loop: a report is returned for every
    state and every fault of the two services, and the only exception that
    can come out of the loop is the overflow of the date increment, for a
    range that ends on the last date of the calendar. *)
Theorem backfill_report_partitions_days
    (s e : string) (start end_ : datetime) (w : World) :
  strptime s = Ok start -> strptime e = Ok end_ -> le start end_ = true ->
  let days := days_from start (span start end_) in
  (forall d, valid d = true -> le start d = true -> le d end_ = true -> d ∈ days) /\
  (forall i d, days !! i = Some d ->
     valid d = true /\ toordinal d = toordinal start + Z.of_nat i) /\
  (end_ <> max ->
   exists r w', backfill self s e skip_existing w = (Ok (Some r), w')) /\
  (forall err w', backfill self s e skip_existing w = (Raise err, w') ->
     err = overflow /\ end_ = max) /\
  (forall r w', backfill self s e skip_existing w = (Ok r, w') ->
     exists report, r = Some report /\
     Z.of_nat (List.length (successful_days report)
               + List.length (failed_days report)
               + List.length (skipped_days report)) = total_days report /\
     interleave3 (successful_days report)
                 (map failed_date (failed_days report))
                 (skipped_days report) (map strftime days) /\
     forall d, d ∈ days ->
       exactly_one (strftime d ∈ successful_days report)
                   (strftime d ∈ map failed_date (failed_days report))
                   (strftime d ∈ skipped_days report)).
Proof.
  intros Hs He Hle days.
  pose proof (strptime_valid _ _ Hs) as Vs.
  pose proof (strptime_valid _ _ He) as Ve.
  destruct (backfill_outcome s e start end_ w Hs He Hle)
    as (r & w1 & E & (a & b & c & I & Sa & Sb & Sc & _ & _ & T)).
  simpl in Sa, Sb, Sc, T.
  split; [|split; [|split; [|split]]].
  - intros d Vd H1 H2. by apply days_complete.
  - intros i d Hd.
    exact (days_from_lookup _ start i d Vs (span_within start end_ Vs Ve) Hd).
  - intros Hmax. rewrite bool_decide_eq_false_2 in E by assumption. eauto.
  - intros err w' E'. rewrite E' in E.
    destruct (bool_decide_reflect (end_ = max)); [|discriminate].
    split; [congruence | assumption].
  - intros r0 w' E'. rewrite E' in E.
    destruct (bool_decide (end_ = max)); [discriminate|].
    exists r. split; [congruence|].
    rewrite Sa, Sb, Sc. split; [|split].
    + rewrite T. pose proof (interleave3_length _ _ _ _ I) as L.
      rewrite !length_map, days_from_length in L. rewrite L.
      apply (le_toordinal start end_ Vs Ve) in Hle.
      unfold span, sub_days. lia.
    + exact I.
    + intros d Hd.
      assert (N : NoDup (map strftime days)) by (by apply days_NoDup).
      assert (Hin : strftime d ∈ map strftime days)
        by (apply list_elem_of_fmap; eauto).
      destruct (interleave3_exactly_one _ _ _ _ _ I N Hin) as [?|[?|?]];
        unfold exactly_one; tauto.
Qed.

(** C2, at the last date of the calendar.  There the loop has gone through
    the day when [current_date += timedelta(days=1)] raises
    [OverflowError]: [backfill] returns no report for the range
    9999-12-31 .. 9999-12-31, whose start is not after its end. *)
Theorem backfill_last_date_overflows (w : World) :
  exists w',
    backfill self "9999-12-31" "9999-12-31" skip_existing w
    = (Raise overflow, w').
Proof.
  destruct (backfill_outcome "9999-12-31" "9999-12-31" max max w
              eq_refl eq_refl eq_refl) as (r & w' & E & _).
  exists w'. exact E.
Qed.

(** C10. When one of the two date strings is not accepted by
    [strptime(.., '%Y-%m-%d')], [backfill] raises the [ValueError] of the
    parse, which is not the error of the range check, and leaves the world
    as it found it: no call goes to the source or to the sink and no report
    is built. *)
Theorem backfill_parse_error (s e : string) (w : World) :
  (exists err, strptime s = Raise err) \/ (exists err, strptime e = Raise err) ->
  exists err,
    backfill self s e skip_existing w = (Raise err, w) /\
    (strptime s = Raise err \/ strptime e = Raise err) /\
    exn_class err = ValueError /\ err <> invalid_range.
Proof.
  intros H. unfold backfill. unfold_py.
  destruct (strptime s) as [start|err_s] eqn:Hs.
  - destruct H as [[err H]|[err H]]; [discriminate|].
    rewrite H. exists err. destruct (strptime_raises e err H). auto.
  - exists err_s. destruct (strptime_raises s err_s Hs). auto.
Qed.

End Backfill.

(** ** Status *)

Section Status.

Import Pipeline.

Variable self : Pipeline.t.

(** Neither connection test can make [test_connections] raise. *)
Lemma test_connections_returns (w : World) :
  exists conns w', test_connections self w = (Ok conns, w').
Proof.
  unfold test_connections. unfold_py.
  destruct (BigQueryExtractor.test_connection _ w) as [[b|e] w1];
    destruct (S3Loader.test_connection _ w1) as [[b'|e'] w2]; eauto.
Qed.

(** The sink's listing never raises: an exception of the transport is
    turned into the empty list. *)
Lemma list_available_dates_returns (l : S3Loader.t) (data_type : string)
    (limit : Z) (w : World) :
  exists dates w',
    S3Loader.list_available_dates l data_type limit w = (Ok dates, w') /\
    forall e w1,
      S3.list_objects_v2 (S3Loader.prefix l +:+ "/" +:+ data_type +:+ "/") "/" w
      = (Raise e, w1) ->
      dates = [] /\ w' = w1.
Proof.
  unfold S3Loader.list_available_dates. unfold_py.
  destruct (S3.list_objects_v2 _ _ w) as [[resp|e] w1].
  - do 2 eexists. split; [reflexivity | discriminate].
  - do 2 eexists. split; [reflexivity|]. by intros ? ? [= _ <-].
Qed.

(** What [get_pipeline_status] returns, by the outcome of the two
    listings. *)
Lemma get_pipeline_status_cases (w : World) :
  exists conns w1,
    test_connections self w = (Ok conns, w1) /\
    match BigQueryExtractor.get_available_dates (extractor self) 30 w1 with
    | (Raise _, w2) =>
        get_pipeline_status self w = (Ok (mkStatus conns [] [] []), w2)
    | (Ok bq_dates, w2) =>
        match S3Loader.list_available_dates (loader self) "events" 30 w2 with
        | (Raise _, w3) =>
            get_pipeline_status self w = (Ok (mkStatus conns [] [] []), w3)
        | (Ok s3_dates, w3) =>
            get_pipeline_status self w
            = (Ok (mkStatus conns bq_dates s3_dates
                     (the_missing bq_dates s3_dates)), w3)
        end
    end.
Proof.
  destruct (test_connections_returns w) as (conns & w1 & E).
  exists conns, w1. split; [exact E|].
  unfold get_pipeline_status. unfold_py. rewrite E.
  destruct (BigQueryExtractor.get_available_dates _ _ w1) as [[bq|e] w2];
    [|reflexivity].
  destruct (S3Loader.list_available_dates _ _ _ w2) as [[s3d|e] w3];
    reflexivity.
Qed.

Lemma py_in_spec (x : string) (l : list string) : py_in x l = true <-> x ∈ l.
Proof.
  unfold py_in. rewrite existsb_exists. split.
  - intros (y & Hy & E). apply String.eqb_eq in E. subst.
    by apply list_elem_of_In.
  - intros H. exists x. split; [by apply list_elem_of_In | apply String.eqb_refl].
Qed.

Lemma the_missing_spec (bq_dates s3_dates : list string) (d : string) :
  d ∈ the_missing bq_dates s3_dates <-> d ∈ bq_dates /\ d ∉ s3_dates.
Proof.
  unfold the_missing.
  rewrite list_elem_of_In, filter_In, <- list_elem_of_In, negb_true_iff.
  split; intros [H1 H2]; (split; [exact H1|]).
  - intros Hin%py_in_spec. congruence.
  - destruct (py_in d s3_dates) eqn:E; [|reflexivity].
    apply py_in_spec in E. contradiction.
Qed.

Lemma the_missing_nil (bq_dates : list string) : the_missing bq_dates [] = bq_dates.
Proof.
  unfold the_missing.
  induction bq_dates as [|d l IH]; simpl; [reflexivity | f_equal; exact IH].
Qed.

(** C8. [get_pipeline_status] always returns a report, made of what the
    two listings returned: when the listing of the source returns
    [source_dates], the sink is listed next, in the world the source's
    listing left, and the report holds [source_dates] as
    [bigquery_available_dates], the dates the sink's listing returned as
    [s3_available_dates], and as [missing_dates] the dates of the former
    that are not among the latter, in the order of the former; when the
    listing of the source raises, nothing has been fetched and the three
    lists are empty.  In every case [missing_dates] is, as a set, the
    difference of the other two. *)
Theorem missing_dates_is_set_difference (w : World) :
  exists conns w1 status w',
    test_connections self w = (Ok conns, w1) /\
    get_pipeline_status self w = (Ok status, w') /\
    connections status = conns /\
    match BigQueryExtractor.get_available_dates (extractor self) 30 w1 with
    | (Ok source_dates, w2) =>
        exists sink_dates,
          S3Loader.list_available_dates (loader self) "events" 30 w2
          = (Ok sink_dates, w') /\
          bigquery_available_dates status = source_dates /\
          s3_available_dates status = sink_dates /\
          missing_dates status
          = List.filter (fun d => negb (py_in d sink_dates)) source_dates /\
          (list_to_set (missing_dates status) : gset string)
          = list_to_set source_dates ∖ list_to_set sink_dates /\
          (forall d, d ∈ missing_dates status <->
                     d ∈ source_dates /\ d ∉ sink_dates)
    | (Raise _, w2) =>
        w' = w2 /\
        bigquery_available_dates status = [] /\
        s3_available_dates status = [] /\
        missing_dates status = []
    end /\
    (list_to_set (missing_dates status) : gset string)
    = list_to_set (bigquery_available_dates status)
      ∖ list_to_set (s3_available_dates status) /\
    forall d, d ∈ missing_dates status <->
              d ∈ bigquery_available_dates status /\
              d ∉ s3_available_dates status.
Proof.
  assert (Hset : forall source_dates sink_dates : list string,
    (list_to_set (the_missing source_dates sink_dates) : gset string)
    = list_to_set source_dates ∖ list_to_set sink_dates).
  { intros source_dates sink_dates. apply set_eq. intros d.
    rewrite elem_of_difference, !elem_of_list_to_set. apply the_missing_spec. }
  destruct (get_pipeline_status_cases w) as (conns & w1 & T & H).
  exists conns, w1.
  destruct (BigQueryExtractor.get_available_dates _ _ w1) as [[bq|e] w2].
  - destruct (list_available_dates_returns (loader self) "events" 30 w2)
      as (sd & w3 & E3 & _).
    rewrite E3 in H.
    exists (mkStatus conns bq sd (the_missing bq sd)), w3. simpl.
    split; [exact T|]. split; [exact H|]. split; [reflexivity|].
    split; [|split; [apply Hset | intros d; apply the_missing_spec]].
    exists sd. split; [exact E3|]. split; [reflexivity|].
    split; [reflexivity|]. split; [reflexivity|].
    split; [apply Hset | intros d; apply the_missing_spec].
  - exists (mkStatus conns [] [] []), w2. simpl.
    split; [exact T|]. split; [exact H|]. split; [reflexivity|].
    split; [done|].
    split; [apply (Hset [] []) | intros d; apply (the_missing_spec [] [])].
Qed.

(** C6, as the code has it.  [get_pipeline_status] never raises.  The two
    listings sit in one [try]: when the listing of the source raises, the
    sink is not listed and the three date lists of the report stay empty.
    A failure inside the sink's listing does not raise at all: the sink
    returns the empty list, and the report then holds the dates of the
    source, all of them missing. *)
Theorem get_pipeline_status_degraded
    (w wa wa1 wa2 wb wb1 wb2 wb3 : World) (conns_a conns_b : Connections)
    (e_source e_sink : Exn) (bq_dates : list string) :
  test_connections self wa = (Ok conns_a, wa1) ->
  BigQueryExtractor.get_available_dates (extractor self) 30 wa1
  = (Raise e_source, wa2) ->
  test_connections self wb = (Ok conns_b, wb1) ->
  BigQueryExtractor.get_available_dates (extractor self) 30 wb1
  = (Ok bq_dates, wb2) ->
  S3.list_objects_v2 (S3Loader.prefix (loader self) +:+ "/events/") "/" wb2
  = (Raise e_sink, wb3) ->
  (exists status w', get_pipeline_status self w = (Ok status, w')) /\
  get_pipeline_status self wa = (Ok (mkStatus conns_a [] [] []), wa2) /\
  get_pipeline_status self wb = (Ok (mkStatus conns_b bq_dates [] bq_dates), wb3).
Proof.
  intros Ha1 Ha2 Hb1 Hb2 Hb3. split; [|split].
  - destruct (get_pipeline_status_cases w) as (conns & w1 & _ & H).
    destruct (BigQueryExtractor.get_available_dates _ _ w1) as [[bq|e] w2];
      [|eauto].
    destruct (S3Loader.list_available_dates _ _ _ w2) as [[s3d|e] w3]; eauto.
  - destruct (get_pipeline_status_cases wa) as (conns & w1 & E & H).
    rewrite Ha1 in E. injection E as <- <-. by rewrite Ha2 in H.
  - destruct (get_pipeline_status_cases wb) as (conns & w1 & E & H).
    rewrite Hb1 in E. injection E as <- <-. rewrite Hb2 in H.
    destruct (list_available_dates_returns (loader self) "events" 30 wb2)
      as (dates & w' & E & Hraise).
    rewrite E in H. destruct (Hraise e_sink wb3) as [-> ->].
    { rewrite <- Hb3. f_equal. }
    by rewrite H, the_missing_nil.
Qed.

End Status.

(** ** The listing of the sink *)

Module ListingFacts.

Lemma append_assoc (a b c : string) : (a +:+ b) +:+ c = a +:+ (b +:+ c).
Proof.
  induction a as [|x a IH]; [reflexivity|].
  change (String x ((a +:+ b) +:+ c) = String x (a +:+ (b +:+ c))).
  by rewrite IH.
Qed.

Lemma append_cons (x : ascii) (a b : string) :
  String x a +:+ b = String x (a +:+ b).
Proof. reflexivity. Qed.

Lemma append_nil_l (a : string) : EmptyString +:+ a = a.
Proof. reflexivity. Qed.

Lemma strip_prefix_spec (p s r : string) :
  PyStr.strip_prefix p s = Some r -> s = p +:+ r.
Proof.
  revert s. induction p as [|a p IH]; intros s; simpl.
  - by intros [= ->].
  - destruct s as [|b s]; [discriminate|].
    destruct (Ascii.eqb_spec a b) as [->|]; [|discriminate].
    intros H. by rewrite (IH s H).
Qed.

(** What [up_to] cuts off is a segment free of the character, then the
    character. *)
Lemma up_to_spec (c : ascii) (s t : string) :
  PyStr.up_to c s = Some t ->
  exists segment, t = segment +:+ String c EmptyString /\
                  PyStr.split c segment = [segment].
Proof.
  revert t. induction s as [|a s IH]; intros t; simpl; [discriminate|].
  destruct (Ascii.eqb_spec a c) as [->|Hne].
  - intros [= <-]. by exists EmptyString.
  - destruct (PyStr.up_to c s) as [t'|]; [|discriminate].
    intros [= <-]. destruct (IH t' eq_refl) as (seg & -> & Hseg).
    exists (String a seg). split; [reflexivity|].
    simpl. destruct (Ascii.eqb_spec a c); [contradiction|]. by rewrite Hseg.
Qed.

Lemma split_not_nil (c : ascii) (s : string) : PyStr.split c s <> [].
Proof.
  destruct s as [|a s]; simpl; [discriminate|].
  destruct (Ascii.eqb a c); [discriminate|].
  destruct (PyStr.split c s); discriminate.
Qed.

Lemma split_app (c : ascii) (a b : string) :
  PyStr.split c (a +:+ String c b) = PyStr.split c a ++ PyStr.split c b.
Proof.
  induction a as [|x a IH]; simpl.
  - by rewrite Ascii.eqb_refl.
  - destruct (Ascii.eqb x c); [by rewrite IH|].
    rewrite IH. pose proof (split_not_nil c a).
    destruct (PyStr.split c a); [contradiction | reflexivity].
Qed.

(** The fields of a right-stripped string are the first fields of the
    string. *)
Lemma split_rstrip (c : ascii) (s : string) :
  exists k, PyStr.split c s = PyStr.split c (PyStr.rstrip c s) ++ k.
Proof.
  induction s as [|a s (k & IH)]; simpl.
  - by exists [].
  - destruct (PyStr.rstrip c s) as [|b r] eqn:Hr.
    + destruct (Ascii.eqb_spec a c) as [->|Hne].
      * simpl. exists (PyStr.split c s).
        reflexivity.
      * simpl. destruct (Ascii.eqb_spec a c); [contradiction|].
        rewrite IH. simpl. by exists k.
    + remember (String b r) as t eqn:Ht. clear Ht Hr.
      cbn [PyStr.split]. rewrite IH. destruct (Ascii.eqb a c).
      * by exists k.
      * pose proof (split_not_nil c t) as Hn.
        destruct (PyStr.split c t); [contradiction|]. by exists k.
Qed.

Lemma dedup_adjacent_elem (x : S3.Entry) (l : list S3.Entry) :
  x ∈ S3.dedup_adjacent l -> x ∈ l.
Proof.
  induction l as [|a l IH]; [done|].
  destruct l as [|b l]; [done|].
  change (S3.dedup_adjacent (a :: b :: l))
    with (if decide (a = b) then S3.dedup_adjacent (b :: l)
          else a :: S3.dedup_adjacent (b :: l)).
  destruct (decide (a = b)) as [->|].
  - intros Hx. right. by apply IH.
  - intros [->|Hx]%elem_of_cons; [left | right; by apply IH].
Qed.

(** Every common prefix of a listing is the listing's prefix, one segment
    free of the delimiter, and the delimiter. *)
Lemma common_prefix_form (prefix : string) (c : ascii)
    (objects : gmap string S3Object) (common_prefixes : list string) (q : string) :
  S3.CommonPrefixes (S3.response_of (S3.entries prefix c objects))
  = Some common_prefixes ->
  q ∈ common_prefixes ->
  exists segment,
    q = prefix +:+ segment +:+ String c EmptyString /\
    PyStr.split c segment = [segment].
Proof.
  unfold S3.response_of. simpl.
  destruct (omap _ (S3.entries prefix c objects)) as [|q0 qs] eqn:E;
    [discriminate|].
  intros [= <-] Hq. rewrite <- E in Hq.
  apply list_elem_of_omap in Hq as ([k|q'] & Hin & Heq); [discriminate|].
  injection Heq as ->.
  unfold S3.entries in Hin.
  apply subseteq_take, dedup_adjacent_elem, list_elem_of_omap in Hin
    as (key & _ & Hentry).
  unfold S3.entry_of in Hentry.
  destruct (PyStr.strip_prefix prefix key) as [rest|]; [|discriminate].
  destruct (PyStr.up_to c rest) as [t|] eqn:Ht; [|discriminate].
  injection Hentry as <-.
  destruct (up_to_spec c rest t Ht) as (segment & -> & Hseg). eauto.
Qed.

Lemma filter_prefix_nil (P : string -> Prop) `{!forall x, Decision (P x)}
    (parts full k : list string) :
  full = parts ++ k -> filter P full = [] -> filter P parts = [].
Proof.
  intros -> Hf. rewrite filter_app in Hf. by apply app_eq_nil in Hf as [? _].
Qed.

(** A common prefix of the listing below [prefix/data_type/] has no date
    in it, when the loader's prefix brings neither a [month=] part nor a
    [day=] part: the one segment that varies cannot be both. *)
Lemma partition_date_one_level (prefix data_type segment : string) :
  filter (fun q => PyStr.startswith "month=" q = true) (PyStr.split "/" prefix) = [] ->
  filter (fun q => PyStr.startswith "day=" q = true) (PyStr.split "/" prefix) = [] ->
  PyStr.split "/" data_type = [data_type] ->
  PyStr.startswith "month=" data_type = false ->
  PyStr.startswith "day=" data_type = false ->
  PyStr.split "/" segment = [segment] ->
  exists e,
    S3Loader.partition_date
      ((prefix +:+ "/" +:+ data_type +:+ "/") +:+ segment +:+ "/")
    = Raise e.
Proof.
  intros Hm Hd Hdt Hdtm Hdtd Hseg.
  set (q := (prefix +:+ "/" +:+ data_type +:+ "/") +:+ segment +:+ "/").
  assert (Hfull : PyStr.split "/" q
                  = PyStr.split "/" prefix ++ [data_type; segment; EmptyString]).
  { unfold q.
    replace ((prefix +:+ "/" +:+ data_type +:+ "/") +:+ segment +:+ "/")
      with (prefix +:+ String "/" (data_type +:+ String "/"
              (segment +:+ String "/" EmptyString))).
    - by rewrite !split_app, Hdt, Hseg.
    - repeat (rewrite append_assoc || rewrite append_cons
              || rewrite append_nil_l).
      reflexivity. }
  destruct (split_rstrip "/" q) as [k Hk]. rewrite Hfull in Hk.
  unfold S3Loader.partition_date. fold q.
  set (parts := PyStr.split "/" (PyStr.rstrip "/" q)) in *.
  assert (Hone :
    filter (fun q => PyStr.startswith "month=" q = true) parts = [] \/
    filter (fun q => PyStr.startswith "day=" q = true) parts = []).
  { assert (Hexcl : PyStr.startswith "month=" segment = true ->
                     PyStr.startswith "day=" segment = true -> False).
    { intros H1 H2. destruct segment as [|a seg'];
        [vm_compute in H1; discriminate H1|].
      unfold PyStr.startswith in H1, H2.
      cbn [PyStr.strip_prefix] in H1, H2.
      destruct (Ascii.eqb_spec "m" a) as [<-|]; [|discriminate H1].
      change (Ascii.eqb "d" "m") with false in H2. discriminate H2. }
    destruct (PyStr.startswith "month=" segment) eqn:Em.
    - right. eapply filter_prefix_nil; [exact Hk|].
      rewrite filter_app, Hd. simpl.
      rewrite !filter_cons, filter_nil.
      repeat case_decide; try reflexivity; exfalso; try congruence;
        try (by apply Hexcl);
        match goal with
        | H : PyStr.startswith _ EmptyString = true |- _ =>
            vm_compute in H; discriminate H
        end.
    - left. eapply filter_prefix_nil; [exact Hk|].
      rewrite filter_app, Hm. simpl.
      rewrite !filter_cons, filter_nil.
      repeat case_decide; try reflexivity; exfalso; try congruence;
        match goal with
        | H : PyStr.startswith _ EmptyString = true |- _ =>
            vm_compute in H; discriminate H
        end. }
  destruct Hone as [-> | ->];
    destruct (index (filter _ parts) 0); simpl; eauto;
    repeat match goal with
           | |- context [index ?l 0] => destruct (index l 0); simpl; eauto
           end.
Qed.

(** The listing in general: for a loader whose prefix has neither a [month=] part
    nor a [day=] part, which is every prefix but an odd one, the listing of
    the sink is empty in every state of the bucket. *)
Lemma list_available_dates_one_level_empty (l : S3Loader.t) (limit : Z) (w : World) :
  filter (fun q => PyStr.startswith "month=" q = true)
         (PyStr.split "/" (S3Loader.prefix l)) = [] ->
  filter (fun q => PyStr.startswith "day=" q = true)
         (PyStr.split "/" (S3Loader.prefix l)) = [] ->
  fst (S3Loader.list_available_dates l "events" limit w) = Ok [].
Proof.
  intros Hm Hd.
  assert (Hnone : forall objects cps,
    S3.CommonPrefixes
      (S3.response_of
         (S3.entries (S3Loader.prefix l +:+ "/" +:+ "events" +:+ "/") "/" objects))
    = Some cps ->
    S3Loader.collect_dates cps = []).
  { intros objects cps Hc. unfold S3Loader.collect_dates.
    assert (Hall : forall q, q ∈ cps ->
              exists e, S3Loader.partition_date q = Raise e).
    { intros q Hq.
      destruct (common_prefix_form _ _ _ _ _ Hc Hq) as (seg & -> & Hseg).
      by apply partition_date_one_level. }
    clear Hc. induction cps as [|q cps IH]; [reflexivity|]. simpl.
    destruct (Hall q) as [e ->]; [left|]. apply IH.
    intros q' Hq'. apply Hall. by right. }
  assert (Hslice : PyStr.slice_to limit (PyStr.sorted_reverse []) = [])
    by (unfold PyStr.slice_to; destruct (0 <=? limit); apply take_nil).
  unfold S3Loader.list_available_dates. unfold_py.
  unfold S3.list_objects_v2, client_call. simpl.
  destruct (w_faults w) as [|[e|] fs]; cbv beta iota; try reflexivity;
    (destruct (w_bucket w) as [objects|]; [|reflexivity];
     cbv beta iota delta [fst];
     match goal with
     | |- context [S3.CommonPrefixes ?r] =>
         destruct (S3.CommonPrefixes r) as [cps|] eqn:Hc
     end;
     [rewrite (Hnone objects cps Hc)|]; by rewrite Hslice).
Qed.

End ListingFacts.

(** ** The concrete deployment *)

Module ScenarioFacts.

Import Scenario Pipeline.

(** The scenario of the specification: January 1st is skipped, the 2nd and
    the 3rd are loaded, the 4th has no data. *)
Example backfill_four_days :
  fst (backfill pipeline "2024-01-01" "2024-01-04" true world)
  = Ok (Some (mkReport "2024-01-01" "2024-01-04" 4
                ["2024-01-02"; "2024-01-03"]%string
                [mkFailed "2024-01-04" (Some "No data found"%string)]
                ["2024-01-01"%string] 6)).
Proof. vm_compute. reflexivity. Qed.

(** The scenario of four days, with its three hypotheses: the range parses,
    is in order, and a report comes back. *)
Lemma backfill_report_partitions_days_witness :
  PyDate.strptime "2024-01-01" = Ok (PyDate.mkDate 2024 1 1) /\
  PyDate.strptime "2024-01-04" = Ok (PyDate.mkDate 2024 1 4) /\
  PyDate.le (PyDate.mkDate 2024 1 1) (PyDate.mkDate 2024 1 4) = true /\
  exists r w', backfill pipeline "2024-01-01" "2024-01-04" true world
               = (Ok (Some r), w').
Proof.
  repeat split; try reflexivity.
  destruct (backfill_report_partitions_days pipeline true
              "2024-01-01" "2024-01-04" _ _ world eq_refl eq_refl eq_refl)
    as (_ & _ & H & _).
  apply H. discriminate.
Defined.

(** A month 13 in the start date. *)
Lemma backfill_parse_error_witness :
  (exists err, PyDate.strptime "2024-13-01" = Raise err) /\
  exists err,
    backfill pipeline "2024-13-01" "2024-01-04" true world = (Raise err, world).
Proof.
  assert (H : exists err, PyDate.strptime "2024-13-01" = Raise err)
    by (eexists; reflexivity).
  split; [exact H|].
  destruct (backfill_parse_error pipeline true "2024-13-01" "2024-01-04" world
              (or_introl H)) as (err & E & _).
  exists err. exact E.
Defined.

(** January 5th has no table; with the second client call cut by a fault,
    the probe of the table raises. *)
Lemma run_daily_no_data_versus_raised_witness :
  exists wa2 wb2,
    run_daily pipeline (Some "2024-01-05"%string) true world
    = (Ok (mkDaily "2024-01-05" false 0 None (Some "No data found"%string) false),
       wa2) /\
    run_daily pipeline (Some "2024-01-05"%string) true
      (with_faults [None; Some connection_reset])
    = (Ok (mkDaily "2024-01-05" false 0 None (Some "connection reset"%string) false),
       wb2).
Proof.
  epose proof (run_daily_no_data_versus_raised pipeline "2024-01-05" true
                 world _ _ (with_faults [None; Some connection_reset]) _ _
                 empty_frame connection_reset) as H.
  edestruct H as (Ha & _ & Hb & _).
  - apply outcome_eq. vm_compute. reflexivity.
  - apply outcome_eq. vm_compute. reflexivity.
  - reflexivity.
  - apply outcome_eq. vm_compute. reflexivity.
  - apply outcome_eq. vm_compute. reflexivity.
  - eexists _, _. split; [exact Ha | exact Hb].
Defined.

(** C4 as stated does not hold: a source that raises an exception whose
    message is ["No data found"] gives the very result of a source that
    has no data. *)
Lemma no_data_not_told_from_failure :
  fst (BigQueryExtractor.extract_events the_extractor "2024-01-05" world)
  = Ok empty_frame /\
  fst (BigQueryExtractor.extract_events the_extractor "2024-01-05"
         world_raising_no_data)
  = Raise (mkExn OtherException "" "No data found") /\
  fst (run_daily pipeline (Some "2024-01-05"%string) false world)
  = fst (run_daily pipeline (Some "2024-01-05"%string) false
           world_raising_no_data).
Proof. vm_compute. repeat split; reflexivity. Qed.

(** January 2nd, with the sixth client call (the metadata write) cut by a
    fault, and with the fifth (the data write) cut. *)
Lemma run_daily_metadata_failure_swallowed_witness :
  exists wa4 wb3,
    run_daily pipeline (Some "2024-01-02"%string) true
      (with_faults [None; None; None; None; None; Some connection_reset])
    = (Ok (mkDaily "2024-01-02" true 3
             (Some "bronze/ga4/events/year=2024/month=01/day=02/data.parquet"%string)
             None false), wa4) /\
    run_daily pipeline (Some "2024-01-02"%string) true
      (with_faults [None; None; None; None; Some connection_reset])
    = (Ok (mkDaily "2024-01-02" false 3 None (Some "connection reset"%string) false),
       wb3).
Proof.
  epose proof (run_daily_metadata_failure_swallowed pipeline "2024-01-02" true
                 three_rows "2024" "01" "02" "PAR1"
                 (with_faults [None; None; None; None; None; Some connection_reset])
                 _ _ _ _
                 (with_faults [None; None; None; None; Some connection_reset])
                 _ _ _ connection_reset connection_reset) as H.
  edestruct H as (Ha & Hb).
  - reflexivity.
  - reflexivity.
  - reflexivity.
  - apply outcome_eq. vm_compute. reflexivity.
  - apply outcome_eq. vm_compute. reflexivity.
  - apply outcome_eq. vm_compute. reflexivity.
  - apply outcome_eq. vm_compute. reflexivity.
  - apply outcome_eq. vm_compute. reflexivity.
  - apply outcome_eq. vm_compute. reflexivity.
  - apply outcome_eq. vm_compute. reflexivity.
  - eexists _, _. split; [exact Ha | exact Hb].
Defined.



(** The listing of the tables cut by a fault, and the listing of the bucket
    cut by a fault. *)
Lemma get_pipeline_status_degraded_witness :
  exists wa2 wb3,
    get_pipeline_status pipeline (with_faults [None; None; Some connection_reset])
    = (Ok (mkStatus (mkConnections true true) [] [] []), wa2) /\
    get_pipeline_status pipeline
      (with_faults [None; None; None; Some connection_reset])
    = (Ok (mkStatus (mkConnections true true)
             ["2024-01-03"; "2024-01-02"; "2024-01-01"]%string []
             ["2024-01-03"; "2024-01-02"; "2024-01-01"]%string), wb3).
Proof.
  epose proof (get_pipeline_status_degraded pipeline world
                 (with_faults [None; None; Some connection_reset]) _ _
                 (with_faults [None; None; None; Some connection_reset]) _ _ _
                 (mkConnections true true) (mkConnections true true)
                 connection_reset connection_reset
                 ["2024-01-03"; "2024-01-02"; "2024-01-01"]%string) as H.
  edestruct H as (_ & Ha & Hb).
  - apply outcome_eq. vm_compute. reflexivity.
  - apply outcome_eq. vm_compute. reflexivity.
  - apply outcome_eq. vm_compute. reflexivity.
  - apply outcome_eq. vm_compute. reflexivity.
  - apply outcome_eq. vm_compute. reflexivity.
  - eexists _, _. split; [exact Ha | exact Hb].
Defined.

(** C6 as stated does not hold: the listing of the source raises, the
    listing of the sink would return a date, and the report has no date of
    the sink: the sink has not been asked ([list_objects_v2] is not among
    the calls made). *)
Lemma source_failure_hides_sink_dates :
  fst (BigQueryExtractor.get_available_dates the_extractor 30
         after_connection_tests)
  = Raise connection_reset /\
  fst (S3Loader.list_available_dates odd_loader "events" 30
         (snd (BigQueryExtractor.get_available_dates the_extractor 30
                 after_connection_tests)))
  = Ok ["2024-01-15"%string] /\
  fst (get_pipeline_status odd_pipeline odd_world_source_down)
  = Ok (mkStatus (mkConnections true true) [] [] []) /\
  w_log (snd (get_pipeline_status odd_pipeline odd_world_source_down))
  = [BQ_list_tables "proj.analytics_1"; S3_head_bucket;
     BQ_get_dataset "proj.analytics_1"].
Proof. vm_compute. repeat split; reflexivity. Qed.

(** C9 at a bucket that holds the partition of 2024-01-01.  With the
    delimiter ["/"] the service rolls the keys up to the first level below
    the prefix, [.../events/year=2024/]; there is no [month=] part in such
    a prefix, the loop skips it, and the listing is empty. *)
Theorem list_available_dates_misses_partition :
  has_object "bronze/ga4/events/year=2024/month=01/day=01/data.parquet" world /\
  fst (S3.list_objects_v2 "bronze/ga4/events/" "/" world)
  = Ok (S3.mkListResponse [] (Some ["bronze/ga4/events/year=2024/"%string])) /\
  S3Loader.partition_date "bronze/ga4/events/year=2024/"
  = Raise (mkExn IndexError "" "list index out of range") /\
  fst (S3Loader.list_available_dates the_loader "events" 30 world) = Ok [].
Proof.
  split; [|vm_compute; repeat split; reflexivity].
  eexists. split; [reflexivity|]. vm_compute. eauto.
Qed.

(** The last day of the calendar is processed before the increment
    raises. *)
Example backfill_last_date_log :
  fst (backfill pipeline "9999-12-31" "9999-12-31" true world)
  = Raise PyDate.overflow /\
  w_log (snd (backfill pipeline "9999-12-31" "9999-12-31" true world))
  = [BQ_get_table "proj.analytics_1.events_99991231";
     S3_head_object "bronze/ga4/events/year=9999/month=12/day=31/data.parquet"].
Proof. vm_compute. split; reflexivity. Qed.

End ScenarioFacts.

(** ** The loader, function by function *)

Section LoaderFacts.

Variable l : S3Loader.t.

(** Read after write: once [upload_events] has returned a key for a date,
    [check_exists] for that date answers [True], unless its own call is
    cut by a transport fault. *)
Theorem check_exists_after_upload
    (df : DataFrame) (d data_type key : string) (w w' : World) :
  S3Loader.upload_events l df d data_type w = (Ok (Some key), w') ->
  hd None (w_faults w') = None ->
  exists w'', S3Loader.check_exists l d data_type w' = (Ok true, w'').
Proof.
  intros Hup Hf.
  destruct (upload_events_ok _ _ _ _ _ _ _ Hup) as (y & m & dd & Hd & -> & Hk).
  destruct (check_exists_has_object l d data_type y m dd w' Hd Hk Hf)
    as (w'' & E & _).
  eauto.
Qed.

(** [upload_events] returns [None] for an empty frame and for nothing
    else, and then it has done nothing at all. *)
Theorem upload_events_none_iff_empty
    (df : DataFrame) (d data_type : string) (k : option string) (w w' : World) :
  S3Loader.upload_events l df d data_type w = (Ok k, w') ->
  (k = None <-> df_empty df = true) /\ (k = None -> w' = w).
Proof.
  intros E. destruct (df_empty df) eqn:Hdf.
  - unfold S3Loader.upload_events in E. rewrite Hdf in E.
    injection E as <- <-. tauto.
  - pose proof (upload_events_nonempty (Pipeline.mk (BigQueryExtractor.mk "" "" "") l)
                  df d data_type w Hdf) as H.
    simpl in H. rewrite E in H. destruct H as [key ->].
    split; [split; discriminate | discriminate].
Qed.

(** A date that does not split on ["-"] into exactly three parts makes
    both [check_exists] and the upload of a non-empty frame raise a
    [ValueError], before any call on the client. *)
Theorem malformed_date_raises
    (df : DataFrame) (d data_type : string) (w : World) :
  List.length (PyStr.split "-" d) <> 3%nat ->
  exists e,
    exn_class e = ValueError /\
    S3Loader.check_exists l d data_type w = (Raise e, w) /\
    (df_empty df = false ->
     S3Loader.upload_events l df d data_type w = (Raise e, w)).
Proof.
  intros Hlen.
  assert (H : exists e, unpack3 (PyStr.split "-" d) = Raise e /\
                        exn_class e = ValueError).
  { destruct (PyStr.split "-" d) as [|a [|b [|c [|x r]]]]; simpl in *;
      try (eexists; split; reflexivity). contradiction. }
  destruct H as (e & He & Hc). exists e. split; [exact Hc|]. split.
  - unfold S3Loader.check_exists. unfold_py. by rewrite He.
  - intros Hdf. unfold S3Loader.upload_events. rewrite Hdf. unfold_py.
    by rewrite He.
Qed.

(** When its call reaches the service, [check_exists] answers whether the
    object of the day is in the bucket (a missing bucket counts as a
    missing object), and it leaves the bucket alone. *)
Theorem check_exists_reads_bucket (d data_type y m dd : string) (w : World) :
  unpack3 (PyStr.split "-" d) = Ok (y, m, dd) ->
  hd None (w_faults w) = None ->
  exists b w',
    S3Loader.check_exists l d data_type w = (Ok b, w') /\
    (b = true <-> has_object (S3Loader.data_key l data_type y m dd) w) /\
    w_bucket w' = w_bucket w.
Proof.
  intros Hd Hf.
  destruct (S3Loader.check_exists l d data_type w) as [r w'] eqn:E.
  pose proof (check_exists_keeps_bucket l d data_type w r w' E) as Hb.
  revert E. unfold S3Loader.check_exists. unfold_py. rewrite Hd.
  unfold S3.head_object, client_call, has_object. simpl.
  destruct (w_faults w) as [|[e|] fs]; simpl in Hf; try discriminate; simpl;
    (destruct (w_bucket w) as [objects|] eqn:Ho;
     [destruct (objects !! _) as [o|] eqn:Hk|]; simpl; intros [= <- <-];
     eexists _, _; (split; [reflexivity|]); (split; [|exact Hb]);
     split; try discriminate; eauto;
     intros (objects' & Ho' & [o' Hk']); congruence).
Qed.

(** When the call of [check_exists] is cut by an exception, a
    [ClientError] whose code is ["404"] is answered by [False], and any
    other exception comes out as it is. *)
Theorem check_exists_on_error (d data_type y m dd : string) (w : World)
    (e : Exn) (fs : list (option Exn)) :
  unpack3 (PyStr.split "-" d) = Ok (y, m, dd) ->
  w_faults w = Some e :: fs ->
  fst (S3Loader.check_exists l d data_type w)
  = if bool_decide (exn_class e = ClientError) && String.eqb (exn_code e) "404"
    then Ok false else Raise e.
Proof.
  intros Hd Hf. unfold S3Loader.check_exists. unfold_py. rewrite Hd.
  unfold S3.head_object, client_call. simpl. rewrite Hf. simpl.
  destruct (exn_class e); simpl; try reflexivity.
  by destruct (String.eqb (exn_code e) "404").
Qed.

(** Outside the sandbox, [test_connection] never raises, makes the one
    call [head_bucket], never creates the bucket, and answers [True] only
    if the bucket exists. *)
Theorem test_connection_production (w : World) :
  S3Loader.use_localstack l = false ->
  exists b w',
    S3Loader.test_connection l w = (Ok b, w') /\
    w_bucket w' = w_bucket w /\
    w_log w' = S3_head_bucket :: w_log w /\
    (b = true -> is_Some (w_bucket w)).
Proof.
  intros Hl. unfold S3Loader.test_connection. rewrite Hl. unfold_py.
  unfold S3.head_bucket, client_call. simpl.
  destruct (w_faults w) as [|[e|] fs]; simpl;
    try (destruct (w_bucket w) as [objects|] eqn:Ho; simpl);
    eexists _, _; (split; [reflexivity|]); simpl; rewrite ?Ho;
    repeat split; eauto; discriminate.
Qed.

(** In the sandbox, [test_connection] never raises either; a bucket that
    exists keeps its objects, an answer [True] means that the bucket
    exists afterwards, and with no transport fault a missing bucket is
    created empty. *)
Theorem test_connection_sandbox (w : World) :
  S3Loader.use_localstack l = true ->
  exists b w',
    S3Loader.test_connection l w = (Ok b, w') /\
    (forall objects, w_bucket w = Some objects -> w_bucket w' = Some objects) /\
    (b = true -> is_Some (w_bucket w')) /\
    (w_faults w = [] ->
     b = true /\ (w_bucket w = None -> w_bucket w' = Some ∅)).
Proof.
  intros Hl. unfold S3Loader.test_connection. rewrite Hl. unfold_py.
  unfold S3.head_bucket, S3.create_bucket, client_call. simpl.
  destruct (w_faults w) as [|[e|] fs] eqn:Hf; simpl.
  - destruct (w_bucket w) as [objects|] eqn:Ho; simpl; rewrite ?Hf; simpl;
      rewrite ?Ho; simpl;
      eexists _, _; (split; [reflexivity|]); simpl; rewrite ?Ho;
      repeat split; eauto; try discriminate; congruence.
  - destruct (exn_class e); simpl;
      try (eexists _, _; (split; [reflexivity|]); simpl;
           repeat split; eauto; discriminate).
    destruct (String.eqb (exn_code e) "404"); simpl;
      [|eexists _, _; (split; [reflexivity|]); simpl;
        repeat split; eauto; discriminate].
    destruct fs as [|[e'|] fs']; simpl;
      try (destruct (w_bucket w) as [objects|] eqn:Ho; simpl);
      eexists _, _; (split; [reflexivity|]); simpl; rewrite ?Ho;
      repeat split; eauto; try discriminate; congruence.
  - destruct (w_bucket w) as [objects|] eqn:Ho; simpl.
    + eexists _, _; (split; [reflexivity|]); simpl; rewrite ?Ho;
        repeat split; eauto; discriminate.
    + destruct fs as [|[e'|] fs']; simpl; rewrite ?Ho; simpl;
        eexists _, _; (split; [reflexivity|]); simpl; rewrite ?Ho;
        repeat split; eauto; try discriminate; congruence.
Qed.

End LoaderFacts.

(** ** Sorting *)

Section SortingFacts.

Variable leb : string -> string -> bool.
Hypothesis leb_total : forall a b, leb a b = true \/ leb b a = true.

Lemma insert_sorted_perm (x : string) (xs : list string) :
  PyStr.insert_sorted leb x xs ≡ₚ x :: xs.
Proof.
  induction xs as [|y xs IH]; simpl; [reflexivity|].
  destruct (leb x y); [reflexivity|].
  rewrite IH. apply Permutation_swap.
Qed.

Lemma sort_by_perm (xs : list string) : PyStr.sort_by leb xs ≡ₚ xs.
Proof.
  induction xs as [|x xs IH]; simpl; [reflexivity|].
  unfold PyStr.sort_by in *. simpl. by rewrite insert_sorted_perm, IH.
Qed.

Lemma insert_sorted_HdRel (a x : string) (xs : list string) :
  leb a x = true ->
  HdRel (fun a b => leb a b = true) a xs ->
  HdRel (fun a b => leb a b = true) a (PyStr.insert_sorted leb x xs).
Proof.
  intros Hax Hh. destruct xs as [|y xs]; simpl; [by constructor|].
  destruct (leb x y); constructor; [exact Hax|]. by inversion Hh.
Qed.

Lemma insert_sorted_Sorted (x : string) (xs : list string) :
  Sorted (fun a b => leb a b = true) xs ->
  Sorted (fun a b => leb a b = true) (PyStr.insert_sorted leb x xs).
Proof.
  induction 1 as [|y xs Hs IH Hh]; simpl; [by repeat constructor|].
  destruct (leb x y) eqn:E.
  - constructor; [by constructor | by constructor].
  - constructor; [exact IH|].
    apply insert_sorted_HdRel; [|exact Hh].
    destruct (leb_total x y) as [H|H]; [congruence | exact H].
Qed.

Lemma sort_by_Sorted (xs : list string) :
  Sorted (fun a b => leb a b = true) (PyStr.sort_by leb xs).
Proof.
  induction xs as [|x xs IH]; [constructor|].
  apply insert_sorted_Sorted, IH.
Qed.

Lemma Sorted_take (n : nat) (xs : list string) :
  Sorted (fun a b => leb a b = true) xs ->
  Sorted (fun a b => leb a b = true) (take n xs).
Proof.
  intros H. revert n. induction H as [|y xs Hs IH Hh]; intros [|n]; simpl;
    try constructor; [apply IH|].
  destruct Hh; destruct n; simpl; by constructor.
Qed.

End SortingFacts.

Lemma sorted_reverse_descending (xs : list string) :
  descending (PyStr.sorted_reverse xs).
Proof.
  apply (sort_by_Sorted (fun a b => String.leb b a)).
  intros a b. destruct (String.leb_total a b); auto.
Qed.

Lemma sorted_reverse_elem (x : string) (xs : list string) :
  x ∈ PyStr.sorted_reverse xs <-> x ∈ xs.
Proof. unfold PyStr.sorted_reverse. by rewrite sort_by_perm. Qed.

Lemma slice_to_descending (limit : Z) (xs : list string) :
  descending xs -> descending (PyStr.slice_to limit xs).
Proof.
  intros H. unfold PyStr.slice_to. destruct (0 <=? limit); by apply Sorted_take.
Qed.

Lemma slice_to_length {A} (limit : Z) (xs : list A) :
  0 <= limit -> (List.length (PyStr.slice_to limit xs) <= Z.to_nat limit)%nat.
Proof.
  intros H. unfold PyStr.slice_to.
  destruct (0 <=? limit) eqn:E; [|lia].
  rewrite length_take. lia.
Qed.

(** ** The listing of the sink, in general *)

Section ListingBounds.

Variable l : S3Loader.t.

(** The listing of the sink, whatever the bucket and the transport: it
    never raises, makes the one call [list_objects_v2] on
    [prefix/data_type/] with the delimiter ["/"], leaves the bucket as it
    is, returns its dates in descending order, at most [limit] of them for
    a [limit] that is not negative, and none when the bucket does not
    exist. *)
Theorem list_available_dates_bounded (data_type : string) (limit : Z) (w : World) :
  exists dates w',
    S3Loader.list_available_dates l data_type limit w = (Ok dates, w') /\
    w_bucket w' = w_bucket w /\
    w_log w'
    = S3_list_objects_v2 (S3Loader.prefix l +:+ "/" +:+ data_type +:+ "/") "/"
      :: w_log w /\
    descending dates /\
    (0 <= limit -> (List.length dates <= Z.to_nat limit)%nat) /\
    (w_bucket w = None -> dates = []).
Proof.
  unfold S3Loader.list_available_dates. unfold_py.
  unfold S3.list_objects_v2, client_call. simpl.
  destruct (w_faults w) as [|[e|] fs]; simpl;
    try (destruct (w_bucket w) as [objects|] eqn:Ho; simpl);
    eexists _, _; (split; [reflexivity|]); simpl; rewrite ?Ho;
    repeat split;
    auto using slice_to_length, slice_to_descending, sorted_reverse_descending;
    try discriminate; try (by constructor); simpl; lia.
Qed.

End ListingBounds.

(** ** The extractor, function by function *)

Module ExtractorFacts.

Import PyDate CalendarFacts ListingFacts.

Ltac digit_cases k :=
  let H := fresh in
  assert (H : k = 0 \/ k = 1 \/ k = 2 \/ k = 3 \/ k = 4 \/ k = 5 \/ k = 6 \/
              k = 7 \/ k = 8 \/ k = 9) by lia;
  repeat (destruct H as [H | H]; [subst k | ]); [.. | subst k].

(** A digit is kept by [replace("-", "")] and is no field separator. *)
Lemma replace_digit (k : Z) (s : string) :
  0 <= k <= 9 ->
  PyStr.replace_aux "-" "" 0 (String (PyStr.digit_char k) s)
  = String (PyStr.digit_char k) (PyStr.replace_aux "-" "" 0 s).
Proof. intros H. digit_cases k; reflexivity. Qed.

Lemma split_digit (k : Z) (s : string) :
  0 <= k <= 9 ->
  PyStr.split "_" (String (PyStr.digit_char k) s)
  = match PyStr.split "_" s with
    | [] => [String (PyStr.digit_char k) EmptyString]
    | f :: fs => String (PyStr.digit_char k) f :: fs
    end.
Proof. intros H. digit_cases k; reflexivity. Qed.

Lemma digits_4 (y : Z) :
  digits 4 y
  = String (PyStr.digit_char (y / 10 / 10 / 10 mod 10))
      (String (PyStr.digit_char (y / 10 / 10 mod 10))
         (String (PyStr.digit_char (y / 10 mod 10))
            (String (PyStr.digit_char (y mod 10)) EmptyString))).
Proof. reflexivity. Qed.

(** The date as the table name has it: [YYYYMMDD]. *)
Lemma replace_strftime (d : datetime) :
  valid d = true ->
  PyStr.replace "-" "" (strftime d)
  = digits 4 (year d) +:+ digits 2 (month d) +:+ digits 2 (day d).
Proof.
  intros Hv. apply valid_bounds in Hv. destruct Hv as (Hy & Hm & Hd).
  pose proof (days_in_month_bounds (year d) (month d)).
  unfold strftime, PyStr.replace. rewrite digits_4.
  cbv beta iota delta [String.append].
  rewrite !replace_digit by (Z.div_mod_to_equations; lia).
  do 4 f_equal.
  generalize (month d) (day d) Hm Hd H. clear. intros m dd Hm Hd H.
  month_cases m; try lia; (day_cases dd; try lia; reflexivity).
Qed.

Lemma split_compact (d : datetime) :
  valid d = true ->
  PyStr.split "_" (digits 4 (year d) +:+ digits 2 (month d) +:+ digits 2 (day d))
  = [digits 4 (year d) +:+ digits 2 (month d) +:+ digits 2 (day d)].
Proof.
  intros Hv. apply valid_bounds in Hv. destruct Hv as (Hy & Hm & Hd).
  pose proof (days_in_month_bounds (year d) (month d)).
  rewrite digits_4.
  cbv beta iota delta [String.append].
  rewrite !split_digit by (Z.div_mod_to_equations; lia).
  assert (E : PyStr.split "_" (digits 2 (month d) +:+ digits 2 (day d))
              = [digits 2 (month d) +:+ digits 2 (day d)]).
  { generalize (month d) (day d) Hm Hd H. clear. intros m dd Hm Hd H.
    month_cases m; try lia; (day_cases dd; try lia; reflexivity). }
  cbv beta iota delta [String.append] in E. rewrite E. reflexivity.
Qed.

Lemma compact_after_year (y m d : Z) :
  1 <= m <= 12 -> 1 <= d <= 31 ->
  exists tl,
    ('(y', s1) ← [(y, digits 2 m +:+ digits 2 d)];
     s2 ← [s1];
     '(m', s3) ← group_m s2;
     s4 ← [s3];
     '(d', s5) ← group_d s4;
     [(mkDate y' m' d', s5)])
    = (mkDate y m d, EmptyString) :: tl.
Proof.
  intros Hm Hd. month_cases m; try lia;
    (day_cases d; try lia; vm_compute; eexists; reflexivity).
Qed.

Lemma regex_matches_compact (d : datetime) :
  valid d = true ->
  exists tl,
    regex_matches (fun rest => [rest])
      (digits 4 (year d) +:+ digits 2 (month d) +:+ digits 2 (day d))
    = (d, EmptyString) :: tl.
Proof.
  intros Hv. apply valid_bounds in Hv. destruct Hv as (Hy & Hm & Hd).
  pose proof (days_in_month_bounds (year d) (month d)).
  destruct (compact_after_year (year d) (month d) (day d)) as [tl E];
    [lia | lia |].
  unfold regex_matches.
  rewrite group_Y_digits by lia. exists tl. destruct d. exact E.
Qed.

(** Reading back the date of a table name gives the date. *)
Lemma strptime_compact_strftime (d : datetime) :
  valid d = true ->
  strptime_compact (PyStr.replace "-" "" (strftime d)) = Ok d.
Proof.
  intros Hv. rewrite replace_strftime by exact Hv.
  destruct (regex_matches_compact d Hv) as [tl E].
  unfold strptime_compact, strptime_with. rewrite E, Hv. reflexivity.
Qed.

(** Whatever [strptime] returns, in either format, is a valid date, and
    what it raises is a [ValueError]. *)
Lemma strptime_with_valid (sep : string -> list string) (format s : string)
    (d : datetime) :
  strptime_with sep format s = Ok d -> valid d = true.
Proof.
  unfold strptime_with.
  destruct (regex_matches sep s) as [|[d' rest] tl]; [discriminate|].
  destruct rest; [|discriminate].
  destruct (valid d') eqn:Hv; [|discriminate].
  intros [= <-]. exact Hv.
Qed.

Lemma strptime_with_raises (sep : string -> list string) (format s : string)
    (e : Exn) :
  strptime_with sep format s = Raise e -> exn_class e = ValueError.
Proof.
  unfold strptime_with.
  destruct (regex_matches sep s) as [|[d' rest] tl]; [by intros [= <-]|].
  destruct rest; [|by intros [= <-]].
  destruct (valid d'); [discriminate | by intros [= <-]].
Qed.

Lemma table_id_split (d : datetime) :
  valid d = true ->
  PyStr.split "_" (events_table_id (strftime d))
  = ["events"%string; PyStr.replace "-" "" (strftime d)].
Proof.
  intros Hv. unfold events_table_id.
  change ("events_" +:+ ?s) with ("events" +:+ String "_" s).
  rewrite split_app, replace_strftime, split_compact by exact Hv. reflexivity.
Qed.

Lemma strip_prefix_app (p r : string) : PyStr.strip_prefix p (p +:+ r) = Some r.
Proof.
  induction p as [|a p IH]; [reflexivity|].
  cbn [PyStr.strip_prefix String.append]. cbv beta iota delta [String.append].
  fold String.append. by rewrite Ascii.eqb_refl.
Qed.

Lemma events_table_split (x : BigQueryExtractor.t) (d : string) :
  events_table x d
  = ((BigQueryExtractor.project_id x +:+ "." +:+ BigQueryExtractor.dataset_id x)
     +:+ ".") +:+ events_table_id d.
Proof.
  unfold events_table, events_table_id. rewrite !append_assoc. reflexivity.
Qed.

(** The naming of [extract_events] and the reading of
    [get_available_dates] agree: the table of a day is read back as that
    day. *)
Lemma table_date_round_trip (today d : datetime) (days_back : Z) :
  valid d = true ->
  BigQueryExtractor.table_date today days_back (events_table_id (strftime d))
  = Ok (if sub_days today d <=? days_back then Some (strftime d) else None).
Proof.
  intros Hv. unfold BigQueryExtractor.table_date.
  rewrite table_id_split by exact Hv. cbn [index lookup list_lookup].
  rewrite strptime_compact_strftime by exact Hv.
  by destruct (sub_days today d <=? days_back).
Qed.

End ExtractorFacts.

Section Extractor.

Import PyDate CalendarFacts ListingFacts ExtractorFacts.

Variable x : BigQueryExtractor.t.

(** The two loops that read dates off names catch what their bodies can
    raise: the body of the loop of [get_available_dates] raises nothing
    but [ValueError] and [IndexError], the body of the loop of
    [list_available_dates] nothing but [IndexError]; both are in the
    [except] clause that makes the loop [continue]. *)
Theorem except_clauses_cover_loop_bodies
    (today : datetime) (days_back : Z) (table_id common_prefix : string) :
  match BigQueryExtractor.table_date today days_back table_id with
  | Ok _ => True
  | Raise e => exn_class e = ValueError \/ exn_class e = IndexError
  end /\
  match S3Loader.partition_date common_prefix with
  | Ok _ => True
  | Raise e => exn_class e = IndexError
  end.
Proof.
  split.
  - unfold BigQueryExtractor.table_date, index.
    destruct (PyStr.split "_" table_id !! 1%nat) as [date_str|]; [|by right].
    destruct (strptime_compact date_str) as [date_obj|e] eqn:E.
    + by destruct (_ <=? _).
    + left. eapply strptime_with_raises, E.
  - unfold S3Loader.partition_date, index.
    repeat match goal with
           | |- context [match ?l !! ?i with _ => _ end] => destruct (l !! i)
           end; try exact I; reflexivity.
Qed.

(** The source's listing finds the table [extract_events] reads: when the
    table of a day is in the warehouse, the day is within the window and
    the call goes through, the day is in the list.  The day is taken from
    the year 1000 on: before it the print of the year, and with it the
    name of the table, depends on the C library (see [PyDate.strftime]). *)
Theorem get_available_dates_complete (days_back : Z) (d : datetime) (w : World) :
  valid d = true ->
  1000 <= year d ->
  events_table x (strftime d) ∈ w_tables w ->
  sub_days (w_now w) d <= days_back ->
  hd None (w_faults w) = None ->
  exists dates w',
    BigQueryExtractor.get_available_dates x days_back w = (Ok dates, w') /\
    strftime d ∈ dates.
Proof.
  intros Hv _ Hin Hback Hf.
  assert (Hmem : forall w0, w_tables w0 = w_tables w -> w_now w0 = w_now w ->
    strftime d ∈ PyStr.sorted_reverse
      (BigQueryExtractor.collect_dates (w_now w0) days_back
         (omap (PyStr.strip_prefix
                  ((BigQueryExtractor.project_id x +:+ "."
                    +:+ BigQueryExtractor.dataset_id x) +:+ "."))
               (elements (w_tables w0))))).
  { intros w0 -> ->. unfold PyStr.sorted_reverse.
    rewrite (sort_by_perm _ _).
    unfold BigQueryExtractor.collect_dates.
    apply list_elem_of_omap. exists (events_table_id (strftime d)). split.
    - apply list_elem_of_omap. exists (events_table x (strftime d)). split.
      + by apply elem_of_elements.
      + rewrite events_table_split. apply strip_prefix_app.
    - replace (PyStr.startswith "events_" (events_table_id (strftime d)))
        with true by (unfold PyStr.startswith, events_table_id;
                      by rewrite strip_prefix_app).
      rewrite table_date_round_trip by exact Hv.
      by destruct (Z.leb_spec (sub_days (w_now w) d) days_back); [|lia]. }
  unfold BigQueryExtractor.get_available_dates. unfold_py.
  unfold BQ.list_tables, client_call. simpl.
  destruct (w_faults w) as [|[e|] fs]; simpl in Hf; try discriminate; simpl;
    eexists _, _; (split; [reflexivity|]); by apply Hmem.
Qed.

(** What the source's listing returns.  The dates come in descending
    order, and a string is among them exactly when it is the print, as
    [%Y-%m-%d], of the date read off a table of the dataset: a table whose
    [table_id] starts with ["events_"], whose second field between
    underscores reads as a calendar date in the format [%Y%m%d], that date
    being no more than [days_back] days before today (a date after today
    passes). *)
Theorem get_available_dates_sound
    (days_back : Z) (w w' : World) (dates : list string) :
  BigQueryExtractor.get_available_dates x days_back w = (Ok dates, w') ->
  descending dates /\
  forall s, s ∈ dates <->
    exists d table_id date_str,
      ((BigQueryExtractor.project_id x +:+ "." +:+ BigQueryExtractor.dataset_id x)
       +:+ ".") +:+ table_id ∈ w_tables w /\
      PyStr.startswith "events_" table_id = true /\
      PyStr.split "_" table_id !! 1%nat = Some date_str /\
      strptime_compact date_str = Ok d /\
      valid d = true /\
      sub_days (w_now w) d <= days_back /\
      s = strftime d.
Proof.
  assert (Hmem : forall s,
    s ∈ PyStr.sorted_reverse
      (BigQueryExtractor.collect_dates (w_now w) days_back
         (omap (PyStr.strip_prefix
                  ((BigQueryExtractor.project_id x +:+ "."
                    +:+ BigQueryExtractor.dataset_id x) +:+ "."))
               (elements (w_tables w)))) <->
    exists d table_id date_str,
      ((BigQueryExtractor.project_id x +:+ "." +:+ BigQueryExtractor.dataset_id x)
       +:+ ".") +:+ table_id ∈ w_tables w /\
      PyStr.startswith "events_" table_id = true /\
      PyStr.split "_" table_id !! 1%nat = Some date_str /\
      strptime_compact date_str = Ok d /\
      valid d = true /\
      sub_days (w_now w) d <= days_back /\
      s = strftime d).
  { intros s. split.
    - intros Hs. apply (proj1 (sorted_reverse_elem _ _)) in Hs.
      unfold BigQueryExtractor.collect_dates in Hs.
      apply list_elem_of_omap in Hs as (table_id & Hid & Hs).
      apply list_elem_of_omap in Hid as (name & Hname & Hstrip).
      apply strip_prefix_spec in Hstrip. subst name.
      apply elem_of_elements in Hname.
      destruct (PyStr.startswith "events_" table_id) eqn:Hstart; [|discriminate].
      unfold BigQueryExtractor.table_date, index in Hs.
      destruct (PyStr.split "_" table_id !! 1%nat) as [date_str|] eqn:Hfield;
        [|discriminate].
      destruct (strptime_compact date_str) as [date_obj|e] eqn:Hparse;
        [|discriminate].
      destruct (Z.leb_spec (sub_days (w_now w) date_obj) days_back);
        [|discriminate].
      injection Hs as <-. exists date_obj, table_id, date_str.
      repeat split; try done. eapply strptime_with_valid, Hparse.
    - intros (d & table_id & date_str & Hname & Hstart & Hfield & Hparse
              & _ & Hback & ->).
      apply sorted_reverse_elem. unfold BigQueryExtractor.collect_dates.
      apply list_elem_of_omap. exists table_id. split.
      + apply list_elem_of_omap. eexists. split.
        * apply elem_of_elements, Hname.
        * apply strip_prefix_app.
      + rewrite Hstart. unfold BigQueryExtractor.table_date, index.
        rewrite Hfield, Hparse.
        by destruct (Z.leb_spec (sub_days (w_now w) d) days_back); [|lia]. }
  unfold BigQueryExtractor.get_available_dates. unfold_py.
  unfold BQ.list_tables, client_call. simpl.
  destruct (w_faults w) as [|[e|] fs]; simpl; intros [= <- _];
    (split; [apply sorted_reverse_descending | exact Hmem]).
Qed.

(** A day without a table: [extract_events] returns the empty frame after
    the one call [get_table]; no query is built or run, whatever the query
    file. *)
Theorem extract_events_missing_table (d : string) (w : World) :
  events_table x d ∉ w_tables w ->
  hd None (w_faults w) = None ->
  exists w',
    BigQueryExtractor.extract_events x d w = (Ok empty_frame, w') /\
    w_log w' = BQ_get_table (events_table x d) :: w_log w.
Proof.
  intros Hno Hf.
  unfold BigQueryExtractor.extract_events, BigQueryExtractor._table_exists.
  unfold_py. unfold BQ.get_table, client_call. simpl.
  fold (events_table x d).
  destruct (w_faults w) as [|[e|] fs]; simpl in Hf; try discriminate; simpl;
    (destruct (decide _) as [Hin|_]; [contradiction|]); simpl;
    eexists; split; reflexivity.
Qed.

(** When the probe of the table is cut by an exception, only a
    [NotFound] is read as a missing table; any other exception comes out
    of [extract_events] as it is. *)
Theorem extract_events_probe_error (d : string) (w : World)
    (e : Exn) (fs : list (option Exn)) :
  w_faults w = Some e :: fs ->
  fst (BigQueryExtractor.extract_events x d w)
  = if bool_decide (exn_class e = NotFound) then Ok empty_frame else Raise e.
Proof.
  intros Hf.
  unfold BigQueryExtractor.extract_events, BigQueryExtractor._table_exists.
  unfold_py. unfold BQ.get_table, client_call. simpl. rewrite Hf. simpl.
  by destruct (exn_class e).
Qed.

(** A day with a table, and no fault in transport: the query is the
    template filled in with the table name and the date without its
    dashes, and the frame returned is the one the warehouse gives for that
    query, after the three calls [get_table], [query], [to_dataframe]. *)
Theorem extract_events_runs_query (d : string) (w : World)
    (template : string -> string -> Result string) (q : string) :
  events_table x d ∈ w_tables w ->
  w_faults w = [] ->
  w_template w = Some template ->
  template (events_table x d) (PyStr.replace "-" "" d) = Ok q ->
  exists w',
    BigQueryExtractor.extract_events x d w = (Ok (w_query_result w q), w') /\
    w_log w'
    = BQ_to_dataframe q :: BQ_query q :: BQ_get_table (events_table x d) :: w_log w.
Proof.
  intros Hin Hf Ht Hq.
  unfold BigQueryExtractor.extract_events, BigQueryExtractor._table_exists,
    BigQueryExtractor._build_events_query, BigQueryExtractor._load_query.
  unfold_py. unfold BQ.get_table, BQ.query, BQ.to_dataframe, client_call. simpl.
  fold (events_table x d). rewrite Hf. simpl.
  destruct (decide _) as [_|Hno]; [|contradiction]. simpl.
  rewrite Ht, Hq. simpl. rewrite Hf. simpl. rewrite Hf. simpl.
  eexists; split; reflexivity.
Qed.

(** A day with a table and no query file: [extract_events] raises
    [FileNotFoundError] after the probe of the table, with no query
    sent. *)
Theorem extract_events_template_missing (d : string) (w : World) :
  events_table x d ∈ w_tables w ->
  hd None (w_faults w) = None ->
  w_template w = None ->
  exists e w',
    BigQueryExtractor.extract_events x d w = (Raise e, w') /\
    exn_class e = FileNotFoundError /\
    w_log w' = BQ_get_table (events_table x d) :: w_log w.
Proof.
  intros Hin Hf Ht.
  unfold BigQueryExtractor.extract_events, BigQueryExtractor._table_exists,
    BigQueryExtractor._build_events_query, BigQueryExtractor._load_query.
  unfold_py. unfold BQ.get_table, client_call. simpl.
  fold (events_table x d).
  destruct (w_faults w) as [|[e|] fs]; simpl in Hf; try discriminate; simpl;
    (destruct (decide _) as [_|Hno]; [|contradiction]); simpl; rewrite Ht;
    eexists _, _; repeat split; reflexivity.
Qed.

End Extractor.

(** ** The pipeline, function by function *)

Section PipelineFacts.

Import Pipeline PyDate CalendarFacts.

Variable self : Pipeline.t.

Lemma try_except_default {A} (m : M A) (a : A) (w : World) :
  exists b w', try_except m (fun _ => mret a) w = (Ok b, w').
Proof. unfold_py. destruct (m w) as [[b|e] w']; eauto. Qed.

(** [test_connections] is the two connection tests one after the other:
    neither raises, the sink is probed whatever the source answered, and
    the source is reported connected exactly when its one call was not cut
    by an exception. *)
Theorem test_connections_runs_both (w : World) :
  exists c w1 w',
    BigQueryExtractor.test_connection (extractor self) w = (Ok (bigquery c), w1) /\
    S3Loader.test_connection (loader self) w1 = (Ok (s3 c), w') /\
    test_connections self w = (Ok c, w') /\
    (bigquery c = true <-> forall e, hd None (w_faults w) <> Some e).
Proof.
  unfold test_connections. unfold_py.
  assert (H1 : exists b w1,
    BigQueryExtractor.test_connection (extractor self) w = (Ok b, w1) /\
    (b = true <-> forall e, hd None (w_faults w) <> Some e)).
  { unfold BigQueryExtractor.test_connection. unfold_py.
    unfold BQ.get_dataset, client_call. simpl.
    destruct (w_faults w) as [|[e|] fs]; simpl; eexists _, _;
      (split; [reflexivity|]); split; try done.
    intros H. by destruct (H e). }
  destruct H1 as (b & w1 & E1 & Hb). rewrite E1.
  assert (H2 : exists b' w', S3Loader.test_connection (loader self) w1 = (Ok b', w')).
  { apply try_except_default. }
  destruct H2 as (b' & w' & E2). rewrite E2.
  exists (mkConnections b b'), w1, w'. simpl. auto.
Qed.


(** With [skip_existing=False] no day is ever skipped, and the sink is
    never asked what it holds: the run makes calls on the warehouse and
    [put_object] calls only. *)
Theorem run_daily_forced_never_checks (d : string) (w : World) :
  exists r w',
    run_daily self (Some d) false w = (Ok r, w') /\
    skipped r = false /\
    grows_by (fun c => is_bq_call c \/ is_put_object c) w w'.
Proof.
  assert (E1 : existence_check self d false w = (Ok false, w)) by reflexivity.
  destruct (BigQueryExtractor.extract_events (extractor self) d w)
    as [[df|e] w2] eqn:E2;
    pose proof (extract_events_calls _ _ _ _ _ E2) as C2;
    apply (grows_by_weaken _ (fun c => is_bq_call c \/ is_put_object c)) in C2;
    try (intros c Hc; by left).
  - destruct (df_empty df) eqn:Hdf.
    + rewrite (run_daily_no_data self d false w w w2 df E1 E2 Hdf). eauto.
    + destruct (S3Loader.upload_events (loader self) df d "events" w2)
        as [[k|e] w3] eqn:E3;
        pose proof (upload_events_calls _ _ _ _ _ _ _ E3) as C3;
        apply (grows_by_weaken _ (fun c => is_bq_call c \/ is_put_object c)) in C3;
        try (intros c Hc; by right).
      * rewrite (run_daily_loaded self d false w w w2 w3 df k E1 E2 Hdf E3).
        eexists _, _. repeat split. eapply grows_by_trans; eassumption.
      * rewrite (run_daily_upload_raises self d false w w w2 w3 df e E1 E2 Hdf E3).
        eexists _, _. repeat split. eapply grows_by_trans; eassumption.
  - rewrite (run_daily_extract_raises self d false w w w2 e E1 E2). eauto.
Qed.

(** *** The backfill as the summary of its daily runs *)

Variable skip_existing : bool.

Lemma backfill_day_records {R} (ds : string) (report : BackfillReport) (w : World) :
  exists r w',
    run_daily self (Some ds) skip_existing w = (Ok r, w') /\
    date r = ds /\
    backfill_day (R := R) self skip_existing ds report w
    = (Next tt, record_day r report, w').
Proof.
  destruct (run_daily_cases self ds skip_existing w) as (r & w' & E & Hd & _).
  exists r, w'. split; [exact E|]. split; [exact Hd|].
  unfold backfill_day, record_day. unfold_py. rewrite E, Hd.
  by destruct (success r); [destruct (skipped r)|].
Qed.

Lemma backfill_loop_runs_days (end_ : datetime) :
  valid end_ = true ->
  forall (fuel : nat) (current : datetime) (report : BackfillReport) (w : World),
    valid current = true ->
    (span current end_ <= fuel)%nat ->
    exists results w',
      run_days self skip_existing (day_strings current end_) w = (results, w') /\
      map date results = day_strings current end_ /\
      backfill_loop fuel self skip_existing end_ current report w
      = (if le current end_ && bool_decide (end_ = max)
         then Throw overflow else Next tt, summarise report results, w').
Proof.
  intros Hend fuel. unfold day_strings.
  induction fuel as [|fuel IH]; intros current report w Hcur Hfuel.
  - destruct (le current end_) eqn:Hle.
    + destruct (span_le current end_ Hcur Hend Hle) as (n & E & _). lia.
    + simpl. rewrite Hle, (span_gt current end_ Hcur Hend Hle). simpl.
      by exists [], w.
  - simpl. destruct (le current end_) eqn:Hle.
    + destruct (span_le current end_ Hcur Hend Hle) as (n & E & Heq & Hne).
      rewrite E. simpl.
      destruct (backfill_day_records (R := option BackfillReport)
                  (strftime current) report w) as (r1 & w1 & E1 & D1 & B1).
      unfold_py. rewrite E1, B1. unfold add_one_day.
      destruct (decide (current = max)) as [Hmax|Hmax].
      * destruct (decide (current = end_)) as [->|Hce];
          [|destruct (Hne Hce); contradiction].
        rewrite (Heq eq_refl). simpl.
        rewrite bool_decide_eq_true_2 by assumption.
        exists [r1], w1. simpl. by rewrite D1.
      * assert (Hnext : valid (next_day current) = true)
          by (apply next_day_valid; assumption).
        destruct (decide (current = end_)) as [->|Hce].
        -- rewrite (Heq eq_refl).
           assert (Hgt : le (next_day end_) end_ = false).
           { destruct (le (next_day end_) end_) eqn:L; [|reflexivity].
             apply (le_toordinal _ _ Hnext Hend) in L.
             rewrite (next_day_toordinal end_ Hend) in L. lia. }
           destruct (IH (next_day end_) (record_day r1 report) w1 Hnext)
             as (rs & w2 & R2 & D2 & E2).
           { rewrite (span_gt _ _ Hnext Hend Hgt). lia. }
           rewrite Hgt in E2. simpl in E2. rewrite E2.
           rewrite bool_decide_eq_false_2 by assumption.
           rewrite (span_gt _ _ Hnext Hend Hgt) in R2, D2. simpl in *.
           injection R2 as <- <-.
           exists [r1], w1. simpl. by rewrite D1.
        -- destruct (Hne Hce) as [En _].
           destruct (IH (next_day current) (record_day r1 report) w1 Hnext)
             as (rs & w2 & R2 & D2 & E2); [lia|].
           assert (Hle' : le (next_day current) end_ = true).
           { apply (le_toordinal _ _ Hnext Hend).
             rewrite (next_day_toordinal current Hcur).
             apply (le_toordinal _ _ Hcur Hend) in Hle.
             assert (toordinal current <> toordinal end_)
               by (intros E'; apply Hce, toordinal_inj; assumption).
             lia. }
           rewrite Hle' in E2. rewrite E2. rewrite <- En in R2, D2.
           exists (r1 :: rs), w2. simpl. rewrite R2, D1, D2. done.
    + rewrite (span_gt current end_ Hcur Hend Hle). simpl.
      by exists [], w.
Qed.

Lemma summarise_fields (results : list DailyResult) (init : BackfillReport) :
  successful_days (summarise init results)
  = successful_days init ++ map date (List.filter is_loaded results) /\
  skipped_days (summarise init results)
  = skipped_days init ++ map date (List.filter is_skipped results) /\
  failed_days (summarise init results)
  = failed_days init
    ++ map (fun r => mkFailed (date r) (error r)) (List.filter is_failed results) /\
  total_records (summarise init results)
  = (total_records init
     + sum_nat (map records_extracted (List.filter is_loaded results)))%nat /\
  start_date (summarise init results) = start_date init /\
  end_date (summarise init results) = end_date init /\
  total_days (summarise init results) = total_days init.
Proof.
  revert init. induction results as [|r rs IH]; intros init.
  - simpl. rewrite !app_nil_r. repeat split; lia.
  - simpl. destruct (IH (record_day r init)) as (H1 & H2 & H3 & H4 & H5 & H6 & H7).
    unfold summarise in *.
    rewrite H1, H2, H3, H4, H5, H6, H7. clear.
    unfold record_day, is_loaded, is_skipped, is_failed.
    destruct (success r), (skipped r); simpl; rewrite <- ?app_assoc; simpl;
      repeat split; try reflexivity; lia.
Qed.

(** The report of a backfill is the summary of the daily runs of its
    days, made in order, each in the world the one before has left: the
    loaded days go to [successful_days], the skipped ones to
    [skipped_days], the others to [failed_days] with their error, and
    [total_records] adds up the records of the loaded days only. *)
Theorem backfill_summarises_daily_runs
    (s e : string) (start end_ : datetime) (w : World) :
  strptime s = Ok start -> strptime e = Ok end_ ->
  le start end_ = true -> end_ <> max ->
  exists results report w',
    run_days self skip_existing (day_strings start end_) w = (results, w') /\
    backfill self s e skip_existing w = (Ok (Some report), w') /\
    map date results = day_strings start end_ /\
    successful_days report = map date (List.filter is_loaded results) /\
    skipped_days report = map date (List.filter is_skipped results) /\
    failed_days report
    = map (fun r => mkFailed (date r) (error r)) (List.filter is_failed results) /\
    total_records report
    = sum_nat (map records_extracted (List.filter is_loaded results)).
Proof.
  intros Hs He Hle Hmax.
  pose proof (strptime_valid _ _ Hs) as Vs.
  pose proof (strptime_valid _ _ He) as Ve.
  destruct (backfill_loop_runs_days end_ Ve (span start end_) start
              (mkReport s e (sub_days end_ start + 1) [] [] [] 0) w Vs
              ltac:(lia)) as (results & w' & R & D & E).
  destruct (summarise_fields results
              (mkReport s e (sub_days end_ start + 1) [] [] [] 0))
    as (H1 & H2 & H3 & H4 & _).
  exists results, (summarise (mkReport s e (sub_days end_ start + 1) [] [] [] 0)
                     results), w'.
  repeat split; try assumption.
  unfold backfill. unfold_py. rewrite Hs, He.
  assert (Hgt : gt start end_ = false).
  { unfold le in Hle. by destruct (gt start end_). }
  rewrite Hgt. fold (span start end_). rewrite E, Hle. simpl.
  by rewrite bool_decide_eq_false_2.
Qed.

End PipelineFacts.

(** ** The status report and the bucket *)

Section StatusFacts.

Import Pipeline ListingFacts.

Variable self : Pipeline.t.

Lemma bq_test_connection_keeps_bucket (x : BigQueryExtractor.t) :
  keeps_bucket (BigQueryExtractor.test_connection x).
Proof.
  unfold BigQueryExtractor.test_connection.
  apply keeps_bucket_try_except; [|intros e; apply keeps_bucket_ret].
  apply keeps_bucket_bind; [apply get_dataset_keeps_bucket|].
  intros _. apply keeps_bucket_ret.
Qed.

Lemma s3_test_connection_keeps_objects (l : S3Loader.t) (w w' : World)
    (r : Result bool) :
  S3Loader.test_connection l w = (r, w') ->
  (forall objects, w_bucket w = Some objects -> w_bucket w' = Some objects) /\
  (S3Loader.use_localstack l = false -> w_bucket w' = w_bucket w).
Proof.
  unfold S3Loader.test_connection. unfold_py.
  unfold S3.head_bucket, S3.create_bucket, client_call. simpl.
  destruct (S3Loader.use_localstack l); simpl;
    destruct (w_faults w) as [|[e|] fs] eqn:Hf; simpl;
    try (destruct (w_bucket w) as [objects|] eqn:Ho; simpl);
    rewrite ?Hf; simpl;
    try (destruct (exn_class e); simpl);
    try (destruct (String.eqb (exn_code e) "404"); simpl);
    try (destruct fs as [|[e'|] fs']; simpl);
    rewrite ?Ho; simpl;
    try (destruct (w_bucket w) as [objects|] eqn:Ho; simpl);
    intros [= _ <-]; simpl; rewrite ?Ho; split; congruence.
Qed.

(** The status report never changes a bucket that exists, and outside the
    sandbox it does not create one either. *)
Theorem get_pipeline_status_keeps_objects (w w' : World) (r : Result Status) :
  get_pipeline_status self w = (r, w') ->
  (forall objects, w_bucket w = Some objects -> w_bucket w' = Some objects) /\
  (S3Loader.use_localstack (loader self) = false -> w_bucket w' = w_bucket w).
Proof.
  intros E.
  destruct (get_pipeline_status_cases self w) as (conns & w1 & T & H).
  assert (B1 : (forall objects, w_bucket w = Some objects ->
                                w_bucket w1 = Some objects) /\
               (S3Loader.use_localstack (loader self) = false ->
                w_bucket w1 = w_bucket w)).
  { unfold test_connections in T. unfold_py.
    destruct (BigQueryExtractor.test_connection (extractor self) w)
      as [rb wa] eqn:Ea.
    pose proof (bq_test_connection_keeps_bucket _ _ _ _ Ea) as Ba.
    assert (exists rs, S3Loader.test_connection (loader self) wa = (rs, w1))
      as [rs Eb].
    { destruct rb; simpl in T;
        destruct (S3Loader.test_connection (loader self) wa) as [[b'|e'] wb];
        injection T as _ <-; eauto. }
    destruct (s3_test_connection_keeps_objects _ _ _ _ Eb) as [K1 K2].
    rewrite Ba in K1, K2. by split. }
  assert (B3 : w_bucket w' = w_bucket w1).
  { destruct (BigQueryExtractor.get_available_dates (extractor self) 30 w1)
      as [[bq|e] w2] eqn:E2;
      pose proof (get_available_dates_keeps_bucket _ _ _ _ _ E2) as B2.
    - destruct (S3Loader.list_available_dates (loader self) "events" 30 w2)
        as [[sd|e] w3] eqn:E3;
        pose proof (list_available_dates_keeps_bucket _ _ _ _ _ _ E3) as B3;
        rewrite H in E; injection E as _ <-; congruence.
    - rewrite H in E. injection E as _ <-. congruence. }
  rewrite B3. exact B1.
Qed.

(** For a loader whose prefix has neither a [month=] part nor a [day=]
    part, the status report has no date of the sink and counts every date
    of the source as missing, whatever the bucket holds. *)
Theorem status_misses_every_partition (w w' : World) (status : Status) :
  filter (fun q => PyStr.startswith "month=" q = true)
         (PyStr.split "/" (S3Loader.prefix (loader self))) = [] ->
  filter (fun q => PyStr.startswith "day=" q = true)
         (PyStr.split "/" (S3Loader.prefix (loader self))) = [] ->
  get_pipeline_status self w = (Ok status, w') ->
  s3_available_dates status = [] /\
  missing_dates status = bigquery_available_dates status.
Proof.
  intros Hm Hd E.
  destruct (get_pipeline_status_cases self w) as (conns & w1 & _ & H).
  destruct (BigQueryExtractor.get_available_dates (extractor self) 30 w1)
    as [[bq|e] w2].
  - pose proof (list_available_dates_one_level_empty (loader self) 30 w2 Hm Hd)
      as Hl.
    destruct (S3Loader.list_available_dates (loader self) "events" 30 w2)
      as [[sd|e] w3]; simpl in Hl; [|discriminate].
    injection Hl as ->. rewrite H in E. injection E as <- _. simpl.
    by rewrite the_missing_nil.
  - rewrite H in E. by injection E as <- _.
Qed.

End StatusFacts.

(** ** The loader's prefix and its keys *)

Section PrefixFacts.

Import ListingFacts.

Lemma rstrip_snoc (c : ascii) (s : string) :
  PyStr.rstrip c (s +:+ String c EmptyString) = PyStr.rstrip c s.
Proof.
  induction s as [|a s IH].
  - cbv beta iota delta [String.append PyStr.rstrip]. by rewrite Ascii.eqb_refl.
  - rewrite append_cons. cbn [PyStr.rstrip]. by rewrite IH.
Qed.

Lemma rstrip_idem (c : ascii) (s : string) :
  PyStr.rstrip c (PyStr.rstrip c s) = PyStr.rstrip c s.
Proof.
  induction s as [|a s IH]; [reflexivity|].
  cbn [PyStr.rstrip]. destruct (PyStr.rstrip c s) as [|b r] eqn:E.
  - destruct (Ascii.eqb a c) eqn:Ea; [reflexivity|].
    cbn [PyStr.rstrip]. by rewrite Ea.
  - cbn [PyStr.rstrip] in *. by rewrite IH.
Qed.

(** A trailing slash of the configured prefix changes nothing, and the
    prefix a loader keeps has no trailing slash left to strip. *)
Theorem init_ignores_trailing_slash
    (bucket_name prefix region : string) (use_localstack : bool) :
  S3Loader.init bucket_name (prefix +:+ "/") region use_localstack
  = S3Loader.init bucket_name prefix region use_localstack /\
  S3Loader.init bucket_name
    (S3Loader.prefix (S3Loader.init bucket_name prefix region use_localstack))
    region use_localstack
  = S3Loader.init bucket_name prefix region use_localstack.
Proof.
  unfold S3Loader.init. simpl. by rewrite rstrip_snoc, rstrip_idem.
Qed.

End PrefixFacts.

(** ** The settings *)

Section SettingsFacts.

(** [validate] returns [True] exactly when the three required settings
    are set (to any string, the empty one included); it never returns
    [False]; otherwise it raises a [ValueError] whose message lists the
    required settings that are not set, and only those. *)
Theorem validate_spec (cls : Settings.t) :
  (Settings.validate cls = Ok true <->
   is_Some (Settings.GCP_PROJECT_ID cls) /\
   is_Some (Settings.GA4_DATASET_ID cls) /\
   is_Some (Settings.S3_BUCKET cls)) /\
  Settings.validate cls <> Ok false /\
  (forall e, Settings.validate cls = Raise e ->
     exn_class e = ValueError /\
     exists missing,
       missing <> [] /\
       exn_msg e = "Missing required environment variables: "
                   +:+ Settings.repr_list missing /\
       forall key, key ∈ missing <->
                   key ∈ Settings.required /\ Settings.getattr cls key = None).
Proof.
  unfold Settings.validate, Settings.required.
  destruct cls as [[p|] [d|] c r [b|] x]; cbn;
    (split; [split; [try discriminate; intros _; repeat split; eauto
                    | try reflexivity; intros (H1 & H2 & H3);
                      exfalso; by first [apply is_Some_None in H1
                                        | apply is_Some_None in H2
                                        | apply is_Some_None in H3]]|]);
    (split; [discriminate|]); intros e; try discriminate;
    intros [= <-]; (split; [reflexivity|]);
    eexists; (split; [|split; [reflexivity|]]); try discriminate;
    intros key; rewrite ?elem_of_cons, ?elem_of_nil;
    unfold Settings.getattr; cbn;
    (split; [intros H; repeat destruct H as [H|H]; subst; cbn; try done;
             auto 10
            | intros [H G]; repeat destruct H as [H|H]; subst; cbn in G;
              try done; auto 10]).
Qed.

End SettingsFacts.

(** ** The two objects of a partition *)

Section SidecarFacts.

Import ListingFacts.

Lemma length_append (a b : string) :
  String.length (a +:+ b) = (String.length a + String.length b)%nat.
Proof.
  induction a as [|c a IH]; [reflexivity|].
  rewrite append_cons. simpl. by rewrite IH.
Qed.

(** [replace] never shortens a text when the new part is longer than the
    old one. *)
Lemma replace_aux_length (s : string) (k : nat) :
  (String.length s
   <= String.length (PyStr.replace_aux "/data.parquet" "/metadata.json" k s) + k)%nat.
Proof.
  revert k. induction s as [|c s IH]; intros k; [simpl; lia|].
  cbn [PyStr.replace_aux]. destruct k as [|k].
  - destruct (String.prefix _ _).
    + rewrite length_append. specialize (IH (String.length "/data.parquet" - 1)%nat).
      simpl in *. lia.
    + specialize (IH O). simpl in *. lia.
  - specialize (IH k). simpl in *. lia.
Qed.

Lemma replace_suffix_longer (a : string) :
  (String.length (a +:+ "/data.parquet")
   < String.length (PyStr.replace "/data.parquet" "/metadata.json"
                      (a +:+ "/data.parquet")))%nat.
Proof.
  unfold PyStr.replace. induction a as [|c a IH]; [vm_compute; lia|].
  rewrite append_cons. cbn [PyStr.replace_aux].
  destruct (String.prefix _ _).
  - rewrite length_append.
    pose proof (replace_aux_length (a +:+ "/data.parquet")
                  (String.length "/data.parquet" - 1)) as H.
    simpl in *. lia.
  - simpl in *. lia.
Qed.

(** The metadata object never lands on the data object. *)
Lemma metadata_key_differs (l : S3Loader.t) (data_type y m dd : string) :
  metadata_key (S3Loader.data_key l data_type y m dd)
  <> S3Loader.data_key l data_type y m dd.
Proof.
  unfold metadata_key, S3Loader.data_key.
  set (a := S3Loader.prefix l +:+ "/" +:+ data_type +:+ "/year=" +:+ y
            +:+ "/month=" +:+ m +:+ "/day=" +:+ dd).
  replace (S3Loader.prefix l +:+ "/" +:+ data_type +:+ "/year=" +:+ y
           +:+ "/month=" +:+ m +:+ "/day=" +:+ dd +:+ "/data.parquet")
    with (a +:+ "/data.parquet")
    by (unfold a; by rewrite !append_assoc).
  intros E. pose proof (replace_suffix_longer a) as H. rewrite E in H. lia.
Qed.

Variable l : S3Loader.t.

(** An upload that nothing interrupts writes two objects and touches
    nothing else: the frame's bytes under the key of the day, and next to
    it, under a different key, the metadata with the date, the record
    count, the columns, the size and the data key. *)
Theorem upload_events_writes_both_objects
    (df : DataFrame) (d data_type y m dd buf : string)
    (objects : gmap string S3Object) (w : World) :
  df_empty df = false ->
  unpack3 (PyStr.split "-" d) = Ok (y, m, dd) ->
  df_to_parquet df = Ok buf ->
  w_bucket w = Some objects ->
  w_faults w = [] ->
  let key := S3Loader.data_key l data_type y m dd in
  exists objects' w',
    S3Loader.upload_events l df d data_type w = (Ok (Some key), w') /\
    w_bucket w' = Some objects' /\
    objects' !! key = Some (data_object buf) /\
    objects' !! metadata_key key
    = Some (metadata_object df d data_type key (String.length buf) (w_now w)) /\
    (forall k, k <> key -> k <> metadata_key key -> objects' !! k = objects !! k) /\
    w_log w' = S3_put_object (metadata_key key) :: S3_put_object key :: w_log w.
Proof.
  intros Hne Hd Hb Ho Hf key.
  unfold S3Loader.upload_events, S3Loader._upload_metadata.
  rewrite Hne. unfold_py. rewrite Hd, Hb.
  unfold S3.put_object, client_call. simpl. rewrite Hf, Ho. simpl.
  rewrite Hf. simpl.
  eexists _, _. split; [reflexivity|]. split; [reflexivity|].
  fold key. fold (metadata_key key).
  pose proof (metadata_key_differs l data_type y m dd) as Hk. fold key in Hk.
  split; [|split; [|split]].
  - rewrite lookup_insert_ne by exact Hk. apply lookup_insert_eq.
  - apply lookup_insert_eq.
  - intros k H1 H2. by rewrite !lookup_insert_ne.
  - reflexivity.
Qed.

End SidecarFacts.

(** ** One partition per day *)

Section PartitionFacts.

Import PyDate CalendarFacts ListingFacts.

Lemma split_dash_digit (k : Z) (s : string) :
  0 <= k <= 9 ->
  PyStr.split "-" (String (PyStr.digit_char k) s)
  = match PyStr.split "-" s with
    | [] => [String (PyStr.digit_char k) EmptyString]
    | f :: fs => String (PyStr.digit_char k) f :: fs
    end.
Proof.
  intros H.
  assert (C : k = 0 \/ k = 1 \/ k = 2 \/ k = 3 \/ k = 4 \/ k = 5 \/ k = 6 \/
              k = 7 \/ k = 8 \/ k = 9) by lia.
  repeat (destruct C as [C | C]; [subst k; reflexivity | ]).
  subst k; reflexivity.
Qed.

Lemma split_dash_digits (width : nat) (z : Z) :
  (0 < width)%nat -> PyStr.split "-" (digits width z) = [digits width z].
Proof.
  revert z. induction width as [|n IH]; intros z Hw; [lia|].
  cbn [digits].
  assert (Hd : 0 <= z mod 10 <= 9) by (Z.div_mod_to_equations; lia).
  destruct n as [|n].
  - cbn [digits]. rewrite append_nil_l, split_dash_digit by exact Hd. reflexivity.
  - specialize (IH (z / 10) ltac:(lia)).
    pose proof (split_dash_digit (z mod 10) EmptyString Hd) as S1.
    change (PyStr.split "-" (String (PyStr.digit_char (z mod 10)) EmptyString)
            = [String (PyStr.digit_char (z mod 10)) EmptyString]) in S1.
    revert IH S1.
    generalize (digits (S n) (z / 10))
               (String (PyStr.digit_char (z mod 10)) EmptyString).
    clear. intros t u Ht Hu. revert Ht.
    induction t as [|a t IHt]; intros Ht.
    + by rewrite append_nil_l.
    + rewrite append_cons. cbn [PyStr.split] in *.
      destruct (Ascii.eqb a "-"); [discriminate|].
      destruct (PyStr.split "-" t) as [|f fs] eqn:Et.
      * by destruct (split_not_nil "-" t).
      * injection Ht as -> ->. by rewrite (IHt eq_refl).
Qed.

Lemma split_strftime (d : datetime) :
  PyStr.split "-" (strftime d)
  = [digits 4 (year d); digits 2 (month d); digits 2 (day d)].
Proof.
  unfold strftime.
  change (digits 4 (year d) +:+ "-" +:+ digits 2 (month d) +:+ "-"
          +:+ digits 2 (day d))
    with (digits 4 (year d)
          +:+ String "-" (digits 2 (month d) +:+ String "-" (digits 2 (day d)))).
  rewrite !split_app, !split_dash_digits by lia. reflexivity.
Qed.

Lemma digits_length (width : nat) (z : Z) : String.length (digits width z) = width.
Proof.
  revert z. induction width as [|n IH]; intros z; [reflexivity|].
  cbn [digits].
  rewrite length_append, IH. simpl. lia.
Qed.

Lemma append_inj_l (a x y : string) : a +:+ x = a +:+ y -> x = y.
Proof.
  induction a as [|c a IH]; [by rewrite !append_nil_l|].
  rewrite !append_cons. intros [= H]. by apply IH.
Qed.

Lemma append_inj_length (a b x y : string) :
  String.length a = String.length b -> a +:+ x = b +:+ y -> a = b /\ x = y.
Proof.
  revert b. induction a as [|c a IH]; intros [|c' b] Hl; try discriminate.
  - by rewrite !append_nil_l.
  - rewrite !append_cons. intros [= -> H].
    destruct (IH b ltac:(simpl in Hl; lia) H) as [-> ->]. done.
Qed.

Variable l : S3Loader.t.

(** Every calendar day has a data key, and two days have the same key
    only if they are the same day. *)
Theorem one_partition_per_day (data_type : string) (a b : datetime) :
  valid a = true -> valid b = true ->
  exists ya ma da yb mb db,
    unpack3 (PyStr.split "-" (strftime a)) = Ok (ya, ma, da) /\
    unpack3 (PyStr.split "-" (strftime b)) = Ok (yb, mb, db) /\
    (S3Loader.data_key l data_type ya ma da = S3Loader.data_key l data_type yb mb db
     <-> a = b).
Proof.
  intros Va Vb. rewrite !split_strftime. cbn [unpack3].
  eexists _, _, _, _, _, _. split; [reflexivity|]. split; [reflexivity|].
  split; [|by intros ->].
  unfold S3Loader.data_key. intros E.
  do 3 apply append_inj_l in E.
  apply append_inj_l in E.
  apply append_inj_length in E as [Ey E]; [|by rewrite !digits_length].
  apply append_inj_l in E.
  apply append_inj_length in E as [Em E]; [|by rewrite !digits_length].
  apply append_inj_l in E.
  apply append_inj_length in E as [Ed _]; [|by rewrite !digits_length].
  apply strftime_inj; [exact Va | exact Vb|].
  unfold strftime. by rewrite Ey, Em, Ed.
Qed.

End PartitionFacts.

(** ** The concrete deployment, function by function *)

Module DeploymentFacts.

Import Scenario Pipeline.

(** January 2nd is uploaded, then found. *)
Lemma check_exists_after_upload_witness :
  S3Loader.upload_events the_loader three_rows "2024-01-02" "events" world
  = (Ok (Some key_of_january_2nd),
     snd (S3Loader.upload_events the_loader three_rows "2024-01-02" "events" world)) /\
  exists w'',
    S3Loader.check_exists the_loader "2024-01-02" "events"
      (snd (S3Loader.upload_events the_loader three_rows "2024-01-02" "events" world))
    = (Ok true, w'').
Proof.
  pose proof (outcome_eq
                (S3Loader.upload_events the_loader three_rows "2024-01-02" "events"
                   world)
                (Ok (Some key_of_january_2nd))
                ltac:(vm_compute; reflexivity)) as H.
  split; [exact H|].
  exact (check_exists_after_upload the_loader three_rows "2024-01-02" "events"
           key_of_january_2nd world _ H ltac:(vm_compute; reflexivity)).
Defined.

(** The empty frame. *)
Lemma upload_events_none_iff_empty_witness :
  S3Loader.upload_events the_loader empty_frame "2024-01-05" "events" world
  = (Ok None, world) /\
  df_empty empty_frame = true.
Proof.
  assert (H : S3Loader.upload_events the_loader empty_frame "2024-01-05" "events"
                world = (Ok None, world)) by reflexivity.
  split; [exact H|].
  destruct (upload_events_none_iff_empty the_loader empty_frame "2024-01-05"
              "events" None world world H) as [[K _] _].
  exact (K eq_refl).
Defined.

(** A date with slashes. *)
Lemma malformed_date_raises_witness :
  List.length (PyStr.split "-" "2024/01/02") <> 3%nat /\
  exists e,
    exn_class e = ValueError /\
    S3Loader.check_exists the_loader "2024/01/02" "events" world = (Raise e, world).
Proof.
  assert (H : List.length (PyStr.split "-" "2024/01/02") <> 3%nat)
    by (vm_compute; lia).
  split; [exact H|].
  destruct (malformed_date_raises the_loader three_rows "2024/01/02" "events"
              world H) as (e & Hc & He & _).
  exists e. split; [exact Hc | exact He].
Defined.

(** January 1st is in the bucket. *)
Lemma check_exists_reads_bucket_witness :
  exists b w',
    S3Loader.check_exists the_loader "2024-01-01" "events" world = (Ok b, w') /\
    (b = true <->
     has_object (S3Loader.data_key the_loader "events" "2024" "01" "01") world) /\
    w_bucket w' = w_bucket world.
Proof.
  exact (check_exists_reads_bucket the_loader "2024-01-01" "events"
           "2024" "01" "01" world eq_refl eq_refl).
Defined.

(** A connection reset is no [ClientError]: it comes out. *)
Lemma check_exists_on_error_witness :
  fst (S3Loader.check_exists the_loader "2024-01-01" "events"
         (with_faults [Some connection_reset]))
  = Raise connection_reset.
Proof.
  exact (check_exists_on_error the_loader "2024-01-01" "events" "2024" "01" "01"
           (with_faults [Some connection_reset]) connection_reset []
           eq_refl eq_refl).
Defined.

Lemma test_connection_production_witness :
  S3Loader.use_localstack the_loader = false /\
  exists b w',
    S3Loader.test_connection the_loader world_without_bucket = (Ok b, w') /\
    w_bucket w' = w_bucket world_without_bucket.
Proof.
  split; [reflexivity|].
  destruct (test_connection_production the_loader world_without_bucket eq_refl)
    as (b & w' & E & B & _).
  exists b, w'. split; [exact E | exact B].
Defined.

Lemma test_connection_sandbox_witness :
  S3Loader.use_localstack sandbox_loader = true /\
  exists w',
    S3Loader.test_connection sandbox_loader world_without_bucket = (Ok true, w') /\
    w_bucket w' = Some ∅.
Proof.
  split; [reflexivity|].
  destruct (test_connection_sandbox sandbox_loader world_without_bucket eq_refl)
    as (b & w' & E & _ & _ & H).
  destruct (H eq_refl) as [-> K].
  exists w'. split; [exact E | exact (K eq_refl)].
Defined.

(** The table of January 2nd is in the warehouse, eight days before the
    clock's day. *)
Lemma get_available_dates_complete_witness :
  PyDate.valid (PyDate.mkDate 2024 1 2) = true /\
  1000 <= PyDate.year (PyDate.mkDate 2024 1 2) /\
  events_table the_extractor (PyDate.strftime (PyDate.mkDate 2024 1 2))
  ∈ w_tables world /\
  PyDate.sub_days (w_now world) (PyDate.mkDate 2024 1 2) <= 30 /\
  exists dates w',
    BigQueryExtractor.get_available_dates the_extractor 30 world = (Ok dates, w') /\
    "2024-01-02"%string ∈ dates.
Proof.
  assert (H1 : events_table the_extractor (PyDate.strftime (PyDate.mkDate 2024 1 2))
               ∈ w_tables world)
    by (apply (bool_decide_unpack _); vm_compute; exact I).
  assert (H2 : PyDate.sub_days (w_now world) (PyDate.mkDate 2024 1 2) <= 30)
    by (vm_compute; discriminate).
  assert (H0 : 1000 <= PyDate.year (PyDate.mkDate 2024 1 2)) by (simpl; lia).
  split; [reflexivity|]. split; [exact H0|]. split; [exact H1|].
  split; [exact H2|].
  exact (get_available_dates_complete the_extractor 30 (PyDate.mkDate 2024 1 2)
           world eq_refl H0 H1 H2 eq_refl).
Defined.

(** The three tables of the warehouse: January 2nd is listed, read off
    its table. *)
Lemma get_available_dates_sound_witness :
  BigQueryExtractor.get_available_dates the_extractor 30 world
  = (Ok ["2024-01-03"; "2024-01-02"; "2024-01-01"]%string,
     snd (BigQueryExtractor.get_available_dates the_extractor 30 world)) /\
  descending ["2024-01-03"; "2024-01-02"; "2024-01-01"]%string /\
  exists d table_id date_str,
    "proj.analytics_1." +:+ table_id ∈ w_tables world /\
    PyStr.startswith "events_" table_id = true /\
    PyStr.split "_" table_id !! 1%nat = Some date_str /\
    PyDate.strptime_compact date_str = Ok d /\
    PyDate.valid d = true /\
    PyDate.sub_days (w_now world) d <= 30 /\
    "2024-01-02"%string = PyDate.strftime d.
Proof.
  pose proof (outcome_eq
                (BigQueryExtractor.get_available_dates the_extractor 30 world)
                (Ok ["2024-01-03"; "2024-01-02"; "2024-01-01"]%string)
                ltac:(vm_compute; reflexivity)) as H.
  split; [exact H|].
  destruct (get_available_dates_sound the_extractor 30 world _ _ H) as [D M].
  split; [exact D|].
  apply (proj1 (M "2024-01-02"%string)).
  apply (bool_decide_unpack _). vm_compute. exact I.
Defined.

(** January 5th has no table. *)
Lemma extract_events_missing_table_witness :
  (events_table the_extractor "2024-01-05" ∉ w_tables world) /\
  exists w',
    BigQueryExtractor.extract_events the_extractor "2024-01-05" world
    = (Ok empty_frame, w').
Proof.
  assert (H : events_table the_extractor "2024-01-05" ∉ w_tables world)
    by (apply (bool_decide_unpack _); vm_compute; exact I).
  split; [exact H|].
  destruct (extract_events_missing_table the_extractor "2024-01-05" world H eq_refl)
    as (w' & E & _).
  exists w'. exact E.
Defined.

(** The probe cut by a connection reset. *)
Lemma extract_events_probe_error_witness :
  fst (BigQueryExtractor.extract_events the_extractor "2024-01-02"
         (with_faults [Some connection_reset]))
  = Raise connection_reset.
Proof.
  exact (extract_events_probe_error the_extractor "2024-01-02"
           (with_faults [Some connection_reset]) connection_reset [] eq_refl).
Defined.

(** January 2nd: the query of the day. *)
Lemma extract_events_runs_query_witness :
  events_table the_extractor "2024-01-02" ∈ w_tables world /\
  exists w',
    BigQueryExtractor.extract_events the_extractor "2024-01-02" world
    = (Ok three_rows, w') /\
    w_log w'
    = [BQ_to_dataframe query_of_january_2nd; BQ_query query_of_january_2nd;
       BQ_get_table "proj.analytics_1.events_20240102"].
Proof.
  assert (H : events_table the_extractor "2024-01-02" ∈ w_tables world)
    by (apply (bool_decide_unpack _); vm_compute; exact I).
  split; [exact H|].
  exact (extract_events_runs_query the_extractor "2024-01-02" world
           (fun table_name event_date =>
              Ok ("SELECT * FROM `" +:+ table_name +:+ "`"))
           query_of_january_2nd H eq_refl eq_refl eq_refl).
Defined.

(** January 2nd, with the query file missing. *)
Lemma extract_events_template_missing_witness :
  events_table the_extractor "2024-01-02" ∈ w_tables world_without_query_file /\
  exists e w',
    BigQueryExtractor.extract_events the_extractor "2024-01-02"
      world_without_query_file = (Raise e, w') /\
    exn_class e = FileNotFoundError.
Proof.
  assert (H : events_table the_extractor "2024-01-02"
              ∈ w_tables world_without_query_file)
    by (apply (bool_decide_unpack _); vm_compute; exact I).
  split; [exact H|].
  destruct (extract_events_template_missing the_extractor "2024-01-02"
              world_without_query_file H eq_refl eq_refl) as (e & w' & E & C & _).
  exists e, w'. split; [exact E | exact C].
Defined.


(** The four days of the scenario. *)
Lemma backfill_summarises_daily_runs_witness :
  PyDate.strptime "2024-01-01" = Ok (PyDate.mkDate 2024 1 1) /\
  PyDate.strptime "2024-01-04" = Ok (PyDate.mkDate 2024 1 4) /\
  PyDate.le (PyDate.mkDate 2024 1 1) (PyDate.mkDate 2024 1 4) = true /\
  PyDate.mkDate 2024 1 4 <> PyDate.max /\
  exists results report w',
    backfill pipeline "2024-01-01" "2024-01-04" true world
    = (Ok (Some report), w') /\
    total_records report
    = sum_nat (map records_extracted (List.filter is_loaded results)).
Proof.
  assert (H : PyDate.mkDate 2024 1 4 <> PyDate.max) by discriminate.
  repeat split; try reflexivity; try exact H.
  destruct (backfill_summarises_daily_runs pipeline true
              "2024-01-01" "2024-01-04" _ _ world eq_refl eq_refl eq_refl H)
    as (results & report & w' & _ & E & _ & _ & _ & _ & T).
  exists results, report, w'. split; [exact E | exact T].
Defined.

(** The status report in the scenario. *)
Lemma get_pipeline_status_keeps_objects_witness :
  w_bucket (snd (get_pipeline_status pipeline world)) = w_bucket world.
Proof.
  exact (proj2 (get_pipeline_status_keeps_objects pipeline world
                  (snd (get_pipeline_status pipeline world))
                  (fst (get_pipeline_status pipeline world))
                  (surjective_pairing _)) eq_refl).
Defined.

(** The bucket holds January 1st, and the report says it holds nothing. *)
Lemma status_misses_every_partition_witness :
  has_object "bronze/ga4/events/year=2024/month=01/day=01/data.parquet" world /\
  get_pipeline_status pipeline world
  = (Ok (mkStatus (mkConnections true true)
           ["2024-01-03"; "2024-01-02"; "2024-01-01"]%string []
           ["2024-01-03"; "2024-01-02"; "2024-01-01"]%string),
     snd (get_pipeline_status pipeline world)) /\
  s3_available_dates
    (mkStatus (mkConnections true true)
       ["2024-01-03"; "2024-01-02"; "2024-01-01"]%string []
       ["2024-01-03"; "2024-01-02"; "2024-01-01"]%string) = [].
Proof.
  pose proof (outcome_eq (get_pipeline_status pipeline world)
                (Ok (mkStatus (mkConnections true true)
                       ["2024-01-03"; "2024-01-02"; "2024-01-01"]%string []
                       ["2024-01-03"; "2024-01-02"; "2024-01-01"]%string))
                ltac:(vm_compute; reflexivity)) as H.
  split; [|split; [exact H|]].
  - eexists. split; [reflexivity|]. vm_compute. eauto.
  - exact (proj1 (status_misses_every_partition pipeline world _ _
                    ltac:(vm_compute; reflexivity)
                    ltac:(vm_compute; reflexivity) H)).
Defined.

(** The upload of January 2nd. *)
Lemma upload_events_writes_both_objects_witness :
  exists objects' w',
    S3Loader.upload_events the_loader three_rows "2024-01-02" "events" world
    = (Ok (Some (S3Loader.data_key the_loader "events" "2024" "01" "02")), w') /\
    w_bucket w' = Some objects' /\
    objects' !! S3Loader.data_key the_loader "events" "2024" "01" "02"
    = Some (data_object "PAR1").
Proof.
  destruct (upload_events_writes_both_objects the_loader three_rows
              "2024-01-02" "events" "2024" "01" "02" "PAR1" _ world
              eq_refl eq_refl eq_refl eq_refl eq_refl)
    as (objects' & w' & E & B & K & _).
  exists objects', w'. split; [exact E|]. split; [exact B | exact K].
Defined.

(** January 2nd and January 3rd. *)
Lemma one_partition_per_day_witness :
  PyDate.valid (PyDate.mkDate 2024 1 2) = true /\
  PyDate.valid (PyDate.mkDate 2024 1 3) = true /\
  S3Loader.data_key the_loader "events" "2024" "01" "02"
  <> S3Loader.data_key the_loader "events" "2024" "01" "03".
Proof.
  split; [reflexivity|]. split; [reflexivity|].
  destruct (one_partition_per_day the_loader "events"
              (PyDate.mkDate 2024 1 2) (PyDate.mkDate 2024 1 3) eq_refl eq_refl)
    as (ya & ma & da & yb & mb & db & Ha & Hb & H).
  injection Ha as <- <- <-. injection Hb as <- <- <-.
  intros E. apply H in E. discriminate E.
Defined.

End DeploymentFacts.
